(** * School management system: the service handlers and their properties

    A shallow embedding of the Express/Mongoose request handlers of
    [backend/class-service/server.js], the content service,
    [backend/communication-service/server.js], [backend/user-service/server.js]
    and of the [sendPrivateMessage] thunk of the frontend's
    [communicationSlice.js].

    Conventions of the embedding:
    - a Mongoose collection is the list of its documents in insertion order;
      [findOne] and [findById] return the first match;
    - a handler is a function from the request (the decoded token, the
      parameters and the body), the clock reading [now] and the store to a
      response and the new store; [await doc.save()] validates the document
      against its schema and then writes it, and a rejected promise lands in
      the handler's [catch] (status 500);
    - ObjectIds are natural numbers handed out by a counter of the store; the
      text of an id received in a request either casts to an ObjectId or
      raises Mongoose's CastError;
    - request bodies are typed as the schemas type them, an absent field
      ([undefined]) is [None];
    - a string holds the bytes of the UTF-8 encoding of the text;
    - the capacity of a class, a Number that is compared with a counter and
      that no schema holds to whole values, is a rational. *)

From Stdlib Require Import ZArith QArith Qround List String Ascii Bool Lia.
Import ListNotations.

Open Scope string_scope.
Open Scope Z_scope.

(** ** JavaScript and Mongoose primitives shared by the services *)

Module JS.

(** [!!s] of a JavaScript string: the empty string is falsy. *)
Definition truthy (s : string) : bool := negb (String.eqb s "").

(** Truthiness of a possibly undefined string. *)
Definition truthy_opt (o : option string) : bool :=
  match o with
  | Some s => truthy s
  | None => false
  end.

(** [a === b] on possibly undefined strings. *)
Definition strict_eq (a b : option string) : bool :=
  match a, b with
  | Some x, Some y => String.eqb x y
  | None, None => true
  | _, _ => false
  end.

(** A string holds the bytes of the UTF-8 encoding of the JavaScript text. *)
Definition utf8 (bytes : list nat) : string :=
  fold_right (fun n s => String (ascii_of_nat n) s) EmptyString bytes.

(** The white space and the line terminators of ECMAScript, which
    [String.prototype.trim] removes: U+0009 to U+000D, U+0020, U+00A0, U+1680,
    U+2000 to U+200A, U+2028, U+2029, U+202F, U+205F, U+3000 and U+FEFF.  A
    byte 160 that stands outside a sequence is the NO-BREAK SPACE of
    Latin-1. *)
Definition whiteSpace : list string :=
  map utf8
    [ [9]; [10]; [11]; [12]; [13]; [32]; [194; 160]; [225; 154; 128];
      [226; 128; 128]; [226; 128; 129]; [226; 128; 130]; [226; 128; 131];
      [226; 128; 132]; [226; 128; 133]; [226; 128; 134]; [226; 128; 135];
      [226; 128; 136]; [226; 128; 137]; [226; 128; 138];
      [226; 128; 168]; [226; 128; 169]; [226; 128; 175]; [226; 129; 159];
      [227; 128; 128]; [239; 187; 191]; [160] ]%nat.

Definition is_space (character : string) : bool :=
  existsb (String.eqb character) whiteSpace.

(** The number of bytes of the sequence that a first byte announces. *)
Definition sequenceLength (c : ascii) : nat :=
  let n := nat_of_ascii c in
  if (n <? 192)%nat then 1%nat
  else if (n <? 224)%nat then 2%nat
  else if (n <? 240)%nat then 3%nat
  else 4%nat.

Definition is_continuation (c : ascii) : bool :=
  let n := nat_of_ascii c in (128 <=? n)%nat && (n <? 192)%nat.

(** At most [k] continuation bytes at the head of [s], and what follows. *)
Fixpoint takeContinuation (k : nat) (s : string) : string * string :=
  match k, s with
  | S k', String c rest =>
      if is_continuation c then
        let (taken, left) := takeContinuation k' rest in (String c taken, left)
      else (EmptyString, s)
  | _, _ => (EmptyString, s)
  end.

(** The characters of a text, each with the bytes of its sequence. *)
Fixpoint charactersUpTo (fuel : nat) (s : string) : list string :=
  match fuel, s with
  | S fuel', String c rest =>
      let (more, left) := takeContinuation (sequenceLength c - 1) rest in
      String c more :: charactersUpTo fuel' left
  | _, _ => []
  end.

Definition characters (s : string) : list string :=
  charactersUpTo (String.length s) s.

Fixpoint dropWhile {A : Type} (p : A -> bool) (l : list A) : list A :=
  match l with
  | [] => []
  | x :: rest => if p x then dropWhile p rest else l
  end.

(** The [trim: true] setter of a Mongoose string path: [String.prototype.trim],
    the white space of both ends removed. *)
Definition trim (s : string) : string :=
  String.concat EmptyString
    (rev (dropWhile is_space (rev (dropWhile is_space (characters s))))).

(** [toLowerCase] on the ASCII letters, the [lowercase: true] setter. *)
Definition lower_ascii (c : ascii) : ascii :=
  let n := nat_of_ascii c in
  if (65 <=? n)%nat && (n <=? 90)%nat then ascii_of_nat (n + 32) else c.

Fixpoint toLowerCase (s : string) : string :=
  match s with
  | EmptyString => EmptyString
  | String c rest => String (lower_ascii c) (toLowerCase rest)
  end.

(** [enum: [...]] validator of a string path. *)
Definition one_of (allowed : list string) (s : string) : bool :=
  existsb (String.eqb s) allowed.

(** An optional path with an [enum]: an unset value passes. *)
Definition enum_ok (allowed : list string) (o : option string) : bool :=
  match o with
  | Some s => one_of allowed s
  | None => true
  end.

(** [required: true] on a string path: set and not empty. *)
Definition required_ok (o : option string) : bool := truthy_opt o.

End JS.

(** An ObjectId. *)
Definition oid := nat.

(** The text of an id in a request: it casts to an ObjectId or it does not. *)
Inductive IdText : Type :=
| BadId
| GoodId (n : oid).

(** The message of a JSON reply: a literal of the handler, or the first detail
    of a Joi validation error (the key and the rule that failed). *)
Inductive ReplyMessage : Type :=
| Msg (text : string)
| JoiMsg (key : string) (rule : string).

(** The user decoded from the bearer token by [authenticateToken]. *)
Record AuthUser : Type := mkAuthUser {
  u_id : string;
  u_role : string
}.

(** Stable insertion sort, the order of [find(...).sort(...)]: [before a b]
    says that [a] must come strictly before [b]. *)
Section Sorting.
Context {A : Type} (before : A -> A -> bool).

Fixpoint insert_sorted (x : A) (l : list A) : list A :=
  match l with
  | [] => [x]
  | y :: rest => if before y x then y :: insert_sorted x rest
                 else if before x y then x :: l
                 else y :: insert_sorted x rest
  end.

Definition sort_by (l : list A) : list A :=
  fold_left (fun acc x => insert_sorted x acc) l [].
End Sorting.

(** A collection keyed by [_id]: [findById] and the write of [doc.save()] on a
    loaded document, which replaces the stored document of that id. *)
Section Collections.
Context {A : Type} (idOf : A -> oid).

Definition findById (id : oid) (l : list A) : option A :=
  find (fun x => Nat.eqb (idOf x) id) l.

Fixpoint updateOne (doc : A) (l : list A) : list A :=
  match l with
  | [] => []
  | x :: rest => if Nat.eqb (idOf x) (idOf doc) then doc :: rest
                 else x :: updateOne doc rest
  end.
End Collections.

(** [findByIdAndDelete]: the stored document of that id is removed. *)
Section CollectionDelete.
Context {A : Type} (idOf : A -> oid).

Fixpoint deleteOne (id : oid) (l : list A) : list A :=
  match l with
  | [] => []
  | x :: rest => if Nat.eqb (idOf x) id then rest else x :: deleteOne id rest
  end.
End CollectionDelete.

(** ** Class service: [backend/class-service/server.js] *)

Module ClassService.

(** [capacity] is a Number that neither the Joi schema ([number().min(1)])
    nor the Mongoose schema holds to whole values; [enrollmentCount] starts
    at 0 and is only ever written by [+= 1] and [-= 1]. *)
Record Class : Type := mkClass {
  c_id : oid;
  c_name : string;
  c_teacherId : string;
  c_capacity : Q;
  c_enrollmentCount : Z;
  c_status : string;
  c_updatedAt : Z
}.

Record Attendance : Type := mkAttendance {
  at_date : Z;
  at_status : string;
  at_notes : string
}.

Record Enrollment : Type := mkEnrollment {
  e_id : oid;
  e_classId : oid;
  e_studentId : string;
  e_enrollmentDate : Z;
  e_status : option string;
  e_grade : option string;
  e_attendance : list Attendance;
  e_createdAt : Z;
  e_updatedAt : Z
}.

Record DB : Type := mkDB {
  classes : list Class;
  enrollments : list Enrollment;
  nextId : oid
}.

Record Response : Type := mkResponse {
  res_status : Z;
  res_message : ReplyMessage;
  res_enrollment : option Enrollment
}.

Definition reply (code : Z) (text : string) : Response :=
  mkResponse code (Msg text) None.

(** Body of POST /enrollments. *)
Record EnrollBody : Type := mkEnrollBody {
  b_classId : option IdText;
  b_studentId : option string
}.

(** Body of PUT /enrollments/:id. *)
Record StatusBody : Type := mkStatusBody {
  b_status : option string
}.

(** [enrollmentSchema_joi.validate]: both keys are required strings. *)
Definition enrollmentSchema_joi (body : EnrollBody) : option ReplyMessage :=
  match b_classId body with
  | None => Some (JoiMsg "classId" "any.required")
  | Some _ =>
      match b_studentId body with
      | None => Some (JoiMsg "studentId" "any.required")
      | Some s => if JS.truthy s then None
                  else Some (JoiMsg "studentId" "string.empty")
      end
  end.

Definition Class_findById (id : oid) (db : DB) : option Class :=
  findById c_id id (classes db).

Definition Enrollment_findById (id : oid) (db : DB) : option Enrollment :=
  findById e_id id (enrollments db).

(** [Enrollment.findOne({ classId, studentId })]: the status is not part of
    the query. *)
Definition Enrollment_findOne (classId : oid) (studentId : string) (db : DB)
  : option Enrollment :=
  find (fun e => Nat.eqb (e_classId e) classId && String.eqb (e_studentId e) studentId)
       (enrollments db).

(** [classItem.save()] of a loaded class: the pre-save hook stamps
    [updatedAt], the document replaces the stored one of the same id. *)
Definition Class_save (c : Class) (now : Z) (db : DB) : DB :=
  let c' := mkClass (c_id c) (c_name c) (c_teacherId c) (c_capacity c)
                    (c_enrollmentCount c) (c_status c) now in
  mkDB (updateOne c_id c' (classes db)) (enrollments db) (nextId db).

Definition Class_setCount (c : Class) (n : Z) : Class :=
  mkClass (c_id c) (c_name c) (c_teacherId c) (c_capacity c) n
          (c_status c) (c_updatedAt c).

Definition enrollmentStatuses : list string := ["active"; "dropped"; "completed"].

(** Schema validation run by [enrollment.save()]. *)
Definition Enrollment_valid (e : Enrollment) : bool :=
  JS.truthy (e_studentId e) && JS.enum_ok enrollmentStatuses (e_status e).

Definition Enrollment_stamp (e : Enrollment) (now : Z) : Enrollment :=
  mkEnrollment (e_id e) (e_classId e) (e_studentId e) (e_enrollmentDate e)
               (e_status e) (e_grade e) (e_attendance e) (e_createdAt e) now.

(** [save()] of a new enrollment document. *)
Definition Enrollment_insert (e : Enrollment) (now : Z) (db : DB) : DB :=
  mkDB (classes db) (enrollments db ++ [Enrollment_stamp e now])%list (S (nextId db)).

(** [save()] of a loaded enrollment document. *)
Definition Enrollment_save (e : Enrollment) (now : Z) (db : DB) : DB :=
  mkDB (classes db) (updateOne e_id (Enrollment_stamp e now) (enrollments db))
       (nextId db).

Definition Enrollment_setStatus (e : Enrollment) (s : option string) : Enrollment :=
  mkEnrollment (e_id e) (e_classId e) (e_studentId e) (e_enrollmentDate e)
               s (e_grade e) (e_attendance e) (e_createdAt e) (e_updatedAt e).

(** [new Enrollment({ classId, studentId })] with the schema defaults. *)
Definition Enrollment_new (classId : oid) (studentId : string) (now : Z) (db : DB)
  : Enrollment :=
  mkEnrollment (nextId db) classId studentId now (Some "active") None [] now now.

(** POST /enrollments. *)
Definition postEnrollments (user : AuthUser) (body : EnrollBody) (now : Z) (db : DB)
  : Response * DB :=
  if negb (String.eqb (u_role user) "student") then
    (reply 403 "Access denied. Only students can enroll in classes.", db)
  else
    match enrollmentSchema_joi body with
    | Some err => (mkResponse 400 err None, db)
    | None =>
        match b_classId body with
        | Some (GoodId classId) =>
            let studentId := u_id user in
            match Class_findById classId db with
            | None => (reply 404 "Class not found", db)
            | Some classItem =>
                if Qle_bool (c_capacity classItem)
                            (inject_Z (c_enrollmentCount classItem)) then
                  (reply 400 "Class is full", db)
                else
                  match Enrollment_findOne classId studentId db with
                  | Some _ =>
                      (reply 400 "Student is already enrolled in this class", db)
                  | None =>
                      let newEnrollment := Enrollment_new classId studentId now db in
                      if Enrollment_valid newEnrollment then
                        let db1 := Enrollment_insert newEnrollment now db in
                        let classItem :=
                          Class_setCount classItem (c_enrollmentCount classItem + 1) in
                        let db2 := Class_save classItem now db1 in
                        (mkResponse 201 (Msg "Enrolled successfully")
                                    (Some (Enrollment_stamp newEnrollment now)), db2)
                      else (reply 500 "Server error", db)
                  end
            end
        | _ => (reply 500 "Server error", db)
        end
    end.

(** PUT /enrollments/:id.  The status of the loaded document is overwritten
    before the test that guards the decrement reads it. *)
Definition putEnrollment (user : AuthUser) (id : IdText) (body : StatusBody)
    (now : Z) (db : DB) : Response * DB :=
  match id with
  | BadId => (reply 500 "Server error", db)
  | GoodId eid =>
      match Enrollment_findById eid db with
      | None => (reply 404 "Enrollment not found", db)
      | Some enrollment =>
          match Class_findById (e_classId enrollment) db with
          | None => (reply 404 "Class not found", db)
          | Some classItem =>
              let isStudent := String.eqb (u_id user) (e_studentId enrollment) in
              let isTeacher := String.eqb (u_id user) (c_teacherId classItem) in
              let isAdmin := String.eqb (u_role user) "admin" in
              if negb isStudent && negb isTeacher && negb isAdmin then
                (reply 403 "Access denied", db)
              else if isStudent && negb (JS.strict_eq (b_status body) (Some "dropped")) then
                (reply 403 "Students can only drop classes", db)
              else
                let enrollment := Enrollment_setStatus enrollment (b_status body) in
                let db1 :=
                  if JS.strict_eq (b_status body) (Some "dropped")
                     && JS.strict_eq (e_status enrollment) (Some "active")
                  then Class_save
                         (Class_setCount classItem (c_enrollmentCount classItem - 1))
                         now db
                  else db in
                if Enrollment_valid enrollment then
                  (mkResponse 200 (Msg "Enrollment updated successfully")
                              (Some (Enrollment_stamp enrollment now)),
                   Enrollment_save enrollment now db1)
                else (reply 500 "Server error", db1)
          end
      end
  end.

(** The number of Enrollment documents of a class whose status is active. *)
Definition activeCount (classId : oid) (db : DB) : Z :=
  Z.of_nat (List.length
    (filter (fun e => Nat.eqb (e_classId e) classId
                      && JS.strict_eq (e_status e) (Some "active"))
            (enrollments db))).

(** The invariant of the data model on one class. *)
Definition countConsistent (classId : oid) (db : DB) : Prop :=
  forall c, Class_findById classId db = Some c ->
            c_enrollmentCount c = activeCount classId db.

(** A store with one class of capacity 2 and nobody enrolled. *)
Definition algebra : Class :=
  mkClass 0%nat "Algebra" "teacher-1" (2 # 1) 0 "active" 0.

Definition db0 : DB := mkDB [algebra] [] 1%nat.

Definition alice : AuthUser := mkAuthUser "student-1" "student".

Definition enrollAlgebra : EnrollBody :=
  mkEnrollBody (Some (GoodId 0%nat)) (Some "student-1").

Definition dropBody : StatusBody := mkStatusBody (Some "dropped").

(** Alice enrolls at time 10, drops at time 20. *)
Definition db_enrolled : DB := snd (postEnrollments alice enrollAlgebra 10 db0).
Definition db_dropped : DB := snd (putEnrollment alice (GoodId 1%nat) dropBody 20 db_enrolled).

(** *** The other enrollment routes and the deletion of a class *)

(** The text of a date in a request: [new Date(text)] is a date or is
    Invalid Date, which Mongoose refuses to store. *)
Inductive DateText : Type :=
| InvalidDate
| ValidDate (t : Z).

(** Body of POST /enrollments/:id/attendance; an absent or empty value is
    [None]. *)
Record AttendanceBody : Type := mkAttendanceBody {
  ab_date : option DateText;
  ab_status : option string;
  ab_notes : option string
}.

Definition attendanceStatuses : list string := ["present"; "absent"; "late"; "excused"].

Definition Enrollment_pushAttendance (e : Enrollment) (a : Attendance) : Enrollment :=
  mkEnrollment (e_id e) (e_classId e) (e_studentId e) (e_enrollmentDate e)
               (e_status e) (e_grade e) (e_attendance e ++ [a])%list
               (e_createdAt e) (e_updatedAt e).

(** POST /enrollments/:id/attendance. *)
Definition postAttendance (user : AuthUser) (id : IdText) (body : AttendanceBody)
    (now : Z) (db : DB) : Response * DB :=
  match id with
  | BadId => (reply 500 "Server error", db)
  | GoodId eid =>
      match Enrollment_findById eid db with
      | None => (reply 404 "Enrollment not found", db)
      | Some enrollment =>
          match Class_findById (e_classId enrollment) db with
          | None => (reply 404 "Class not found", db)
          | Some classItem =>
              if negb (String.eqb (u_role user) "admin")
                 && negb (String.eqb (c_teacherId classItem) (u_id user))
              then (reply 403
                      "Access denied. Only the teacher of this class or an admin can record attendance.",
                    db)
              else
                match ab_date body, ab_status body with
                | Some date, Some status =>
                    if negb (JS.truthy status) then
                      (reply 400 "Date and status are required", db)
                    else if negb (JS.one_of attendanceStatuses status) then
                      (reply 400
                         "Invalid status. Must be one of: present, absent, late, excused",
                       db)
                    else
                      match date with
                      | InvalidDate => (reply 500 "Server error", db)
                      | ValidDate t =>
                          let notes := match ab_notes body with
                                       | Some n => n
                                       | None => ""
                                       end in
                          let enrollment :=
                            Enrollment_pushAttendance enrollment
                              (mkAttendance t status notes) in
                          if JS.truthy (e_studentId enrollment) then
                            (mkResponse 200 (Msg "Attendance recorded successfully")
                                        (Some (Enrollment_stamp enrollment now)),
                             Enrollment_save enrollment now db)
                          else (reply 500 "Server error", db)
                      end
                | _, _ => (reply 400 "Date and status are required", db)
                end
          end
      end
  end.

(** DELETE /classes/:id: the enrollments of the class go first, then the
    class. *)
Definition deleteClass (user : AuthUser) (id : IdText) (db : DB) : Response * DB :=
  if negb (String.eqb (u_role user) "admin") then
    (reply 403 "Access denied. Only admins can delete classes.", db)
  else
    match id with
    | BadId => (reply 500 "Server error", db)
    | GoodId cid =>
        match Class_findById cid db with
        | None => (reply 404 "Class not found", db)
        | Some _ =>
            (reply 200 "Class and all related enrollments deleted successfully",
             mkDB (deleteOne c_id cid (classes db))
                  (filter (fun e => negb (Nat.eqb (e_classId e) cid)) (enrollments db))
                  (nextId db))
        end
    end.

(** GET /enrollments/student: the enrollments of the caller, each with the
    class it points to ([null] when the class is gone). *)
Definition getStudentEnrollments (user : AuthUser) (db : DB)
  : list (Enrollment * option Class) :=
  map (fun enrollment => (enrollment, Class_findById (e_classId enrollment) db))
      (filter (fun e => String.eqb (e_studentId e) (u_id user)) (enrollments db)).

(** GET /enrollments/class/:classId: the enrollments of the class, each with
    the id of its student. *)
Definition getClassEnrollments (user : AuthUser) (id : IdText) (db : DB)
  : Response + list (Enrollment * string) :=
  match id with
  | BadId => inl (reply 500 "Server error")
  | GoodId classId =>
      match Class_findById classId db with
      | None => inl (reply 404 "Class not found")
      | Some classItem =>
          if negb (String.eqb (u_role user) "admin")
             && negb (String.eqb (c_teacherId classItem) (u_id user))
          then inl (reply 403
                      "Access denied. Only the teacher of this class or an admin can view enrollments.")
          else inr (map (fun enrollment => (enrollment, e_studentId enrollment))
                        (filter (fun e => Nat.eqb (e_classId e) classId)
                                (enrollments db)))
      end
  end.

(** No class holds more enrollments than its capacity rounded up to a whole
    number. *)
Definition withinCapacity (db : DB) : Prop :=
  Forall (fun c => c_enrollmentCount c <= Qceiling (c_capacity c)) (classes db).

(** A class of capacity one and a half with one student enrolled, and the
    body with which Bea asks for a seat in it. *)
Definition drawing : Class :=
  mkClass 0%nat "Drawing" "teacher-1" (3 # 2) 1 "active" 0.

Definition bea : AuthUser := mkAuthUser "student-2" "student".

Definition enrollDrawing : EnrollBody :=
  mkEnrollBody (Some (GoodId 0%nat)) (Some "student-2").

Definition teacher1 : AuthUser := mkAuthUser "teacher-1" "teacher".
Definition admin1 : AuthUser := mkAuthUser "admin-1" "admin".

Definition presentBody : AttendanceBody :=
  mkAttendanceBody (Some (ValidDate 15)) (Some "present") None.

End ClassService.

(** ** Content service: the ContentItem routes *)

Module ContentService.

Record PreviousVersion : Type := mkPreviousVersion {
  pv_content : option string;
  pv_updatedAt : Z;
  pv_updatedBy : string
}.

Record Attachment : Type := mkAttachment {
  att_name : string;
  att_fileType : string;
  att_fileSize : Z;
  att_url : string
}.

Record Metadata : Type := mkMetadata {
  md_duration : option Z;
  md_pageCount : option Z;
  md_dimensions : option string
}.

Record ContentItem : Type := mkContentItem {
  ci_id : oid;
  ci_title : option string;
  ci_description : option string;
  ci_type : option string;
  ci_content : option string;
  ci_authorId : string;
  ci_classId : option string;
  ci_tags : list string;
  ci_status : option string;
  ci_publishDate : option Z;
  ci_dueDate : option Z;
  ci_version : Z;
  ci_previousVersions : list PreviousVersion;
  ci_attachments : list Attachment;
  ci_metadata : option Metadata;
  ci_createdAt : Z;
  ci_updatedAt : Z
}.

Record DB : Type := mkDB {
  contentItems : list ContentItem;
  nextId : oid
}.

Record Response : Type := mkResponse {
  res_status : Z;
  res_message : ReplyMessage;
  res_contentItem : option ContentItem
}.

Definition reply (code : Z) (text : string) : Response :=
  mkResponse code (Msg text) None.

(** The JSON body of POST /content-items and PUT /content-items/:id. *)
Record Body : Type := mkBody {
  b_title : option string;
  b_description : option string;
  b_type : option string;
  b_content : option string;
  b_classId : option string;
  b_tags : option (list string);
  b_status : option string;
  b_publishDate : option Z;
  b_dueDate : option Z;
  b_metadata : option Metadata
}.

Definition contentTypes : list string :=
  ["document"; "video"; "image"; "link"; "assignment"].

Definition contentStatuses : list string := ["draft"; "published"; "archived"].

(** [required: function() { return this.type === 'document' || this.type === 'link' }] *)
Definition contentRequired (type : option string) : bool :=
  JS.strict_eq type (Some "document") || JS.strict_eq type (Some "link").

(** A Joi string key: absent is fine unless required, the empty string never is. *)
Definition joiString (key : string) (required : bool) (v : option string)
  : option ReplyMessage :=
  match v with
  | None => if required then Some (JoiMsg key "any.required") else None
  | Some s => if JS.truthy s then None else Some (JoiMsg key "string.empty")
  end.

Definition joiValid (key : string) (allowed : list string) (required : bool)
    (v : option string) : option ReplyMessage :=
  match v with
  | None => if required then Some (JoiMsg key "any.required") else None
  | Some s => if JS.one_of allowed s then None else Some (JoiMsg key "any.only")
  end.

(** The first error of a list of checks taken in the order of the schema. *)
Fixpoint firstError (checks : list (option ReplyMessage)) : option ReplyMessage :=
  match checks with
  | [] => None
  | Some e :: _ => Some e
  | None :: rest => firstError rest
  end.

(** [contentItemSchema_joi.validate]. *)
Definition contentItemSchema_joi (body : Body) : option ReplyMessage :=
  firstError
    [ joiString "title" true (b_title body);
      joiString "description" true (b_description body);
      joiValid "type" contentTypes true (b_type body);
      joiString "content" (contentRequired (b_type body)) (b_content body);
      joiString "classId" true (b_classId body);
      match b_tags body with
      | Some tags => if forallb JS.truthy tags then None
                     else Some (JoiMsg "tags" "string.empty")
      | None => None
      end;
      joiValid "status" contentStatuses false (b_status body) ].

Definition ContentItem_findById (id : oid) (db : DB) : option ContentItem :=
  findById ci_id id (contentItems db).

(** Schema validation run by [contentItem.save()]. *)
Definition ContentItem_valid (c : ContentItem) : bool :=
  JS.required_ok (ci_title c)
  && JS.required_ok (ci_description c)
  && JS.required_ok (ci_type c) && JS.enum_ok contentTypes (ci_type c)
  && (if contentRequired (ci_type c) then JS.required_ok (ci_content c) else true)
  && JS.truthy (ci_authorId c)
  && JS.required_ok (ci_classId c)
  && JS.enum_ok contentStatuses (ci_status c).

(** The pre-save hook. *)
Definition ContentItem_stamp (c : ContentItem) (now : Z) : ContentItem :=
  mkContentItem (ci_id c) (ci_title c) (ci_description c) (ci_type c) (ci_content c)
    (ci_authorId c) (ci_classId c) (ci_tags c) (ci_status c) (ci_publishDate c)
    (ci_dueDate c) (ci_version c) (ci_previousVersions c) (ci_attachments c)
    (ci_metadata c) (ci_createdAt c) now.

Definition ContentItem_insert (c : ContentItem) (now : Z) (db : DB) : DB :=
  mkDB (contentItems db ++ [ContentItem_stamp c now])%list (S (nextId db)).

Definition ContentItem_save (c : ContentItem) (now : Z) (db : DB) : DB :=
  mkDB (updateOne ci_id (ContentItem_stamp c now) (contentItems db)) (nextId db).

(** [new ContentItem({ ...req.body, authorId: req.user.id })] with the schema
    defaults and the [trim] setter of the title. *)
Definition ContentItem_new (body : Body) (authorId : string) (now : Z) (db : DB)
  : ContentItem :=
  mkContentItem (nextId db)
    (option_map JS.trim (b_title body)) (b_description body) (b_type body)
    (b_content body) authorId (b_classId body)
    (match b_tags body with Some t => t | None => [] end)
    (match b_status body with Some s => Some s | None => Some "draft" end)
    (b_publishDate body) (b_dueDate body) 1 [] [] (b_metadata body) now now.

(** POST /content-items. *)
Definition postContentItems (user : AuthUser) (body : Body) (now : Z) (db : DB)
  : Response * DB :=
  if negb (String.eqb (u_role user) "teacher") && negb (String.eqb (u_role user) "admin")
  then (reply 403 "Access denied. Only teachers and admins can create content.", db)
  else
    match contentItemSchema_joi body with
    | Some err => (mkResponse 400 err None, db)
    | None =>
        let newContentItem := ContentItem_new body (u_id user) now db in
        if ContentItem_valid newContentItem then
          (mkResponse 201 (Msg "Content item created successfully")
                      (Some (ContentItem_stamp newContentItem now)),
           ContentItem_insert newContentItem now db)
        else (reply 500 "Server error", db)
    end.

(** [contentItem.previousVersions.push({...}); contentItem.version += 1]. *)
Definition pushVersion (c : ContentItem) : ContentItem :=
  mkContentItem (ci_id c) (ci_title c) (ci_description c) (ci_type c) (ci_content c)
    (ci_authorId c) (ci_classId c) (ci_tags c) (ci_status c) (ci_publishDate c)
    (ci_dueDate c) (ci_version c + 1)
    (ci_previousVersions c
       ++ [mkPreviousVersion (ci_content c) (ci_updatedAt c) (ci_authorId c)])%list
    (ci_attachments c) (ci_metadata c) (ci_createdAt c) (ci_updatedAt c).

(** [updateFields.forEach(field => { if (req.body[field] !== undefined)
    contentItem[field] = req.body[field]; })]. *)
Definition assignFields (c : ContentItem) (body : Body) : ContentItem :=
  let upd {A} (new : option A) (old : option A) : option A :=
    match new with Some v => Some v | None => old end in
  mkContentItem (ci_id c)
    (upd (option_map JS.trim (b_title body)) (ci_title c))
    (upd (b_description body) (ci_description c))
    (upd (b_type body) (ci_type c))
    (upd (b_content body) (ci_content c))
    (ci_authorId c) (ci_classId c)
    (match b_tags body with Some t => t | None => ci_tags c end)
    (upd (b_status body) (ci_status c))
    (upd (b_publishDate body) (ci_publishDate c))
    (upd (b_dueDate body) (ci_dueDate c))
    (ci_version c) (ci_previousVersions c) (ci_attachments c)
    (upd (b_metadata body) (ci_metadata c))
    (ci_createdAt c) (ci_updatedAt c).

(** [req.body.content && req.body.content !== contentItem.content]. *)
Definition contentChanges (body : Body) (c : ContentItem) : bool :=
  JS.truthy_opt (b_content body) && negb (JS.strict_eq (b_content body) (ci_content c)).

(** PUT /content-items/:id. *)
Definition putContentItem (user : AuthUser) (id : IdText) (body : Body) (now : Z)
    (db : DB) : Response * DB :=
  match id with
  | BadId => (reply 500 "Server error", db)
  | GoodId cid =>
      match ContentItem_findById cid db with
      | None => (reply 404 "Content item not found", db)
      | Some contentItem =>
          if negb (String.eqb (u_role user) "admin")
             && negb (String.eqb (ci_authorId contentItem) (u_id user))
          then (reply 403
                  "Access denied. Only the author of this content or an admin can update it.",
                db)
          else
            let contentItem :=
              if contentChanges body contentItem then pushVersion contentItem
              else contentItem in
            let contentItem := assignFields contentItem body in
            if ContentItem_valid contentItem then
              (mkResponse 200 (Msg "Content item updated successfully")
                          (Some (ContentItem_stamp contentItem now)),
               ContentItem_save contentItem now db)
            else (reply 500 "Server error", db)
      end
  end.

(** The entry an update pushes on [previousVersions] of [item]. *)
Definition versionEntry (item : ContentItem) : PreviousVersion :=
  mkPreviousVersion (ci_content item) (ci_updatedAt item) (ci_authorId item).

(** A run of successful updates of item [id], each with a non-empty content
    that differs from the stored one; the list holds, oldest first, the entry
    of the item as it was before each of them. *)
Inductive contentEdits (id : oid) : DB -> list PreviousVersion -> DB -> Prop :=
| edits_done : forall db, contentEdits id db [] db
| edits_step : forall db user body now item db' entries,
    ContentItem_findById id db = Some item ->
    contentChanges body item = true ->
    res_status (fst (putContentItem user (GoodId id) body now db)) = 200 ->
    contentEdits id (snd (putContentItem user (GoodId id) body now db)) entries db' ->
    contentEdits id db (versionEntry item :: entries) db'.

(** "Exactly one entry is appended and the version increases by one". *)
Definition oneVersionAdded (before after : ContentItem) : Prop :=
  List.length (ci_previousVersions after) = S (List.length (ci_previousVersions before))
  /\ ci_version after = ci_version before + 1.

Definition emptyBody : Body :=
  mkBody None None None None None None None None None None.

Definition withContent (text : string) : Body :=
  mkBody None None None (Some text) None None None None None None.

Definition teacher1 : AuthUser := mkAuthUser "teacher-1" "teacher".

Definition lessonBody : Body :=
  mkBody (Some "Lesson 1") (Some "Introduction") (Some "document") (Some "v1")
         (Some "class-1") None None None None None.

(** A store with one document created at time 5 by teacher-1. *)
Definition db1 : DB := snd (postContentItems teacher1 lessonBody 5 (mkDB [] 0%nat)).

(** *** The read routes, deletion and the content modules *)

(** [s.split(',')]. *)
Fixpoint splitComma (s : string) : list string :=
  match s with
  | EmptyString => [EmptyString]
  | String c rest =>
      if Ascii.eqb c "," then EmptyString :: splitComma rest
      else match splitComma rest with
           | head :: tail => String c head :: tail
           | [] => [String c EmptyString]
           end
  end.

(** The query string of GET /content-items/class/:classId. *)
Record ListQuery : Type := mkListQuery {
  q_status : option string;
  q_type : option string;
  q_tags : option string
}.

(** A condition of the query on a string path: absent, or the value to
    match. *)
Definition matches (condition : option string) (value : option string) : bool :=
  match condition with
  | Some wanted => JS.strict_eq value (Some wanted)
  | None => true
  end.

(** [if (req.query[key]) query[key] = req.query[key]]. *)
Definition queryParam (v : option string) : option string :=
  match v with
  | Some s => if JS.truthy s then Some s else None
  | None => None
  end.

(** [tags: { $in: tags }]: one of the tags of the item is in the list. *)
Definition tagsIn (wanted : list string) (c : ContentItem) : bool :=
  existsb (fun t => existsb (String.eqb t) wanted) (ci_tags c).

(** [publishDate: { $lte: now }]: the date is set and not after [now]. *)
Definition publishedBefore (now : Z) (c : ContentItem) : bool :=
  match ci_publishDate c with
  | Some d => d <=? now
  | None => false
  end.

(** GET /content-items/class/:classId. *)
Definition getContentItemsForClass (user : AuthUser) (classId : string)
    (query : ListQuery) (now : Z) (db : DB) : list ContentItem :=
  let student := String.eqb (u_role user) "student" in
  let status := if student then Some "published" else queryParam (q_status query) in
  sort_by (fun a b => ci_createdAt b <? ci_createdAt a)
    (filter (fun c =>
               JS.strict_eq (ci_classId c) (Some classId)
               && matches status (ci_status c)
               && matches (queryParam (q_type query)) (ci_type c)
               && match queryParam (q_tags query) with
                  | Some tags => tagsIn (splitComma tags) c
                  | None => true
                  end
               && (if student then publishedBefore now c else true))
            (contentItems db)).

(** The test of the by-id routes for a student:
    [status !== 'published' || (publishDate && publishDate > new Date())]. *)
Definition hiddenFromStudent (now : Z) (c : ContentItem) : bool :=
  negb (JS.strict_eq (ci_status c) (Some "published"))
  || match ci_publishDate c with
     | Some d => now <? d
     | None => false
     end.

(** GET /content-items/:id. *)
Definition getContentItem (user : AuthUser) (id : IdText) (now : Z) (db : DB)
  : Response :=
  match id with
  | BadId => reply 500 "Server error"
  | GoodId cid =>
      match ContentItem_findById cid db with
      | None => reply 404 "Content item not found"
      | Some contentItem =>
          if String.eqb (u_role user) "student" && hiddenFromStudent now contentItem
          then reply 403 "Access denied. This content is not published yet."
          else mkResponse 200 (Msg "") (Some contentItem)
      end
  end.

Record ContentModule : Type := mkContentModule {
  cm_id : oid;
  cm_title : option string;
  cm_description : option string;
  cm_classId : option string;
  cm_contentItems : list oid;
  cm_order : option Z;
  cm_status : option string;
  cm_createdBy : string;
  cm_createdAt : Z;
  cm_updatedAt : Z
}.

(** The two collections of the service; the id counter is the one of the
    items. *)
Record Store : Type := mkStore {
  st_items : DB;
  st_modules : list ContentModule
}.

Definition ContentModule_findById (id : oid) (st : Store) : option ContentModule :=
  findById cm_id id (st_modules st).

(** [$pull: { contentItems: id }]. *)
Definition pullItem (id : oid) (m : ContentModule) : ContentModule :=
  mkContentModule (cm_id m) (cm_title m) (cm_description m) (cm_classId m)
    (filter (fun i => negb (Nat.eqb i id)) (cm_contentItems m))
    (cm_order m) (cm_status m) (cm_createdBy m) (cm_createdAt m) (cm_updatedAt m).

(** DELETE /content-items/:id: the references held by the modules are pulled,
    then the item is deleted.  The files of its attachments, on the disk of
    the service, are outside the store. *)
Definition deleteContentItem (user : AuthUser) (id : IdText) (st : Store)
  : Response * Store :=
  match id with
  | BadId => (reply 500 "Server error", st)
  | GoodId cid =>
      match ContentItem_findById cid (st_items st) with
      | None => (reply 404 "Content item not found", st)
      | Some contentItem =>
          if negb (String.eqb (u_role user) "admin")
             && negb (String.eqb (ci_authorId contentItem) (u_id user))
          then (reply 403
                  "Access denied. Only the author of this content or an admin can delete it.",
                st)
          else
            (reply 200 "Content item deleted successfully",
             mkStore (mkDB (deleteOne ci_id cid (contentItems (st_items st)))
                           (nextId (st_items st)))
                     (map (pullItem cid) (st_modules st)))
      end
  end.

(** The body of POST /content-modules. *)
Record ModuleBody : Type := mkModuleBody {
  mb_title : option string;
  mb_description : option string;
  mb_classId : option string;
  mb_contentItems : option (list IdText);
  mb_order : option Z;
  mb_status : option string
}.

(** [contentModuleSchema_joi.validate]. *)
Definition contentModuleSchema_joi (body : ModuleBody) : option ReplyMessage :=
  firstError
    [ joiString "title" true (mb_title body);
      joiString "description" true (mb_description body);
      joiString "classId" true (mb_classId body);
      match mb_order body with
      | Some _ => None
      | None => Some (JoiMsg "order" "any.required")
      end;
      joiValid "status" contentStatuses false (mb_status body) ].

(** The ids of a list of id texts when all of them cast. *)
Fixpoint castIds (l : list IdText) : option (list oid) :=
  match l with
  | [] => Some []
  | BadId :: _ => None
  | GoodId n :: rest => option_map (cons n) (castIds rest)
  end.

(** Schema validation run by [contentModule.save()]. *)
Definition ContentModule_valid (m : ContentModule) : bool :=
  JS.required_ok (cm_title m)
  && JS.required_ok (cm_description m)
  && JS.required_ok (cm_classId m)
  && match cm_order m with Some _ => true | None => false end
  && JS.truthy (cm_createdBy m)
  && JS.enum_ok contentStatuses (cm_status m).

(** POST /content-modules. *)
Definition postContentModules (user : AuthUser) (body : ModuleBody) (now : Z)
    (st : Store) : Response * Store :=
  if negb (String.eqb (u_role user) "teacher") && negb (String.eqb (u_role user) "admin")
  then (reply 403 "Access denied. Only teachers and admins can create content modules.",
        st)
  else
    match contentModuleSchema_joi body with
    | Some err => (mkResponse 400 err None, st)
    | None =>
        match castIds (match mb_contentItems body with Some l => l | None => [] end) with
        | None => (reply 500 "Server error", st)
        | Some ids =>
            let newContentModule :=
              mkContentModule (nextId (st_items st))
                (option_map JS.trim (mb_title body)) (mb_description body)
                (mb_classId body) ids (mb_order body)
                (match mb_status body with Some s => Some s | None => Some "draft" end)
                (u_id user) now now in
            if ContentModule_valid newContentModule then
              (reply 201 "Content module created successfully",
               mkStore (mkDB (contentItems (st_items st)) (S (nextId (st_items st))))
                       (st_modules st ++ [newContentModule])%list)
            else (reply 500 "Server error", st)
        end
    end.

(** A module with [.populate('contentItems')]: the documents of the ids that
    still exist, in the order of the ids. *)
Record PopulatedModule : Type := mkPopulatedModule {
  pm_module : ContentModule;
  pm_contentItems : list ContentItem
}.

Definition populate (st : Store) (m : ContentModule) : list ContentItem :=
  flat_map (fun id => match ContentItem_findById id (st_items st) with
                      | Some c => [c]
                      | None => []
                      end)
           (cm_contentItems m).

(** The filter applied to the items of a module for a student:
    [item.status === 'published' && (!item.publishDate || item.publishDate <= now)]. *)
Definition shownToStudent (now : Z) (c : ContentItem) : bool :=
  JS.strict_eq (ci_status c) (Some "published")
  && match ci_publishDate c with
     | Some d => d <=? now
     | None => true
     end.

Definition moduleView (user : AuthUser) (now : Z) (st : Store) (m : ContentModule)
  : PopulatedModule :=
  mkPopulatedModule m
    (if String.eqb (u_role user) "student"
     then filter (shownToStudent now) (populate st m)
     else populate st m).

(** Ascending order of two optional numbers, an unset one first. *)
Definition orderBefore (a b : ContentModule) : bool :=
  match cm_order a, cm_order b with
  | Some x, Some y => x <? y
  | None, Some _ => true
  | _, None => false
  end.

(** GET /content-modules/class/:classId. *)
Definition getContentModulesForClass (user : AuthUser) (classId : string)
    (status : option string) (now : Z) (st : Store) : list PopulatedModule :=
  let wanted := if String.eqb (u_role user) "student" then Some "published"
                else queryParam status in
  map (moduleView user now st)
      (sort_by orderBefore
         (filter (fun m => JS.strict_eq (cm_classId m) (Some classId)
                           && matches wanted (cm_status m))
                 (st_modules st))).

(** GET /content-modules/:id. *)
Definition getContentModule (user : AuthUser) (id : IdText) (now : Z) (st : Store)
  : Response + PopulatedModule :=
  match id with
  | BadId => inl (reply 500 "Server error")
  | GoodId mid =>
      match ContentModule_findById mid st with
      | None => inl (reply 404 "Content module not found")
      | Some contentModule =>
          if String.eqb (u_role user) "student"
             && negb (JS.strict_eq (cm_status contentModule) (Some "published"))
          then inl (reply 403 "Access denied. This module is not published yet.")
          else inr (moduleView user now st contentModule)
      end
  end.

(** DELETE /content-modules/:id: the items the module refers to stay. *)
Definition deleteContentModule (user : AuthUser) (id : IdText) (st : Store)
  : Response * Store :=
  match id with
  | BadId => (reply 500 "Server error", st)
  | GoodId mid =>
      match ContentModule_findById mid st with
      | None => (reply 404 "Content module not found", st)
      | Some contentModule =>
          if negb (String.eqb (u_role user) "admin")
             && negb (String.eqb (cm_createdBy contentModule) (u_id user))
          then (reply 403
                  "Access denied. Only the creator of this module or an admin can delete it.",
                st)
          else (reply 200 "Content module deleted successfully",
                mkStore (st_items st) (deleteOne cm_id mid (st_modules st)))
      end
  end.

(** The item is published and, when it has a publish date, the date is not
    after [now]. *)
Definition publishedBy (now : Z) (c : ContentItem) : Prop :=
  ci_status c = Some "published"
  /\ forall d, ci_publishDate c = Some d -> d <= now.

(** What PUT /content-items/:id cannot write. *)
Definition fixedFields (c : ContentItem)
  : oid * string * option string * list Attachment * Z :=
  (ci_id c, ci_authorId c, ci_classId c, ci_attachments c, ci_createdAt c).

Definition student1 : AuthUser := mkAuthUser "student-1" "student".

(** The lesson of [db1], published by its author at time 7 without a publish
    date, and a module of the class that lists it. *)
Definition publishBody : Body :=
  mkBody None None None None None None (Some "published") None None None.

Definition db2 : DB := snd (putContentItem teacher1 (GoodId 0%nat) publishBody 7 db1).

Definition weekBody : ModuleBody :=
  mkModuleBody (Some "Week 1") (Some "First week") (Some "class-1")
               (Some [GoodId 0%nat]) (Some 1) (Some "published").

Definition store2 : Store :=
  snd (postContentModules teacher1 weekBody 8 (mkStore db2 [])).

End ContentService.

(** ** Communication service: [backend/communication-service/server.js] *)

(** The argument a server would pass to the acknowledgement callback of a
    socket event, as [sendPrivateMessage] of the frontend reads it. *)
Record AckResponse : Type := mkAckResponse {
  ack_success : bool;
  ack_message : option string;
  ack_messageId : option oid
}.

Module CommunicationService.

Record Attachment : Type := mkAttachment {
  att_name : string;
  att_fileType : string;
  att_fileSize : Z;
  att_url : string
}.

Record Message : Type := mkMessage {
  m_id : oid;
  m_senderId : string;
  m_recipientId : option string;
  m_subject : option string;
  m_content : option string;
  m_read : bool;
  m_readAt : option Z;
  m_attachments : list Attachment;
  m_createdAt : Z
}.

Record TargetAudience : Type := mkTargetAudience {
  ta_type : option string;
  ta_classId : option string;
  ta_role : option string
}.

Record Announcement : Type := mkAnnouncement {
  a_id : oid;
  a_title : option string;
  a_content : option string;
  a_authorId : string;
  a_targetAudience : TargetAudience;
  a_priority : option string;
  a_startDate : option Z;
  a_endDate : option Z;
  a_attachments : list Attachment;
  a_createdAt : Z;
  a_updatedAt : Z
}.

Record Notification : Type := mkNotification {
  n_id : oid;
  n_userId : option string;
  n_title : string;
  n_message : string;
  n_type : string;
  n_relatedType : string;
  n_relatedId : oid;
  n_read : bool;
  n_readAt : option Z;
  n_createdAt : Z
}.

(** A live socket.io connection: its id, the fields the [authenticate]
    listener sets on it, and the rooms it has joined (its own id first). *)
Record Socket : Type := mkSocket {
  s_id : string;
  s_userId : option string;
  s_role : option string;
  s_rooms : list string
}.

(** The stored collections and the connections held in the process. *)
Record State : Type := mkState {
  messages : list Message;
  announcements : list Announcement;
  notifications : list Notification;
  sockets : list Socket;
  nextId : oid
}.

Inductive Event : Type :=
| EvAuthenticated (success : bool) (message : option string)
| EvError (message : string)
| EvNewMessage (m : Message) (n : Notification)
| EvMessageSent (success : bool) (messageId : oid)
| EvNewAnnouncement (a : Announcement).

(** An event put on the wire for the connection of the given socket id. *)
Definition Delivery : Type := (string * Event)%type.

(** What a socket listener did: the events it emitted, the response it gave
    to the acknowledgement callback of the event (if it called it), and the
    state it left. *)
Record SocketResult : Type := mkSocketResult {
  sr_emitted : list Delivery;
  sr_ack : option AckResponse;
  sr_state : State
}.

Definition inRoom (room : string) (s : Socket) : bool :=
  existsb (String.eqb room) (s_rooms s).

(** [io.emit(ev, data)]. *)
Definition io_emit (ev : Event) (st : State) : list Delivery :=
  map (fun s => (s_id s, ev)) (sockets st).

(** [io.to(room).emit(ev, data)]. *)
Definition io_to_emit (room : string) (ev : Event) (st : State) : list Delivery :=
  map (fun s => (s_id s, ev)) (filter (inRoom room) (sockets st)).

(** [socket.emit(ev, data)]. *)
Definition socket_emit (s : Socket) (ev : Event) : list Delivery := [(s_id s, ev)].

Definition findSocket (sid : string) (st : State) : option Socket :=
  find (fun s => String.eqb (s_id s) sid) (sockets st).

Definition setSockets (st : State) (l : list Socket) : State :=
  mkState (messages st) (announcements st) (notifications st) l (nextId st).

(** [io.on('connection', socket => ...)]: the connection starts
    unauthenticated, in the room of its own id. *)
Definition onConnection (sid : string) (st : State) : State :=
  setSockets st (sockets st ++ [mkSocket sid None None [sid]])%list.

Definition onDisconnect (sid : string) (st : State) : State :=
  setSockets st (filter (fun s => negb (String.eqb (s_id s) sid)) (sockets st)).

Definition userRoom (id : string) : string := String.append "user:" id.
Definition roleRoom (role : string) : string := String.append "role:" role.

Definition joinRoom (room : string) (rooms : list string) : list string :=
  if existsb (String.eqb room) rooms then rooms else (rooms ++ [room])%list.

(** [socket.on('authenticate', token => ...)]; [jwt_verify] is
    [jwt.verify(token, secret)], [None] when it throws. *)
Definition onAuthenticate (jwt_verify : string -> option AuthUser)
    (sid : string) (token : string) (st : State) : SocketResult :=
  match findSocket sid st with
  | None => mkSocketResult [] None st
  | Some socket =>
      match jwt_verify token with
      | Some decoded =>
          let socket' :=
            mkSocket (s_id socket) (Some (u_id decoded)) (Some (u_role decoded))
              (joinRoom (roleRoom (u_role decoded))
                 (joinRoom (userRoom (u_id decoded)) (s_rooms socket))) in
          mkSocketResult
            (socket_emit socket (EvAuthenticated true None)) None
            (setSockets st
               (map (fun s => if String.eqb (s_id s) sid then socket' else s)
                    (sockets st)))
      | None =>
          mkSocketResult
            (socket_emit socket (EvAuthenticated false (Some "Authentication failed")))
            None st
      end
  end.

(** The payload of a [private-message] event. *)
Record PrivateMessageData : Type := mkPrivateMessageData {
  pm_recipientId : option string;
  pm_subject : option string;
  pm_content : option string
}.

(** Schema validation run by [newMessage.save()]. *)
Definition Message_valid (m : Message) : bool :=
  JS.truthy (m_senderId m)
  && JS.required_ok (m_recipientId m)
  && JS.required_ok (m_subject m)
  && JS.required_ok (m_content m).

Definition notificationTypes : list string := ["info"; "warning"; "error"; "success"].
Definition relatedTypes : list string := ["message"; "announcement"; "content"; "class"].

(** Schema validation run by [notification.save()]. *)
Definition Notification_valid (n : Notification) : bool :=
  JS.required_ok (n_userId n)
  && JS.truthy (JS.trim (n_title n))
  && JS.truthy (n_message n)
  && JS.one_of notificationTypes (n_type n)
  && JS.one_of relatedTypes (n_relatedType n).

(** [new Message({ senderId, recipientId, subject, content })]. *)
Definition Message_new (senderId : string) (data : PrivateMessageData) (now : Z)
    (st : State) : Message :=
  mkMessage (nextId st) senderId (pm_recipientId data)
            (option_map JS.trim (pm_subject data)) (pm_content data)
            false None [] now.

(** A template literal prints an undefined value as the word undefined. *)
Definition interpolate (o : option string) : string :=
  match o with Some s => s | None => "undefined" end.

(** The notification built for the recipient of [newMessage]. *)
Definition Notification_new (sender : string) (data : PrivateMessageData)
    (newMessage : Message) (now : Z) (st : State) : Notification :=
  mkNotification (nextId st) (pm_recipientId data) "New Message"
    (String.append "You have a new message from "
       (String.append sender (String.append ": " (interpolate (pm_subject data)))))
    "info" "message" (m_id newMessage) false None now.

Definition Message_insert (m : Message) (st : State) : State :=
  mkState (messages st ++ [m])%list (announcements st) (notifications st)
          (sockets st) (S (nextId st)).

Definition Notification_insert (n : Notification) (st : State) : State :=
  mkState (messages st) (announcements st) (notifications st ++ [n])%list
          (sockets st) (S (nextId st)).

(** [socket.on('private-message', async (data) => ...)].  The listener takes
    the payload only: it has no acknowledgement parameter, so no branch calls
    the callback the client passed with the event. *)
Definition onPrivateMessage (sid : string) (data : option PrivateMessageData)
    (now : Z) (st : State) : SocketResult :=
  match findSocket sid st with
  | None => mkSocketResult [] None st
  | Some socket =>
      if negb (JS.truthy_opt (s_userId socket)) then
        mkSocketResult (socket_emit socket (EvError "Not authenticated")) None st
      else
        let failed st' :=
          mkSocketResult (socket_emit socket (EvError "Failed to send message"))
                         None st' in
        match data with
        | None => failed st
        | Some data =>
            let sender := interpolate (s_userId socket) in
            let newMessage := Message_new sender data now st in
            if Message_valid newMessage then
              let st1 := Message_insert newMessage st in
              let notification := Notification_new sender data newMessage now st1 in
              if Notification_valid notification then
                let st2 := Notification_insert notification st1 in
                mkSocketResult
                  (io_to_emit (userRoom (interpolate (pm_recipientId data)))
                              (EvNewMessage newMessage notification) st2
                   ++ socket_emit socket (EvMessageSent true (m_id newMessage)))%list
                  None st2
              else failed st1
            else failed st
        end
  end.

Record Response : Type := mkResponse {
  res_status : Z;
  res_message : ReplyMessage;
  res_announcement : option Announcement
}.

Definition reply (code : Z) (text : string) : Response :=
  mkResponse code (Msg text) None.

(** GET /notifications: [Notification.find({ userId }).sort({ createdAt: -1 })]. *)
Definition getNotifications (user : AuthUser) (st : State) : list Notification :=
  sort_by (fun a b => n_createdAt b <? n_createdAt a)
    (filter (fun n => JS.strict_eq (n_userId n) (Some (u_id user)))
            (notifications st)).

(** The body of POST /announcements. *)
Record AnnouncementBody : Type := mkAnnouncementBody {
  b_title : option string;
  b_content : option string;
  b_targetAudience : option TargetAudience;
  b_priority : option string;
  b_startDate : option Z;
  b_endDate : option Z
}.

Definition audienceTypes : list string := ["all"; "class"; "role"].
Definition roles : list string := ["admin"; "teacher"; "student"].
Definition priorities : list string := ["low"; "medium"; "high"].

Definition joiString (key : string) (required : bool) (v : option string)
  : option ReplyMessage :=
  match v with
  | None => if required then Some (JoiMsg key "any.required") else None
  | Some s => if JS.truthy s then None else Some (JoiMsg key "string.empty")
  end.

Definition joiValid (key : string) (allowed : list string) (required : bool)
    (v : option string) : option ReplyMessage :=
  match v with
  | None => if required then Some (JoiMsg key "any.required") else None
  | Some s => if JS.one_of allowed s then None else Some (JoiMsg key "any.only")
  end.

Fixpoint firstError (checks : list (option ReplyMessage)) : option ReplyMessage :=
  match checks with
  | [] => None
  | Some e :: _ => Some e
  | None :: rest => firstError rest
  end.

(** [announcementSchema_joi.validate]. *)
Definition announcementSchema_joi (body : AnnouncementBody) : option ReplyMessage :=
  firstError
    [ joiString "title" true (b_title body);
      joiString "content" true (b_content body);
      match b_targetAudience body with
      | None => Some (JoiMsg "targetAudience" "any.required")
      | Some ta =>
          firstError
            [ joiValid "targetAudience.type" audienceTypes true (ta_type ta);
              joiString "targetAudience.classId"
                        (JS.strict_eq (ta_type ta) (Some "class")) (ta_classId ta);
              joiValid "targetAudience.role" roles
                       (JS.strict_eq (ta_type ta) (Some "role")) (ta_role ta) ]
      end;
      joiValid "priority" priorities false (b_priority body) ].

(** Schema validation run by [announcement.save()]. *)
Definition Announcement_valid (a : Announcement) : bool :=
  JS.required_ok (a_title a)
  && JS.required_ok (a_content a)
  && JS.truthy (a_authorId a)
  && JS.required_ok (ta_type (a_targetAudience a))
  && JS.enum_ok audienceTypes (ta_type (a_targetAudience a))
  && JS.enum_ok roles (ta_role (a_targetAudience a))
  && JS.enum_ok priorities (a_priority a).

(** [new Announcement({ ...req.body, authorId: req.user.id })] with the schema
    defaults; the pre-save hook stamps [updatedAt]. *)
Definition Announcement_new (body : AnnouncementBody) (authorId : string) (now : Z)
    (st : State) : Announcement :=
  mkAnnouncement (nextId st)
    (option_map JS.trim (b_title body)) (b_content body) authorId
    (match b_targetAudience body with
     | Some ta => ta
     | None => mkTargetAudience None None None
     end)
    (match b_priority body with Some p => Some p | None => Some "medium" end)
    (match b_startDate body with Some d => Some d | None => Some now end)
    (b_endDate body) [] now now.

Definition Announcement_insert (a : Announcement) (st : State) : State :=
  mkState (messages st) (announcements st ++ [a])%list (notifications st)
          (sockets st) (S (nextId st)).

(** The broadcast that follows the save in POST /announcements. *)
Definition announce (a : Announcement) (st : State) : list Delivery :=
  let type := ta_type (a_targetAudience a) in
  if JS.strict_eq type (Some "all") then
    io_emit (EvNewAnnouncement a) st
  else if JS.strict_eq type (Some "role") then
    io_to_emit (roleRoom (interpolate (ta_role (a_targetAudience a))))
               (EvNewAnnouncement a) st
  else if JS.strict_eq type (Some "class") then
    io_emit (EvNewAnnouncement a) st
  else [].

(** POST /announcements. *)
Definition postAnnouncements (user : AuthUser) (body : AnnouncementBody) (now : Z)
    (st : State) : Response * list Delivery * State :=
  if negb (String.eqb (u_role user) "teacher") && negb (String.eqb (u_role user) "admin")
  then (reply 403 "Access denied. Only teachers and admins can create announcements.",
        [], st)
  else
    match announcementSchema_joi body with
    | Some err => (mkResponse 400 err None, [], st)
    | None =>
        let newAnnouncement := Announcement_new body (u_id user) now st in
        if Announcement_valid newAnnouncement then
          let st1 := Announcement_insert newAnnouncement st in
          (mkResponse 201 (Msg "Announcement created successfully")
                      (Some newAnnouncement),
           announce newAnnouncement st1, st1)
        else (reply 500 "Server error", [], st)
    end.

(** The filter GET /announcements ends up with: the second assignment to
    [query.$or] replaces the one that held the [endDate] clauses. *)
Definition announcementQuery (user : AuthUser) (now : Z) (a : Announcement) : bool :=
  match a_startDate a with
  | Some start => start <=? now
  | None => false
  end
  && (JS.strict_eq (ta_type (a_targetAudience a)) (Some "all")
      || (JS.strict_eq (ta_type (a_targetAudience a)) (Some "role")
          && JS.strict_eq (ta_role (a_targetAudience a)) (Some (u_role user)))
      || ((String.eqb (u_role user) "student" || String.eqb (u_role user) "teacher")
          && JS.strict_eq (ta_type (a_targetAudience a)) (Some "class"))).

(** Order of two optional strings in a descending sort: an unset value is
    below every string. *)
Definition optStringGt (a b : option string) : bool :=
  match a, b with
  | Some x, Some y => String.ltb y x
  | Some _, None => true
  | None, _ => false
  end.

(** [.sort({ priority: -1, createdAt: -1 })]. *)
Definition announcementBefore (a b : Announcement) : bool :=
  optStringGt (a_priority a) (a_priority b)
  || (JS.strict_eq (a_priority a) (a_priority b) && (a_createdAt b <? a_createdAt a)).

(** GET /announcements. *)
Definition getAnnouncements (user : AuthUser) (now : Z) (st : State)
  : list Announcement :=
  sort_by announcementBefore (filter (announcementQuery user now) (announcements st)).

(** The audience of an announcement matches the caller: type all; type role
    with the caller's role; or, for students and teachers, any type class. *)
Definition audienceMatches (user : AuthUser) (a : Announcement) : Prop :=
  ta_type (a_targetAudience a) = Some "all"
  \/ (ta_type (a_targetAudience a) = Some "role"
      /\ ta_role (a_targetAudience a) = Some (u_role user))
  \/ ((u_role user = "student" \/ u_role user = "teacher")
      /\ ta_type (a_targetAudience a) = Some "class").

(** The start date of the announcement is not after [now]. *)
Definition startedBy (now : Z) (a : Announcement) : Prop :=
  exists start, a_startDate a = Some start /\ start <= now.

(** Two connections: bob is authenticated as a teacher, the other one never
    authenticated. *)
Definition verifyDemo (token : string) : option AuthUser :=
  if String.eqb token "token-bob" then Some (mkAuthUser "bob" "teacher")
  else if String.eqb token "token-carol" then Some (mkAuthUser "carol" "student")
  else None.

Definition st0 : State :=
  sr_state
    (onAuthenticate verifyDemo "sock-1" "token-bob"
       (onConnection "sock-2" (onConnection "sock-1" (mkState [] [] [] [] 0%nat)))).

Definition helloCarol : PrivateMessageData :=
  mkPrivateMessageData (Some "carol") (Some "Hello") (Some "See you at nine").

Definition bob : AuthUser := mkAuthUser "bob" "teacher".
Definition carol : AuthUser := mkAuthUser "carol" "student".

(** Carol joins on a third connection and authenticates as a student. *)
Definition st1 : State :=
  sr_state (onAuthenticate verifyDemo "sock-3" "token-carol" (onConnection "sock-3" st0)).

(** An announcement for the students, created by bob at time 100. *)
Definition examBody : AnnouncementBody :=
  mkAnnouncementBody (Some "Exam") (Some "Friday at nine")
    (Some (mkTargetAudience (Some "role") None (Some "student"))) None None None.

Definition examAnnouncement : Announcement := Announcement_new examBody "bob" 100 st1.

(** An announcement for everybody, valid from time 10 to time 50. *)
Definition fairBody : AnnouncementBody :=
  mkAnnouncementBody (Some "School fair") (Some "In the yard")
    (Some (mkTargetAudience (Some "all") None None)) None (Some 10) (Some 50).

Definition fairAnnouncement : Announcement := Announcement_new fairBody "bob" 5 st1.

Definition st2 : State := snd (postAnnouncements bob fairBody 5 st1).

(** *** The message, notification and announcement routes over HTTP *)

(** A JSON reply: the status, the literal message if any, the document or id
    it carries if any. *)
Record Reply (A : Type) : Type := mkReply {
  rp_status : Z;
  rp_message : option ReplyMessage;
  rp_data : option A
}.
Arguments mkReply {A} _ _ _.
Arguments rp_status {A} _.
Arguments rp_message {A} _.
Arguments rp_data {A} _.

Definition refuse {A : Type} (code : Z) (text : string) : Reply A :=
  mkReply code (Some (Msg text)) None.

(** [messageSchema_joi.validate]. *)
Definition messageSchema_joi (body : PrivateMessageData) : option ReplyMessage :=
  firstError
    [ joiString "recipientId" true (pm_recipientId body);
      joiString "subject" true (pm_subject body);
      joiString "content" true (pm_content body) ].

(** POST /messages; the reply carries the id of the new message. *)
Definition postMessages (user : AuthUser) (body : PrivateMessageData) (now : Z)
    (st : State) : Reply oid * list Delivery * State :=
  match messageSchema_joi body with
  | Some err => (mkReply 400 (Some err) None, [], st)
  | None =>
      let newMessage := Message_new (u_id user) body now st in
      if Message_valid newMessage then
        let st1 := Message_insert newMessage st in
        let notification := Notification_new (u_id user) body newMessage now st1 in
        if Notification_valid notification then
          let st2 := Notification_insert notification st1 in
          (mkReply 201 (Some (Msg "Message sent successfully"))
                   (Some (m_id newMessage)),
           io_to_emit (userRoom (interpolate (pm_recipientId body)))
                      (EvNewMessage newMessage notification) st2,
           st2)
        else (refuse 500 "Server error", [], st1)
      else (refuse 500 "Server error", [], st)
  end.

(** GET /messages/inbox. *)
Definition getInbox (user : AuthUser) (st : State) : list Message :=
  sort_by (fun a b => m_createdAt b <? m_createdAt a)
    (filter (fun m => JS.strict_eq (m_recipientId m) (Some (u_id user)))
            (messages st)).

(** GET /messages/outbox. *)
Definition getOutbox (user : AuthUser) (st : State) : list Message :=
  sort_by (fun a b => m_createdAt b <? m_createdAt a)
    (filter (fun m => String.eqb (m_senderId m) (u_id user)) (messages st)).

Definition Message_findById (id : oid) (st : State) : option Message :=
  findById m_id id (messages st).

Definition setMessages (st : State) (l : list Message) : State :=
  mkState l (announcements st) (notifications st) (sockets st) (nextId st).

Definition setNotifications (st : State) (l : list Notification) : State :=
  mkState (messages st) (announcements st) l (sockets st) (nextId st).

Definition Message_markRead (m : Message) (now : Z) : Message :=
  mkMessage (m_id m) (m_senderId m) (m_recipientId m) (m_subject m) (m_content m)
            true (Some now) (m_attachments m) (m_createdAt m).

(** GET /messages/:id: the first view by the recipient marks the message
    read. *)
Definition getMessage (user : AuthUser) (id : IdText) (now : Z) (st : State)
  : Reply Message * State :=
  match id with
  | BadId => (refuse 500 "Server error", st)
  | GoodId mid =>
      match Message_findById mid st with
      | None => (refuse 404 "Message not found", st)
      | Some message =>
          let isRecipient := JS.strict_eq (m_recipientId message) (Some (u_id user)) in
          if negb (String.eqb (m_senderId message) (u_id user)) && negb isRecipient
          then (refuse 403 "Access denied", st)
          else if isRecipient && negb (m_read message) then
            let message := Message_markRead message now in
            if Message_valid message then
              (mkReply 200 None (Some message),
               setMessages st (updateOne m_id message (messages st)))
            else (refuse 500 "Server error", st)
          else (mkReply 200 None (Some message), st)
      end
  end.

(** DELETE /messages/:id, open to the sender and to the recipient.  The files
    of the attachments, on the disk of the service, are outside the state. *)
Definition deleteMessage (user : AuthUser) (id : IdText) (st : State)
  : Reply Message * State :=
  match id with
  | BadId => (refuse 500 "Server error", st)
  | GoodId mid =>
      match Message_findById mid st with
      | None => (refuse 404 "Message not found", st)
      | Some message =>
          if negb (String.eqb (m_senderId message) (u_id user))
             && negb (JS.strict_eq (m_recipientId message) (Some (u_id user)))
          then (refuse 403 "Access denied", st)
          else (mkReply 200 (Some (Msg "Message deleted successfully")) None,
                setMessages st (deleteOne m_id mid (messages st)))
      end
  end.

Definition Notification_findById (id : oid) (st : State) : option Notification :=
  findById n_id id (notifications st).

Definition Notification_markRead (n : Notification) (now : Z) : Notification :=
  mkNotification (n_id n) (n_userId n) (n_title n) (n_message n) (n_type n)
                 (n_relatedType n) (n_relatedId n) true (Some now) (n_createdAt n).

(** PUT /notifications/:id/read. *)
Definition putNotificationRead (user : AuthUser) (id : IdText) (now : Z) (st : State)
  : Reply Notification * State :=
  match id with
  | BadId => (refuse 500 "Server error", st)
  | GoodId nid =>
      match Notification_findById nid st with
      | None => (refuse 404 "Notification not found", st)
      | Some notification =>
          if negb (JS.strict_eq (n_userId notification) (Some (u_id user)))
          then (refuse 403 "Access denied", st)
          else
            let notification := Notification_markRead notification now in
            if Notification_valid notification then
              (mkReply 200 (Some (Msg "Notification marked as read"))
                       (Some notification),
               setNotifications st (updateOne n_id notification (notifications st)))
            else (refuse 500 "Server error", st)
      end
  end.

(** PUT /notifications/read-all:
    [updateMany({ userId, read: false }, { read: true, readAt: now })]. *)
Definition putNotificationsReadAll (user : AuthUser) (now : Z) (st : State)
  : Reply Notification * State :=
  (mkReply 200 (Some (Msg "All notifications marked as read")) None,
   setNotifications st
     (map (fun n => if JS.strict_eq (n_userId n) (Some (u_id user)) && negb (n_read n)
                    then Notification_markRead n now else n)
          (notifications st))).

(** DELETE /notifications/:id. *)
Definition deleteNotification (user : AuthUser) (id : IdText) (st : State)
  : Reply Notification * State :=
  match id with
  | BadId => (refuse 500 "Server error", st)
  | GoodId nid =>
      match Notification_findById nid st with
      | None => (refuse 404 "Notification not found", st)
      | Some notification =>
          if negb (JS.strict_eq (n_userId notification) (Some (u_id user)))
          then (refuse 403 "Access denied", st)
          else (mkReply 200 (Some (Msg "Notification deleted successfully")) None,
                setNotifications st (deleteOne n_id nid (notifications st)))
      end
  end.

Definition Announcement_findById (id : oid) (st : State) : option Announcement :=
  findById a_id id (announcements st).

(** [startDate <= now && (!endDate || endDate >= now)] of the by-id route. *)
Definition isActive (now : Z) (a : Announcement) : bool :=
  match a_startDate a with
  | Some start => start <=? now
  | None => false
  end
  && match a_endDate a with
     | Some ended => now <=? ended
     | None => true
     end.

Definition hasAccess (user : AuthUser) (a : Announcement) : bool :=
  JS.strict_eq (ta_type (a_targetAudience a)) (Some "all")
  || (JS.strict_eq (ta_type (a_targetAudience a)) (Some "role")
      && JS.strict_eq (ta_role (a_targetAudience a)) (Some (u_role user)))
  || (JS.strict_eq (ta_type (a_targetAudience a)) (Some "class")
      && (String.eqb (u_role user) "student" || String.eqb (u_role user) "teacher")).

(** GET /announcements/:id. *)
Definition getAnnouncement (user : AuthUser) (id : IdText) (now : Z) (st : State)
  : Reply Announcement :=
  match id with
  | BadId => refuse 500 "Server error"
  | GoodId aid =>
      match Announcement_findById aid st with
      | None => refuse 404 "Announcement not found"
      | Some announcement =>
          let privileged := String.eqb (u_role user) "admin"
                            || String.eqb (a_authorId announcement) (u_id user) in
          if negb (isActive now announcement) && negb privileged then
            refuse 403 "Access denied. This announcement is not active."
          else if negb (hasAccess user announcement) && negb privileged then
            refuse 403 "Access denied. This announcement is not for your audience."
          else mkReply 200 None (Some announcement)
      end
  end.

(** Bob's message to carol, sent over HTTP at time 100 in [st1]. *)
Definition st3 : State := snd (postMessages bob helloCarol 100 st1).

End CommunicationService.

(** ** The bearer-token middleware of the services and of the gateway *)

Module Middleware.

(** [s.split(' ')]. *)
Fixpoint splitSpace (s : string) : list string :=
  match s with
  | EmptyString => [EmptyString]
  | String c rest =>
      if Ascii.eqb c " " then EmptyString :: splitSpace rest
      else match splitSpace rest with
           | head :: tail => String c head :: tail
           | [] => [String c EmptyString]
           end
  end.

(** What the middleware does with a request: it answers with a status, or it
    calls [next()] with [req.user] set. *)
Inductive Outcome : Type :=
| Refused (status : Z)
| Next (user : AuthUser).

(** [authenticateToken] of the class, content and communication services;
    [authorization] is [req.headers['authorization']], [jwt_verify] is
    [jwt.verify(token, secret)], [None] when it throws. *)
Definition authenticateToken (jwt_verify : string -> option AuthUser)
    (authorization : option string) : Outcome :=
  match authorization with
  | None => Refused 401
  | Some authHeader =>
      if negb (JS.truthy authHeader) then Refused 401
      else match nth_error (splitSpace authHeader) 1 with
           | None => Refused 401
           | Some token =>
               if negb (JS.truthy token) then Refused 401
               else match jwt_verify token with
                    | Some decoded => Next decoded
                    | None => Refused 403
                    end
           end
  end.

(** [authenticateToken] of the gateway:
    [token = authHeader && authHeader.split(' ')[1]], refused with 401 only
    when [token == null]. *)
Definition gatewayAuthenticateToken (jwt_verify : string -> option AuthUser)
    (authorization : option string) : Outcome :=
  match authorization with
  | None => Refused 401
  | Some authHeader =>
      let token := if JS.truthy authHeader
                   then nth_error (splitSpace authHeader) 1
                   else Some authHeader in
      match token with
      | None => Refused 401
      | Some token =>
          match jwt_verify token with
          | Some user => Next user
          | None => Refused 403
          end
      end
  end.

(** The string holds no space. *)
Fixpoint spaceless (s : string) : bool :=
  match s with
  | EmptyString => true
  | String c rest => negb (Ascii.eqb c " ") && spaceless rest
  end.

End Middleware.

(** ** Frontend: [sendPrivateMessage] of [store/slices/communicationSlice.js] *)

Module Frontend.

Inductive Settled : Type :=
| Fulfilled (response : AckResponse)
| Rejected (reason : string).

(** The delay of [setTimeout(..., 5000)], in milliseconds. *)
Definition ackTimeout : Z := 5000.

(** The promise of [sendPrivateMessage]: [connected] is
    [socket && socket.connected]; [ack] is the response handed to the
    acknowledgement callback and the time, in milliseconds after the emit, at
    which it arrives, if it ever does.  The first of the callback and the
    timer settles the promise. *)
Definition sendPrivateMessage (connected : bool) (ack : option (Z * AckResponse))
  : Settled :=
  if negb connected then Rejected "Socket not connected"
  else
    match ack with
    | Some (delay, response) =>
        if delay <? ackTimeout then
          if ack_success response then Fulfilled response
          else Rejected (match ack_message response with
                         | Some m => if JS.truthy m then m else "Failed to send message"
                         | None => "Failed to send message"
                         end)
        else Rejected "Socket response timeout"
    | None => Rejected "Socket response timeout"
    end.

(** A send from end to end: the server runs its listener, the acknowledgement
    it gives (if any) reaches the client [latency] milliseconds later. *)
Definition sendOverSocket (sid : string)
    (data : CommunicationService.PrivateMessageData) (now latency : Z)
    (st : CommunicationService.State) : Settled :=
  let r := CommunicationService.onPrivateMessage sid (Some data) now st in
  sendPrivateMessage true
    (option_map (fun a => (latency, a)) (CommunicationService.sr_ack r)).

(** *** The reducers of [communicationSlice.js] *)

(** An entry of the outbox: a document fetched from the server, or the
    client's own record [{ _id: messageId, ...arg }] of a message it sent. *)
Inductive OutboxEntry : Type :=
| Fetched (m : CommunicationService.Message)
| Sent (id : oid) (arg : CommunicationService.PrivateMessageData).

Definition outboxId (e : OutboxEntry) : oid :=
  match e with
  | Fetched m => CommunicationService.m_id m
  | Sent id _ => id
  end.

Record CommState : Type := mkCommState {
  cs_socketConnected : bool;
  cs_inboxMessages : list CommunicationService.Message;
  cs_outboxMessages : list OutboxEntry;
  cs_currentMessage : option CommunicationService.Message;
  cs_announcements : list CommunicationService.Announcement;
  cs_currentAnnouncement : option CommunicationService.Announcement;
  cs_notifications : list CommunicationService.Notification;
  cs_unreadNotificationsCount : Z;
  cs_loading : bool;
  cs_error : option string
}.

Definition initialState : CommState :=
  mkCommState false [] [] None [] None [] 0 false None.

(** The thunks of the slice. *)
Inductive Thunk : Type :=
| InitializeSocket | DisconnectSocket | SendPrivateMessage
| GetInboxMessages | GetOutboxMessages | GetMessageById | SendMessage | DeleteMessage
| GetAnnouncements | GetAnnouncementById | CreateAnnouncement | UpdateAnnouncement
| DeleteAnnouncement
| GetNotifications | MarkNotificationAsRead | MarkAllNotificationsAsRead
| DeleteNotification.

(** The actions the reducer can receive: the ten of [reducers], and for each
    thunk its pending, rejected and fulfilled action with its payload. *)
Inductive Action : Type :=
| SetSocketConnected (connected : bool)
| AddMessage (m : CommunicationService.Message)
| AddAnnouncement (a : CommunicationService.Announcement)
| UpdateAnnouncementInState (a : CommunicationService.Announcement)
| RemoveAnnouncement (id : oid)
| AddNotification (n : CommunicationService.Notification)
| SetCommunicationError (e : option string)
| ClearCommunicationError
| ClearCurrentMessage
| ClearCurrentAnnouncement
| Pending (t : Thunk)
| RejectedWith (t : Thunk) (payload : option string)
| InitializeSocketFulfilled
| DisconnectSocketFulfilled
| GetInboxMessagesFulfilled (l : list CommunicationService.Message)
| GetOutboxMessagesFulfilled (l : list CommunicationService.Message)
| GetMessageByIdFulfilled (m : CommunicationService.Message)
| SendMessageFulfilled (messageId : option oid)
                       (arg : CommunicationService.PrivateMessageData)
| DeleteMessageFulfilled (id : oid)
| GetAnnouncementsFulfilled (l : list CommunicationService.Announcement)
| GetAnnouncementByIdFulfilled (a : CommunicationService.Announcement)
| CreateAnnouncementFulfilled (a : CommunicationService.Announcement)
| UpdateAnnouncementFulfilled (a : CommunicationService.Announcement)
| DeleteAnnouncementFulfilled (id : oid)
| GetNotificationsFulfilled (l : list CommunicationService.Notification)
| MarkNotificationAsReadFulfilled (n : CommunicationService.Notification)
| MarkAllNotificationsAsReadFulfilled (now : Z)
| DeleteNotificationFulfilled (id : oid).

(** The thunks the slice has a pending and a rejected case for. *)
Definition tracked (t : Thunk) : bool :=
  match t with
  | DisconnectSocket | SendPrivateMessage => false
  | _ => true
  end.

Definition unread (l : list CommunicationService.Notification) : Z :=
  Z.of_nat (List.length
    (filter (fun n => negb (CommunicationService.n_read n)) l)).

Definition replaceAnnouncement (a : CommunicationService.Announcement)
    (l : list CommunicationService.Announcement)
  : list CommunicationService.Announcement :=
  map (fun x => if Nat.eqb (CommunicationService.a_id x) (CommunicationService.a_id a)
                then a else x) l.

Definition currentAfterUpdate (a : CommunicationService.Announcement)
    (current : option CommunicationService.Announcement)
  : option CommunicationService.Announcement :=
  match current with
  | Some c => if Nat.eqb (CommunicationService.a_id c) (CommunicationService.a_id a)
              then Some a else Some c
  | None => None
  end.

Definition currentAfterRemoval (id : oid)
    (current : option CommunicationService.Announcement)
  : option CommunicationService.Announcement :=
  match current with
  | Some c => if Nat.eqb (CommunicationService.a_id c) id then None else Some c
  | None => None
  end.

(** [communicationSlice.reducer]. *)
Definition reducer (s : CommState) (action : Action) : CommState :=
  let 'mkCommState connected inbox outbox message announcements announcement
                   notifications count loading error := s in
  match action with
  | SetSocketConnected b =>
      mkCommState b inbox outbox message announcements announcement
                  notifications count loading error
  | AddMessage m =>
      mkCommState connected (m :: inbox) outbox message announcements announcement
                  notifications count loading error
  | AddAnnouncement a =>
      mkCommState connected inbox outbox message (a :: announcements) announcement
                  notifications count loading error
  | UpdateAnnouncementInState a =>
      mkCommState connected inbox outbox message (replaceAnnouncement a announcements)
                  (currentAfterUpdate a announcement) notifications count loading error
  | RemoveAnnouncement id =>
      mkCommState connected inbox outbox message
        (filter (fun x => negb (Nat.eqb (CommunicationService.a_id x) id)) announcements)
        (currentAfterRemoval id announcement) notifications count loading error
  | AddNotification n =>
      mkCommState connected inbox outbox message announcements announcement
                  (n :: notifications) (count + 1) loading error
  | SetCommunicationError e =>
      mkCommState connected inbox outbox message announcements announcement
                  notifications count loading e
  | ClearCommunicationError =>
      mkCommState connected inbox outbox message announcements announcement
                  notifications count loading None
  | ClearCurrentMessage =>
      mkCommState connected inbox outbox None announcements announcement
                  notifications count loading error
  | ClearCurrentAnnouncement =>
      mkCommState connected inbox outbox message announcements None
                  notifications count loading error
  | Pending t =>
      if tracked t then
        mkCommState connected inbox outbox message announcements announcement
                    notifications count true error
      else s
  | RejectedWith t payload =>
      match t with
      | InitializeSocket =>
          mkCommState false inbox outbox message announcements announcement
            notifications count false
            (match payload with
             | Some e => if JS.truthy e then Some e
                         else Some "Failed to connect to socket"
             | None => Some "Failed to connect to socket"
             end)
      | _ =>
          if tracked t then
            mkCommState connected inbox outbox message announcements announcement
                        notifications count false payload
          else s
      end
  | InitializeSocketFulfilled =>
      mkCommState connected inbox outbox message announcements announcement
                  notifications count false None
  | DisconnectSocketFulfilled =>
      mkCommState false inbox outbox message announcements announcement
                  notifications count loading error
  | GetInboxMessagesFulfilled l =>
      mkCommState connected l outbox message announcements announcement
                  notifications count false None
  | GetOutboxMessagesFulfilled l =>
      mkCommState connected inbox (map Fetched l) message announcements announcement
                  notifications count false None
  | GetMessageByIdFulfilled m =>
      mkCommState connected inbox outbox (Some m) announcements announcement
                  notifications count false None
  | SendMessageFulfilled messageId arg =>
      mkCommState connected inbox
        (match messageId with
         | Some id => Sent id arg :: outbox
         | None => outbox
         end)
        message announcements announcement notifications count false None
  | DeleteMessageFulfilled id =>
      mkCommState connected
        (filter (fun m => negb (Nat.eqb (CommunicationService.m_id m) id)) inbox)
        (filter (fun e => negb (Nat.eqb (outboxId e) id)) outbox)
        (match message with
         | Some m => if Nat.eqb (CommunicationService.m_id m) id then None else Some m
         | None => None
         end)
        announcements announcement notifications count false None
  | GetAnnouncementsFulfilled l =>
      mkCommState connected inbox outbox message l announcement
                  notifications count false None
  | GetAnnouncementByIdFulfilled a =>
      mkCommState connected inbox outbox message announcements (Some a)
                  notifications count false None
  | CreateAnnouncementFulfilled a =>
      mkCommState connected inbox outbox message (a :: announcements) announcement
                  notifications count false None
  | UpdateAnnouncementFulfilled a =>
      mkCommState connected inbox outbox message (replaceAnnouncement a announcements)
                  (currentAfterUpdate a announcement) notifications count false None
  | DeleteAnnouncementFulfilled id =>
      mkCommState connected inbox outbox message
        (filter (fun x => negb (Nat.eqb (CommunicationService.a_id x) id)) announcements)
        (currentAfterRemoval id announcement) notifications count false None
  | GetNotificationsFulfilled l =>
      mkCommState connected inbox outbox message announcements announcement
                  l (unread l) false None
  | MarkNotificationAsReadFulfilled n =>
      let notifications' :=
        map (fun x => if Nat.eqb (CommunicationService.n_id x)
                                 (CommunicationService.n_id n)
                      then n else x) notifications in
      mkCommState connected inbox outbox message announcements announcement
                  notifications' (unread notifications') false None
  | MarkAllNotificationsAsReadFulfilled now =>
      mkCommState connected inbox outbox message announcements announcement
        (map (fun x => CommunicationService.Notification_markRead x now) notifications)
        0 false None
  | DeleteNotificationFulfilled id =>
      let deletedNotification :=
        find (fun x => Nat.eqb (CommunicationService.n_id x) id) notifications in
      mkCommState connected inbox outbox message announcements announcement
        (filter (fun x => negb (Nat.eqb (CommunicationService.n_id x) id)) notifications)
        (match deletedNotification with
         | Some d => if negb (CommunicationService.n_read d) then count - 1 else count
         | None => count
         end)
        false None
  end.

(** The counter of the badge equals the number of unread notifications of the
    list, whose ids are pairwise different. *)
Definition badgeConsistent (s : CommState) : Prop :=
  cs_unreadNotificationsCount s = unread (cs_notifications s)
  /\ NoDup (map CommunicationService.n_id (cs_notifications s)).

(** What the actions carry when they come from the service: a pushed
    notification is new and unread, a fetched list has no id twice. *)
Definition fromService (s : CommState) (action : Action) : Prop :=
  match action with
  | AddNotification n =>
      CommunicationService.n_read n = false
      /\ ~ In (CommunicationService.n_id n)
             (map CommunicationService.n_id (cs_notifications s))
  | GetNotificationsFulfilled l => NoDup (map CommunicationService.n_id l)
  | _ => True
  end.

(** *** The reducer of [authSlice.js] *)

Section AuthSlice.
(** The user object of the replies. *)
Context {U : Type}.

Record AuthState : Type := mkAuthState {
  as_token : option string;
  as_isAuthenticated : bool;
  as_loading : bool;
  as_user : option U;
  as_error : option string
}.

(** [initialState]; [stored] is [localStorage.getItem('token')]. *)
Definition authInitialState (stored : option string) : AuthState :=
  mkAuthState stored false true None None.

Inductive AuthThunk : Type :=
| LoadUser | LoginThunk | RegisterThunk | UpdateProfile | ChangePasswordThunk | Logout.

Inductive AuthAction : Type :=
| ClearError
| AuthPending (t : AuthThunk)
| AuthRejected (t : AuthThunk) (payload : option string)
| LoadUserFulfilled (user : U)
| LoginFulfilled (user : U)
| RegisterFulfilled (user : U)
| UpdateProfileFulfilled (user : U)
| ChangePasswordFulfilled
| LogoutFulfilled.

(** [authSlice.reducer]. *)
Definition authReducer (s : AuthState) (action : AuthAction) : AuthState :=
  match action with
  | ClearError =>
      mkAuthState (as_token s) (as_isAuthenticated s) (as_loading s) (as_user s) None
  | AuthPending Logout => s
  | AuthPending _ =>
      mkAuthState (as_token s) (as_isAuthenticated s) true (as_user s) (as_error s)
  | AuthRejected Logout _ => s
  | AuthRejected UpdateProfile payload | AuthRejected ChangePasswordThunk payload =>
      mkAuthState (as_token s) (as_isAuthenticated s) false (as_user s) payload
  | AuthRejected _ payload => mkAuthState None false false None payload
  | LoadUserFulfilled user | LoginFulfilled user | RegisterFulfilled user =>
      mkAuthState (as_token s) true false (Some user) None
  | UpdateProfileFulfilled user =>
      mkAuthState (as_token s) (as_isAuthenticated s) false (Some user) None
  | ChangePasswordFulfilled =>
      mkAuthState (as_token s) (as_isAuthenticated s) false (as_user s) None
  | LogoutFulfilled => mkAuthState None false false None None
  end.

(** The state after a sequence of actions. *)
Definition authRun (s : AuthState) (actions : list AuthAction) : AuthState :=
  fold_left authReducer actions s.
End AuthSlice.

End Frontend.

(** ** User service: [backend/user-service/server.js] *)

Module UserService.

(** What [jwt.sign] of the login route puts in the token. *)
Record TokenPayload : Type := mkTokenPayload {
  tp_id : oid;
  tp_email : string;
  tp_role : string
}.

(** The libraries the service calls: Joi's e-mail syntax check, bcryptjs and
    jsonwebtoken.  A token is opaque. *)
Class Libraries : Type := {
  Token : Type;
  isEmail : string -> bool;
  bcrypt_hash : string -> string -> string;
  bcrypt_compare : string -> string -> bool;
  jwt_sign : TokenPayload -> Z -> Token;
  jwt_decode : Token -> option TokenPayload
}.

(** Their contracts: a password matches its own hash whatever the salt, and
    decoding a signed token gives its payload back. *)
Class LibrariesSpec (L : Libraries) : Prop := {
  bcrypt_compare_hash :
    forall password salt, bcrypt_compare password (bcrypt_hash password salt) = true;
  jwt_decode_sign :
    forall payload now, jwt_decode (jwt_sign payload now) = Some payload
}.

Record Preferences : Type := mkPreferences {
  pref_theme : option string;
  pref_notifications : option bool;
  pref_language : option string
}.

Record ContactInfo : Type := mkContactInfo {
  ct_phone : option string;
  ct_address : option string;
  ct_city : option string;
  ct_state : option string;
  ct_zipCode : option string;
  ct_country : option string
}.

Record User : Type := mkUser {
  usr_id : oid;
  usr_username : string;
  usr_email : string;
  usr_passwordHash : string;
  usr_firstName : string;
  usr_lastName : string;
  usr_role : string;
  usr_avatar : string;
  usr_status : string;
  usr_lastLogin : option Z;
  usr_preferences : Preferences;
  usr_contactInfo : ContactInfo;
  usr_createdAt : Z;
  usr_updatedAt : Z
}.

Record DB : Type := mkDB {
  users : list User;
  nextId : oid
}.

(** The [user] object of a reply; only PUT /users/:id reports the status. *)
Record UserView : Type := mkUserView {
  uv_id : oid;
  uv_username : string;
  uv_email : string;
  uv_firstName : string;
  uv_lastName : string;
  uv_role : string;
  uv_status : option string
}.

Definition userRoles : list string := ["admin"; "teacher"; "student"].
Definition userStatuses : list string := ["active"; "inactive"; "suspended"].

(** The setters of the [email] path ([trim], [lowercase]).  Mongoose runs the
    setters of a path on the documents it saves and, from version 5 on (the
    [useUnifiedTopology] option of the connection dates the code to 5.7 or
    later), on the values of a query for that path. *)
Definition emailSetter (s : string) : string := JS.trim (JS.toLowerCase s).

Definition joiString (key : string) (minLength : nat) (v : option string)
  : option ReplyMessage :=
  match v with
  | None => Some (JoiMsg key "any.required")
  | Some s =>
      if negb (JS.truthy s) then Some (JoiMsg key "string.empty")
      else if (String.length s <? minLength)%nat then Some (JoiMsg key "string.min")
      else None
  end.

Fixpoint firstError (checks : list (option ReplyMessage)) : option ReplyMessage :=
  match checks with
  | [] => None
  | Some e :: _ => Some e
  | None :: rest => firstError rest
  end.

Record RegisterBody : Type := mkRegisterBody {
  rb_username : option string;
  rb_email : option string;
  rb_password : option string;
  rb_firstName : option string;
  rb_lastName : option string;
  rb_role : option string
}.

Record LoginBody : Type := mkLoginBody {
  lb_email : option string;
  lb_password : option string
}.

Section Handlers.
Context {L : Libraries}.

Record Response : Type := mkResponse {
  res_status : Z;
  res_message : option ReplyMessage;
  res_token : option Token;
  res_user : option UserView
}.

Definition reply (code : Z) (text : string) : Response :=
  mkResponse code (Some (Msg text)) None None.

Definition joiEmail (key : string) (v : option string) : option ReplyMessage :=
  match v with
  | None => Some (JoiMsg key "any.required")
  | Some s =>
      if negb (JS.truthy s) then Some (JoiMsg key "string.empty")
      else if isEmail s then None else Some (JoiMsg key "string.email")
  end.

(** [registerSchema.validate]. *)
Definition registerSchema (body : RegisterBody) : option ReplyMessage :=
  firstError
    [ joiString "username" 3 (rb_username body);
      joiEmail "email" (rb_email body);
      joiString "password" 6 (rb_password body);
      joiString "firstName" 0 (rb_firstName body);
      joiString "lastName" 0 (rb_lastName body);
      match rb_role body with
      | None => Some (JoiMsg "role" "any.required")
      | Some r => if JS.one_of userRoles r then None
                  else Some (JoiMsg "role" "any.only")
      end ].

(** [loginSchema.validate]. *)
Definition loginSchema (body : LoginBody) : option ReplyMessage :=
  firstError
    [ joiEmail "email" (lb_email body);
      joiString "password" 0 (lb_password body) ].

Definition User_findById (id : oid) (db : DB) : option User :=
  findById usr_id id (users db).

(** [User.findOne({ email })]. *)
Definition User_findByEmail (email : string) (db : DB) : option User :=
  find (fun u => String.eqb (usr_email u) (emailSetter email)) (users db).

(** [User.findOne({ $or: [{ email }, { username }] })]. *)
Definition User_findByEmailOrUsername (email username : string) (db : DB)
  : option User :=
  find (fun u => String.eqb (usr_email u) (emailSetter email)
                 || String.eqb (usr_username u) (JS.trim username))
       (users db).

(** Schema validation run by [user.save()]. *)
Definition User_valid (u : User) : bool :=
  JS.truthy (usr_username u) && (3 <=? String.length (usr_username u))%nat
  && JS.truthy (usr_email u)
  && JS.truthy (usr_passwordHash u)
  && JS.truthy (usr_firstName u)
  && JS.truthy (usr_lastName u)
  && JS.one_of userRoles (usr_role u)
  && JS.one_of userStatuses (usr_status u).

(** The pre-save hook. *)
Definition User_stamp (u : User) (now : Z) : User :=
  mkUser (usr_id u) (usr_username u) (usr_email u) (usr_passwordHash u)
         (usr_firstName u) (usr_lastName u) (usr_role u) (usr_avatar u)
         (usr_status u) (usr_lastLogin u) (usr_preferences u) (usr_contactInfo u)
         (usr_createdAt u) now.

(** The unique indexes of [username] and [email]. *)
Definition duplicateKey (u : User) (db : DB) : bool :=
  existsb (fun x => String.eqb (usr_email x) (usr_email u)
                    || String.eqb (usr_username x) (usr_username u))
          (users db).

Definition User_insert (u : User) (now : Z) (db : DB) : DB :=
  mkDB (users db ++ [User_stamp u now])%list (S (nextId db)).

Definition User_save (u : User) (now : Z) (db : DB) : DB :=
  mkDB (updateOne usr_id (User_stamp u now) (users db)) (nextId db).

(** [new User({ username, email, passwordHash, firstName, lastName, role })]
    with the setters and the defaults of the schema. *)
Definition User_new (username email passwordHash firstName lastName role : string)
    (now : Z) (db : DB) : User :=
  mkUser (nextId db) (JS.trim username) (emailSetter email) passwordHash
         (JS.trim firstName) (JS.trim lastName) role "" "active" None
         (mkPreferences (Some "light") (Some true) (Some "en"))
         (mkContactInfo None None None None None None)
         now now.

Definition text (o : option string) : string :=
  match o with Some s => s | None => "" end.

(** POST /auth/register; [salt] is the value of [bcrypt.genSalt(10)]. *)
Definition postRegister (body : RegisterBody) (salt : string) (now : Z) (db : DB)
  : Response * DB :=
  match registerSchema body with
  | Some err => (mkResponse 400 (Some err) None None, db)
  | None =>
      let username := text (rb_username body) in
      let email := text (rb_email body) in
      let password := text (rb_password body) in
      match User_findByEmailOrUsername email username db with
      | Some _ => (reply 400 "User already exists", db)
      | None =>
          let passwordHash := bcrypt_hash password salt in
          let newUser :=
            User_new username email passwordHash (text (rb_firstName body))
                     (text (rb_lastName body)) (text (rb_role body)) now db in
          if User_valid newUser && negb (duplicateKey newUser db) then
            (reply 201 "User registered successfully", User_insert newUser now db)
          else (reply 500 "Server error", db)
      end
  end.

Definition User_setLastLogin (u : User) (t : Z) : User :=
  mkUser (usr_id u) (usr_username u) (usr_email u) (usr_passwordHash u)
         (usr_firstName u) (usr_lastName u) (usr_role u) (usr_avatar u)
         (usr_status u) (Some t) (usr_preferences u) (usr_contactInfo u)
         (usr_createdAt u) (usr_updatedAt u).

(** POST /auth/login with the local strategy of passport. *)
Definition postLogin (body : LoginBody) (now : Z) (db : DB) : Response * DB :=
  match loginSchema body with
  | Some err => (mkResponse 400 (Some err) None None, db)
  | None =>
      match User_findByEmail (text (lb_email body)) db with
      | None => (reply 401 "Incorrect email.", db)
      | Some user =>
          if negb (bcrypt_compare (text (lb_password body)) (usr_passwordHash user))
          then (reply 401 "Incorrect password.", db)
          else
            let user := User_setLastLogin user now in
            let db' := if User_valid user then User_save user now db else db in
            let token :=
              jwt_sign (mkTokenPayload (usr_id user) (usr_email user) (usr_role user))
                       now in
            (mkResponse 200 None (Some token)
               (Some (mkUserView (usr_id user) (usr_username user) (usr_email user)
                                 (usr_firstName user) (usr_lastName user)
                                 (usr_role user) None)),
             db')
      end
  end.

(** The body of PUT /users/:id. *)
Record UpdateBody : Type := mkUpdateBody {
  ub_firstName : option string;
  ub_lastName : option string;
  ub_avatar : option string;
  ub_contactInfo : option ContactInfo;
  ub_preferences : option Preferences;
  ub_role : option string;
  ub_status : option string
}.

(** [if (req.body[field]) user[field] = req.body[field]] on a string path. *)
Definition assignIfTruthy (setter : string -> string) (new : option string)
    (old : string) : string :=
  match new with
  | Some s => if JS.truthy s then setter s else old
  | None => old
  end.

Definition assignObject {A : Type} (new : option A) (old : A) : A :=
  match new with Some v => v | None => old end.

(** The five fields of [updateFields]. *)
Definition assignProfile (user : User) (body : UpdateBody) : User :=
  mkUser (usr_id user) (usr_username user) (usr_email user) (usr_passwordHash user)
         (assignIfTruthy JS.trim (ub_firstName body) (usr_firstName user))
         (assignIfTruthy JS.trim (ub_lastName body) (usr_lastName user))
         (usr_role user)
         (assignIfTruthy (fun s => s) (ub_avatar body) (usr_avatar user))
         (usr_status user) (usr_lastLogin user)
         (assignObject (ub_preferences body) (usr_preferences user))
         (assignObject (ub_contactInfo body) (usr_contactInfo user))
         (usr_createdAt user) (usr_updatedAt user).

(** [if (req.body.role) user.role = req.body.role;
     if (req.body.status) user.status = req.body.status;] *)
Definition assignAdminFields (user : User) (body : UpdateBody) : User :=
  mkUser (usr_id user) (usr_username user) (usr_email user) (usr_passwordHash user)
         (usr_firstName user) (usr_lastName user)
         (assignIfTruthy (fun s => s) (ub_role body) (usr_role user))
         (usr_avatar user)
         (assignIfTruthy (fun s => s) (ub_status body) (usr_status user))
         (usr_lastLogin user) (usr_preferences user) (usr_contactInfo user)
         (usr_createdAt user) (usr_updatedAt user).

(** PUT /users/:id.  The jwt strategy of passport loads [req.user] from the
    store by the id of the token; the text of [:id] is the canonical text of
    an ObjectId or does not cast. *)
Definition putUser (payload : TokenPayload) (id : IdText) (body : UpdateBody)
    (now : Z) (db : DB) : Response * DB :=
  match User_findById (tp_id payload) db with
  | None => (mkResponse 401 None None None, db)
  | Some reqUser =>
      let own := match id with
                 | GoodId n => Nat.eqb (usr_id reqUser) n
                 | BadId => false
                 end in
      if negb (String.eqb (usr_role reqUser) "admin") && negb own then
        (reply 403 "Access denied", db)
      else
        match id with
        | BadId => (reply 500 "Server error", db)
        | GoodId n =>
            match User_findById n db with
            | None => (reply 404 "User not found", db)
            | Some user =>
                let user := assignProfile user body in
                let user :=
                  if String.eqb (usr_role reqUser) "admin"
                  then assignAdminFields user body else user in
                if User_valid user then
                  (mkResponse 200 (Some (Msg "User updated successfully")) None
                     (Some (mkUserView (usr_id user) (usr_username user)
                              (usr_email user) (usr_firstName user)
                              (usr_lastName user) (usr_role user)
                              (Some (usr_status user)))),
                   User_save user now db)
                else (reply 500 "Server error", db)
            end
        end
  end.

(** The body of POST /users/:id/change-password. *)
Record PasswordBody : Type := mkPasswordBody {
  pb_currentPassword : option string;
  pb_newPassword : option string
}.

Definition User_setPasswordHash (u : User) (hash : string) : User :=
  mkUser (usr_id u) (usr_username u) (usr_email u) hash
         (usr_firstName u) (usr_lastName u) (usr_role u) (usr_avatar u)
         (usr_status u) (usr_lastLogin u) (usr_preferences u) (usr_contactInfo u)
         (usr_createdAt u) (usr_updatedAt u).

(** POST /users/:id/change-password; [salt] is the value of
    [bcrypt.genSalt(10)]. *)
Definition postChangePassword (payload : TokenPayload) (id : IdText)
    (body : PasswordBody) (salt : string) (now : Z) (db : DB) : Response * DB :=
  match User_findById (tp_id payload) db with
  | None => (mkResponse 401 None None None, db)
  | Some reqUser =>
      match id with
      | BadId => (reply 403 "Access denied", db)
      | GoodId n =>
          if negb (Nat.eqb (usr_id reqUser) n) then (reply 403 "Access denied", db)
          else
            let currentPassword := text (pb_currentPassword body) in
            let newPassword := text (pb_newPassword body) in
            if negb (JS.truthy currentPassword) || negb (JS.truthy newPassword) then
              (reply 400 "Current password and new password are required", db)
            else if (String.length newPassword <? 6)%nat then
              (reply 400 "New password must be at least 6 characters long", db)
            else
              match User_findById n db with
              | None => (reply 404 "User not found", db)
              | Some user =>
                  if negb (bcrypt_compare currentPassword (usr_passwordHash user))
                  then (reply 401 "Current password is incorrect", db)
                  else
                    let user :=
                      User_setPasswordHash user (bcrypt_hash newPassword salt) in
                    if User_valid user then
                      (reply 200 "Password changed successfully",
                       User_save user now db)
                    else (reply 500 "Server error", db)
              end
      end
  end.

(** A request to the service, and the state it leaves. *)
Inductive Request : Type :=
| Register (body : RegisterBody) (salt : string)
| Login (body : LoginBody)
| UpdateUser (payload : TokenPayload) (id : IdText) (body : UpdateBody)
| ChangePassword (payload : TokenPayload) (id : IdText) (body : PasswordBody)
                 (salt : string).

Definition serve (request : Request) (now : Z) (db : DB) : DB :=
  match request with
  | Register body salt => snd (postRegister body salt now db)
  | Login body => snd (postLogin body now db)
  | UpdateUser payload id body => snd (putUser payload id body now db)
  | ChangePassword payload id body salt =>
      snd (postChangePassword payload id body salt now db)
  end.

End Handlers.

(** The fields of a user document outside [updateFields] and outside the
    time stamp of the pre-save hook. *)
Definition protectedFields (u : User)
  : oid * string * string * string * string * string * option Z * Z :=
  (usr_id u, usr_username u, usr_email u, usr_passwordHash u, usr_role u,
   usr_status u, usr_lastLogin u, usr_createdAt u).

(** "Only firstName, lastName, avatar, contactInfo and preferences can
    change": every other field of the document is the same. *)
Definition onlyProfileChanged (before after : User) : Prop :=
  protectedFields before = protectedFields after
  /\ usr_updatedAt before = usr_updatedAt after.

(** No two accounts share an e-mail address or a user name. *)
Definition uniqueAccounts (db : DB) : Prop :=
  NoDup (map usr_email (users db)) /\ NoDup (map usr_username (users db)).

(** The ids of the stored users are pairwise different and below the counter
    that hands out the next one. *)
Definition idsFresh (db : DB) : Prop :=
  NoDup (map usr_id (users db))
  /\ Forall (fun u => (usr_id u < nextId db)%nat) (users db).

(** A toy instance of the libraries, to run the handlers: the hash is the
    salt followed by the password, a token is its payload. *)
Definition toyHash (password salt : string) : string := String.append salt password.

Fixpoint toyCompare (password hash : string) : bool :=
  String.eqb hash password
  || match hash with
     | String _ rest => toyCompare password rest
     | EmptyString => false
     end.

Definition hasAt (s : string) : bool :=
  match String.index 0 "@" s with Some _ => true | None => false end.

Definition toy : Libraries := {|
  Token := TokenPayload;
  isEmail := hasAt;
  bcrypt_hash := toyHash;
  bcrypt_compare := toyCompare;
  jwt_sign := fun payload _ => payload;
  jwt_decode := fun token => Some token
|}.

Definition daveBody : RegisterBody :=
  mkRegisterBody (Some "dave") (Some "Dave@School.org") (Some "secret1")
                 (Some "Dave") (Some "Jones") (Some "student").

(** Dave registers at time 1. *)
Definition db1 : DB := snd (postRegister (L := toy) daveBody "salt" 1 (mkDB [] 0%nat)).

Definition daveToken : TokenPayload := mkTokenPayload 0%nat "dave@school.org" "student".

Definition newPasswordBody : PasswordBody :=
  mkPasswordBody (Some "secret1") (Some "secret2").

Definition renameBody : UpdateBody :=
  mkUpdateBody (Some "David") None None None None (Some "admin") (Some "suspended").

End UserService.

(** * Properties *)

(** ** Sorting keeps the elements *)

Section SortingFacts.
Context {A : Type} (before : A -> A -> bool).

Lemma in_insert_sorted (x y : A) (l : list A) :
  In y (insert_sorted before x l) <-> y = x \/ In y l.
Proof.
  induction l as [|z rest IH]; simpl.
  - intuition congruence.
  - destruct (before z x); [|destruct (before x z)]; simpl; rewrite ?IH;
      intuition congruence.
Qed.

Lemma in_fold_insert (y : A) (l acc : list A) :
  In y (fold_left (fun acc x => insert_sorted before x acc) l acc)
  <-> In y l \/ In y acc.
Proof.
  revert acc; induction l as [|x rest IH]; intros acc; simpl.
  - tauto.
  - rewrite IH, in_insert_sorted. intuition congruence.
Qed.

Lemma in_sort_by (y : A) (l : list A) : In y (sort_by before l) <-> In y l.
Proof. unfold sort_by. rewrite in_fold_insert. simpl. tauto. Qed.
End SortingFacts.

(** ** Writing a document back *)

Section CollectionFacts.
Context {A : Type} (idOf : A -> oid).

Lemma findById_some (id : oid) (l : list A) (x : A) :
  findById idOf id l = Some x -> In x l /\ idOf x = id.
Proof.
  unfold findById. intros H. apply find_some in H.
  destruct H as [Hin Heq]. now apply Nat.eqb_eq in Heq.
Qed.

(** After the write, the document found under the id is the written one. *)
Lemma findById_updateOne (doc old : A) (l : list A) :
  findById idOf (idOf doc) l = Some old ->
  findById idOf (idOf doc) (updateOne idOf doc l) = Some doc.
Proof.
  unfold findById. induction l as [|x rest IH]; simpl; [discriminate|].
  destruct (Nat.eqb (idOf x) (idOf doc)) eqn:E; simpl.
  - intros _. now rewrite Nat.eqb_refl.
  - rewrite E. exact IH.
Qed.

(** A view of the documents that the written one shares with the loaded
    one is the same on the whole collection. *)
Lemma map_updateOne {B : Type} (view : A -> B) (doc old : A) (l : list A) :
  findById idOf (idOf doc) l = Some old ->
  view doc = view old ->
  map view (updateOne idOf doc l) = map view l.
Proof.
  unfold findById. intros Hfind Hview.
  induction l as [|x rest IH]; simpl in *; [reflexivity|].
  destruct (Nat.eqb (idOf x) (idOf doc)); simpl.
  - injection Hfind as ->. now rewrite Hview.
  - f_equal. now apply IH.
Qed.
(** How the write changes the number of documents that satisfy a test. *)
Lemma count_updateOne (test : A -> bool) (doc old : A) (l : list A) :
  findById idOf (idOf doc) l = Some old ->
  Z.of_nat (List.length (filter test (updateOne idOf doc l)))
  = Z.of_nat (List.length (filter test l))
    - Z.b2z (test old) + Z.b2z (test doc).
Proof.
  unfold findById.
  induction l as [|x rest IH]; simpl; [discriminate|].
  destruct (Nat.eqb (idOf x) (idOf doc)); simpl.
  - intros H. injection H as ->.
    destruct (test old), (test doc); simpl List.length; simpl Z.b2z; lia.
  - intros H. specialize (IH H).
    destruct (test x); simpl List.length; lia.
Qed.

(** The write leaves the documents of the other ids where they were. *)
Lemma findById_updateOne_other (doc : A) (id : oid) (l : list A) :
  idOf doc <> id ->
  findById idOf id (updateOne idOf doc l) = findById idOf id l.
Proof.
  unfold findById. intros Hne.
  induction l as [|x rest IH]; simpl; [reflexivity|].
  destruct (Nat.eqb (idOf x) (idOf doc)) eqn:E; simpl.
  - apply Nat.eqb_eq in E. rewrite E.
    apply Nat.eqb_neq in Hne. now rewrite Hne.
  - destruct (Nat.eqb (idOf x) id); [reflexivity|exact IH].
Qed.
End CollectionFacts.

Lemma find_app_none {A : Type} (f : A -> bool) (l1 l2 : list A) :
  find f l1 = None -> find f (l1 ++ l2)%list = find f l2.
Proof.
  induction l1 as [|x rest IH]; simpl; [reflexivity|].
  destruct (f x); [discriminate|exact IH].
Qed.


Lemma strict_eq_true (a b : option string) : JS.strict_eq a b = true <-> a = b.
Proof.
  destruct a as [x|], b as [y|]; simpl; try (split; congruence).
  rewrite String.eqb_eq. split; congruence.
Qed.

Lemma truthy_true (s : string) : JS.truthy s = true <-> s <> "".
Proof.
  unfold JS.truthy. rewrite negb_true_iff, String.eqb_neq. tauto.
Qed.

(** ** Cutting a text into characters and trimming it *)

Lemma append_empty (s : string) : (s ++ "")%string = s.
Proof. induction s as [|c rest IH]; simpl; [reflexivity|now rewrite IH]. Qed.

Lemma concat_cons (x : string) (l : list string) :
  String.concat "" (x :: l) = (x ++ String.concat "" l)%string.
Proof. destruct l; simpl; [now rewrite append_empty|reflexivity]. Qed.

Lemma takeContinuation_spec (k : nat) (s : string) :
  (fst (JS.takeContinuation k s) ++ snd (JS.takeContinuation k s))%string = s
  /\ (String.length (snd (JS.takeContinuation k s)) <= String.length s)%nat.
Proof.
  revert s. induction k as [|k IH]; intros s.
  - destruct s; simpl; split; auto.
  - destruct s as [|c rest]; [simpl; split; auto|].
    cbn [JS.takeContinuation].
    destruct (JS.is_continuation c); [|simpl; split; auto].
    specialize (IH rest).
    destruct (JS.takeContinuation k rest) as [taken left].
    cbn [fst snd] in *. destruct IH as [Heq Hlen].
    split; [simpl; now rewrite Heq|simpl; lia].
Qed.

(** The cut loses nothing: the characters of a text, put end to end, are the
    text. *)
Lemma characters_concat (s : string) : String.concat "" (JS.characters s) = s.
Proof.
  unfold JS.characters.
  assert (H : forall fuel t, (String.length t <= fuel)%nat ->
            String.concat "" (JS.charactersUpTo fuel t) = t).
  { induction fuel as [|fuel IH]; intros t Hlen.
    - destruct t; [reflexivity|simpl in Hlen; lia].
    - destruct t as [|c rest]; [reflexivity|].
      cbn [JS.charactersUpTo].
      pose proof (takeContinuation_spec (JS.sequenceLength c - 1) rest) as Hspec.
      destruct (JS.takeContinuation (JS.sequenceLength c - 1) rest) as [more left].
      cbn [fst snd] in Hspec. destruct Hspec as [Heq Hleft].
      rewrite concat_cons, IH by (simpl in Hlen; lia).
      simpl. now rewrite Heq. }
  now apply H.
Qed.

(** [trim] on a greeting between a space, a NO-BREAK SPACE, a LINE SEPARATOR
    and a line feed; on a NO-BREAK SPACE alone, in UTF-8 and in Latin-1; on a
    BYTE ORDER MARK; and on the letter a with a grave accent, whose second
    byte is 160. *)
Lemma trim_examples :
  JS.trim (JS.utf8 [32; 194; 160; 72; 105; 32; 33; 226; 128; 168; 10]%nat) = "Hi !"
  /\ JS.trim (JS.utf8 [194; 160]%nat) = ""
  /\ JS.trim (JS.utf8 [160]%nat) = ""
  /\ JS.trim (JS.utf8 [239; 187; 191]%nat) = ""
  /\ JS.trim (JS.utf8 [195; 160]%nat) = JS.utf8 [195; 160]%nat.
Proof. repeat split. Qed.

(** ** Class service *)

Section ClassServiceFacts.
Import ClassService.

(** No status is both dropped and active: the guard of the decrement in
    PUT /enrollments/:id is never true. *)
Lemma dropped_and_active (s : option string) :
  JS.strict_eq s (Some "dropped") && JS.strict_eq s (Some "active") = false.
Proof.
  destruct s as [x|]; simpl; [|reflexivity].
  destruct (String.eqb_spec x "dropped") as [->|]; reflexivity.
Qed.

(** PUT /enrollments/:id never writes a class document. *)
Lemma putEnrollment_keeps_classes user id body now db :
  classes (snd (putEnrollment user id body now db)) = classes db.
Proof.
  unfold putEnrollment.
  destruct id as [|eid]; [reflexivity|].
  destruct (Enrollment_findById eid db) as [enrollment|]; [|reflexivity].
  destruct (Class_findById (e_classId enrollment) db) as [classItem|]; [|reflexivity].
  destruct (negb _ && negb _ && negb _); [reflexivity|].
  destruct (_ && negb _); [reflexivity|].
  cbn [Enrollment_setStatus e_status].
  rewrite dropped_and_active.
  destruct (Enrollment_valid _); reflexivity.
Qed.

(** A student who holds an Enrollment document of a class, whatever its
    status, is never enrolled again by POST /enrollments. *)
Lemma postEnrollments_existing user body now db classId e :
  b_classId body = Some (GoodId classId) ->
  Enrollment_findOne classId (u_id user) db = Some e ->
  res_status (fst (postEnrollments user body now db)) <> 201.
Proof.
  intros Hc He. unfold postEnrollments.
  destruct (negb _); [simpl; lia|].
  destruct (enrollmentSchema_joi body); [simpl; lia|].
  rewrite Hc.
  destruct (Class_findById classId db) as [classItem|]; [|simpl; lia].
  destruct (Qle_bool _ _); [simpl; lia|].
  rewrite He. simpl. lia.
Qed.

Lemma activeCount_insert classId e now db :
  activeCount classId (Enrollment_insert e now db)
  = activeCount classId db
    + (if Nat.eqb (e_classId e) classId && JS.strict_eq (e_status e) (Some "active")
       then 1 else 0).
Proof.
  unfold activeCount, Enrollment_insert. cbn [enrollments].
  rewrite filter_app, length_app. cbn [filter Enrollment_stamp e_classId e_status].
  destruct (Nat.eqb (e_classId e) classId && _); cbn [List.length]; lia.
Qed.

(** The enroll half of the invariant holds: POST /enrollments keeps the
    counter of every class equal to its number of active enrollments. *)
Lemma postEnrollments_keeps_count user body now db cid :
  countConsistent cid db ->
  countConsistent cid (snd (postEnrollments user body now db)).
Proof.
  intros Hinv. unfold postEnrollments.
  destruct (negb _); [exact Hinv|].
  destruct (enrollmentSchema_joi body); [exact Hinv|].
  destruct (b_classId body) as [[|classId]|]; try exact Hinv.
  destruct (Class_findById classId db) as [classItem|] eqn:Hclass; [|exact Hinv].
  destruct (Qle_bool _ _); [exact Hinv|].
  destruct (Enrollment_findOne classId (u_id user) db); [exact Hinv|].
  destruct (Enrollment_valid _); [|exact Hinv].
  cbn [snd]. unfold Class_findById in Hclass.
  destruct (findById_some _ _ _ _ Hclass) as [_ Hid].
  intros c. unfold Class_findById, Class_save.
  cbn [classes Enrollment_insert Class_setCount c_id c_name c_teacherId c_capacity
       c_enrollmentCount c_status].
  set (written := mkClass _ _ _ _ _ _ _).
  change (activeCount cid _)
    with (activeCount cid (Enrollment_insert
                             (Enrollment_new classId (u_id user) now db) now db)).
  rewrite activeCount_insert. cbn [Enrollment_new e_classId e_status JS.strict_eq].
  change (String.eqb "active" "active") with true. rewrite andb_true_r.
  destruct (Nat.eqb classId cid) eqn:E.
  - apply Nat.eqb_eq in E. subst cid.
    assert (Hw : c_id written = classId) by exact Hid.
    rewrite <- Hw at 1. rewrite <- Hw in Hclass.
    rewrite (findById_updateOne c_id written classItem _ Hclass).
    intros H. injection H as <-. cbn [written c_enrollmentCount].
    rewrite Hw in Hclass. now rewrite (Hinv _ Hclass).
  - apply Nat.eqb_neq in E.
    rewrite findById_updateOne_other by (cbn [written c_id]; congruence).
    intros H. rewrite (Hinv _ H). lia.
Qed.

(** The drop half fails on every input: when PUT /enrollments/:id accepts the
    drop of an active enrollment of a class whose counter was right, the class
    document is the same as before and the counter is one above the number of
    active enrollments. *)
Lemma drop_puts_count_one_above user eid now db e c :
  Enrollment_findById eid db = Some e ->
  e_status e = Some "active" ->
  Class_findById (e_classId e) db = Some c ->
  countConsistent (e_classId e) db ->
  res_status (fst (putEnrollment user (GoodId eid) dropBody now db)) = 200 ->
  Class_findById (e_classId e) (snd (putEnrollment user (GoodId eid) dropBody now db))
  = Some c
  /\ c_enrollmentCount c
     = activeCount (e_classId e) (snd (putEnrollment user (GoodId eid) dropBody now db))
       + 1.
Proof.
  intros He Hactive Hc Hinv Hok. split.
  - unfold Class_findById. now rewrite putEnrollment_keeps_classes.
  - rewrite (Hinv _ Hc). revert Hok. unfold putEnrollment. rewrite He, Hc.
    destruct (negb _ && negb _ && negb _); [simpl; intros H; discriminate H|].
    destruct (_ && negb _); [simpl; intros H; discriminate H|].
    cbn [dropBody b_status Enrollment_setStatus e_status JS.strict_eq].
    change (String.eqb "dropped" "dropped") with true.
    change (String.eqb "dropped" "active") with false. cbn [andb].
    destruct (Enrollment_valid _); [|simpl; intros H; discriminate H].
    intros _. cbn [snd]. unfold activeCount, Enrollment_save. cbn [enrollments].
    unfold Enrollment_findById in He.
    destruct (findById_some _ _ _ _ He) as [_ Hid].
    set (written := Enrollment_stamp _ now).
    assert (Hw : e_id written = eid) by exact Hid.
    rewrite <- Hw in He.
    rewrite (count_updateOne e_id _ written e _ He).
    cbn [written Enrollment_stamp Enrollment_setStatus e_classId e_status
         JS.strict_eq].
    rewrite Nat.eqb_refl, Hactive. cbn [JS.strict_eq].
    change (String.eqb "active" "active") with true.
    change (String.eqb "dropped" "active") with false.
    cbn [andb Z.b2z]. lia.
Qed.

(** C1, at the failing input.  Alice enrolls in a class of capacity 2 and
    then drops: before the drop the counter of the class equals the number
    of active enrollments, after the drop (answered with status 200) the
    counter is still 1 while no enrollment of the class is active, so the
    invariant of the data model is broken. *)
Theorem drop_leaves_enrollmentCount_stale :
  countConsistent 0%nat db_enrolled
  /\ res_status (fst (putEnrollment alice (GoodId 1%nat) dropBody 20 db_enrolled)) = 200
  /\ option_map c_enrollmentCount (Class_findById 0%nat db_dropped) = Some 1
  /\ activeCount 0%nat db_dropped = 0
  /\ ~ countConsistent 0%nat db_dropped.
Proof.
  repeat split; try reflexivity.
  - intros c Hc. vm_compute in Hc. injection Hc as <-. reflexivity.
  - intros H. specialize (H _ eq_refl). vm_compute in H. discriminate H.
Qed.

(** C3, at the failing input.  After Alice dropped, the class holds one seat
    out of two, yet her new enroll request is answered with status 400,
    "Student is already enrolled in this class", and nothing is stored. *)
Theorem reenroll_after_drop_is_rejected :
  option_map e_status (Enrollment_findOne 0%nat "student-1" db_dropped)
    = Some (Some "dropped")
  /\ option_map (fun c => negb (Qle_bool (c_capacity c)
                                         (inject_Z (c_enrollmentCount c))))
                (Class_findById 0%nat db_dropped) = Some true
  /\ postEnrollments alice enrollAlgebra 30 db_dropped
     = (reply 400 "Student is already enrolled in this class", db_dropped).
Proof. repeat split. Qed.

End ClassServiceFacts.

(** ** Content service *)

Section ContentServiceFacts.
Import ContentService.

Lemma findById_save (c : ContentItem) (now : Z) (db : DB) (item : ContentItem) :
  ContentItem_findById (ci_id c) db = Some item ->
  ContentItem_findById (ci_id c) (ContentItem_save c now db)
  = Some (ContentItem_stamp c now).
Proof.
  unfold ContentItem_findById, ContentItem_save. cbn [contentItems].
  apply (findById_updateOne ci_id (ContentItem_stamp c now)).
Qed.

Lemma findById_id (id : oid) (db : DB) (item : ContentItem) :
  ContentItem_findById id db = Some item -> ci_id item = id.
Proof.
  unfold ContentItem_findById. intros H.
  now apply findById_some in H.
Qed.

(** One accepted update that changes the content: the stored item gains
    exactly the entry of its former self, its version goes up by one. *)
Lemma putContentItem_pushes user id body now db item :
  ContentItem_findById id db = Some item ->
  contentChanges body item = true ->
  res_status (fst (putContentItem user (GoodId id) body now db)) = 200 ->
  exists item',
    ContentItem_findById id (snd (putContentItem user (GoodId id) body now db))
    = Some item'
    /\ ci_previousVersions item' = (ci_previousVersions item ++ [versionEntry item])%list
    /\ ci_version item' = ci_version item + 1.
Proof.
  intros Hfind Hchg. unfold putContentItem. rewrite Hfind, Hchg.
  destruct (negb _ && negb _); [simpl; intros H; discriminate H|].
  destruct (ContentItem_valid _) eqn:V; [|simpl; intros H; discriminate H].
  intros _. cbn [snd].
  pose proof (findById_id _ _ _ Hfind) as Hid.
  set (c := assignFields (pushVersion item) body).
  assert (Hc : ci_id c = id) by exact Hid.
  exists (ContentItem_stamp c now). split; [|split; reflexivity].
  rewrite <- Hc. apply findById_save with (item := item). now rewrite Hc.
Qed.

(** An accepted update whose content is absent, empty or the stored one
    leaves the history and the version as they were. *)
Lemma putContentItem_keeps user id body now db item :
  ContentItem_findById id db = Some item ->
  contentChanges body item = false ->
  res_status (fst (putContentItem user (GoodId id) body now db)) = 200 ->
  exists item',
    ContentItem_findById id (snd (putContentItem user (GoodId id) body now db))
    = Some item'
    /\ ci_previousVersions item' = ci_previousVersions item
    /\ ci_version item' = ci_version item.
Proof.
  intros Hfind Hchg. unfold putContentItem. rewrite Hfind, Hchg.
  destruct (negb _ && negb _); [simpl; intros H; discriminate H|].
  destruct (ContentItem_valid _) eqn:V; [|simpl; intros H; discriminate H].
  intros _. cbn [snd].
  pose proof (findById_id _ _ _ Hfind) as Hid.
  set (c := assignFields item body).
  assert (Hc : ci_id c = id) by exact Hid.
  exists (ContentItem_stamp c now). split; [|split; reflexivity].
  rewrite <- Hc. apply findById_save with (item := item). now rewrite Hc.
Qed.

(** An item created by POST /content-items starts at version 1 with an
    empty history. *)
Lemma postContentItems_initial user body now db item :
  res_contentItem (fst (postContentItems user body now db)) = Some item ->
  ci_version item = 1 /\ ci_previousVersions item = [].
Proof.
  unfold postContentItems.
  destruct (negb _ && negb _); [discriminate|].
  destruct (contentItemSchema_joi body); [discriminate|].
  destruct (ContentItem_valid _); [|discriminate].
  simpl. intros H. injection H as <-. split; reflexivity.
Qed.

(** C2, as stated, fails: an update by the author whose payload holds the
    content field with the value already stored is accepted (status 200)
    and adds no entry and no version. *)
Lemma same_content_adds_no_version :
  exists before after,
    ContentItem_findById 0%nat db1 = Some before
    /\ ci_authorId before = u_id teacher1
    /\ b_content (withContent "v1") = Some "v1"
    /\ res_status (fst (putContentItem teacher1 (GoodId 0%nat) (withContent "v1") 7 db1))
       = 200
    /\ ContentItem_findById 0%nat
         (snd (putContentItem teacher1 (GoodId 0%nat) (withContent "v1") 7 db1))
       = Some after
    /\ ~ oneVersionAdded before after.
Proof.
  eexists. eexists. repeat (split; [reflexivity|]).
  intros [Hlen _]. discriminate Hlen.
Qed.

(** C2, amended.  Over any run of accepted updates of one item (each by its
    author or an admin, as the handler demands) whose payload holds a
    non-empty content different from the stored one, every update appends
    exactly one entry, holding the content, time stamp and author of the
    item as it was, and adds one to the version: after the run the history
    is the old one followed by these entries in order, and the version has
    grown by their number. *)
Theorem content_edits_push_versions id db entries db' item :
  contentEdits id db entries db' ->
  ContentItem_findById id db = Some item ->
  exists item',
    ContentItem_findById id db' = Some item'
    /\ ci_previousVersions item' = (ci_previousVersions item ++ entries)%list
    /\ List.length (ci_previousVersions item')
       = (List.length (ci_previousVersions item) + List.length entries)%nat
    /\ ci_version item' = ci_version item + Z.of_nat (List.length entries)
    /\ (ci_previousVersions item = [] -> ci_version item = 1 ->
        List.length (ci_previousVersions item') = List.length entries
        /\ ci_version item' = 1 + Z.of_nat (List.length entries)).
Proof.
  intros Hrun Hitem.
  enough (exists item',
    ContentItem_findById id db' = Some item'
    /\ ci_previousVersions item' = (ci_previousVersions item ++ entries)%list
    /\ List.length (ci_previousVersions item')
       = (List.length (ci_previousVersions item) + List.length entries)%nat
    /\ ci_version item' = ci_version item + Z.of_nat (List.length entries))
    as (item' & Hfind' & Hpv' & Hlen' & Hver').
  { exists item'. repeat (split; [assumption|]).
    intros Hnil Hone. rewrite Hnil in Hlen'. rewrite Hone in Hver'. now split. }
  revert item Hitem.
  induction Hrun as [db|db user body now item0 db' entries Hfind Hchg Hok Hrun IH];
    intros item Hitem.
  - exists item. rewrite app_nil_r. simpl. repeat split; auto using Nat.add_0_r. lia.
  - rewrite Hfind in Hitem. injection Hitem as <-.
    destruct (putContentItem_pushes _ _ _ _ _ _ Hfind Hchg Hok) as (mid & Hmid & Hpv & Hver).
    destruct (IH mid Hmid) as (item' & Hfind' & Hpv' & Hlen' & Hver').
    exists item'. split; [exact Hfind'|].
    rewrite Hpv in Hpv'. rewrite <- app_assoc in Hpv'. simpl in Hpv'.
    split; [exact Hpv'|]. split.
    + rewrite Hpv'. rewrite length_app. reflexivity.
    + rewrite Hver', Hver. cbn [List.length]. lia.
Qed.

(** Two edits of the lesson of [db1], at times 7 and 9. *)
Lemma content_edits_push_versions_witness :
  exists item',
    ContentItem_findById 0%nat
      (snd (putContentItem teacher1 (GoodId 0%nat) (withContent "v3") 9
         (snd (putContentItem teacher1 (GoodId 0%nat) (withContent "v2") 7 db1))))
    = Some item'
    /\ ci_previousVersions item'
       = [mkPreviousVersion (Some "v1") 5 "teacher-1";
          mkPreviousVersion (Some "v2") 7 "teacher-1"]
    /\ List.length (ci_previousVersions item') = 2%nat
    /\ ci_version item' = 3
    /\ (@nil PreviousVersion = [] -> 1 = 1 ->
        List.length (ci_previousVersions item') = 2%nat /\ ci_version item' = 1 + 2).
Proof.
  refine (content_edits_push_versions 0%nat db1 _ _ _ _ eq_refl).
  refine (edits_step 0%nat db1 teacher1 (withContent "v2") 7 _ _ _
            eq_refl eq_refl eq_refl _).
  refine (edits_step 0%nat
            (snd (putContentItem teacher1 (GoodId 0%nat) (withContent "v2") 7 db1))
            teacher1 (withContent "v3") 9 _ _ _ eq_refl eq_refl eq_refl _).
  apply edits_done.
Defined.

End ContentServiceFacts.

(** ** Communication service *)

Section CommunicationFacts.
Import CommunicationService.

Lemma findSocket_id sid st socket :
  findSocket sid st = Some socket -> s_id socket = sid /\ In socket (sockets st).
Proof.
  unfold findSocket. intros H. apply find_some in H.
  destruct H as [Hin Heq]. now apply String.eqb_eq in Heq.
Qed.


Lemma one_of_In (allowed : list string) (s : string) :
  JS.one_of allowed s = true -> In s allowed.
Proof.
  unfold JS.one_of. rewrite existsb_exists. intros (x & Hin & Heq).
  apply String.eqb_eq in Heq. now subst.
Qed.

(** A new connection is unauthenticated. *)
Lemma onConnection_unauthenticated sid st :
  findSocket sid st = None ->
  findSocket sid (onConnection sid st) = Some (mkSocket sid None None [sid]).
Proof.
  unfold findSocket, onConnection. cbn [setSockets sockets]. intros H.
  rewrite (find_app_none _ _ _ H). cbn [find s_id].
  now rewrite String.eqb_refl.
Qed.

(** A failed authentication changes nothing: the connection stays, still
    unauthenticated, and may try again. *)
Lemma failed_authenticate_keeps_state jwt_verify sid token st :
  jwt_verify token = None ->
  sr_state (onAuthenticate jwt_verify sid token st) = st.
Proof.
  intros H. unfold onAuthenticate.
  destruct (findSocket sid st); [rewrite H|]; reflexivity.
Qed.

(** The [private-message] listener never answers through the
    acknowledgement callback of the event. *)
Lemma onPrivateMessage_never_acks sid data now st :
  sr_ack (onPrivateMessage sid data now st) = None.
Proof.
  unfold onPrivateMessage.
  destruct (findSocket sid st) as [socket|]; [|reflexivity].
  destruct (negb _); [reflexivity|].
  destruct data as [data|]; [|reflexivity].
  destruct (Message_valid _); [|reflexivity].
  destruct (Notification_valid _); reflexivity.
Qed.

(** C4, at the failing input.  Bob, authenticated, sends a well-formed
    private message.  The server stores the message and emits
    [message-sent] with the new id to his socket, but it never calls the
    acknowledgement callback that the client waits for: whatever the
    latency, the promise of [sendPrivateMessage] is rejected with
    "Socket response timeout", so the successful send is reported as
    failed and the caller never gets the message id. *)
Theorem private_message_success_times_out :
  let r := onPrivateMessage "sock-1" (Some helloCarol) 100 st0 in
  sr_emitted r = [("sock-1", EvMessageSent true 0%nat)]
  /\ map m_id (messages (sr_state r)) = [0%nat]
  /\ sr_ack r = None
  /\ forall latency,
       Frontend.sendOverSocket "sock-1" helloCarol 100 latency st0
       = Frontend.Rejected "Socket response timeout".
Proof.
  cbv zeta. split; [reflexivity|]. split; [reflexivity|].
  split; [apply onPrivateMessage_never_acks|].
  intros latency. unfold Frontend.sendOverSocket.
  rewrite onPrivateMessage_never_acks. reflexivity.
Qed.

(** C6.  A [private-message] event on a connection that has not
    authenticated is answered with one [error] event, sent to that
    connection alone; the connection is kept and the store is untouched:
    no Message, no Notification. *)
Theorem unauthenticated_private_message sid socket data now st :
  findSocket sid st = Some socket ->
  s_userId socket = None ->
  let r := onPrivateMessage sid data now st in
  sr_emitted r = [(sid, EvError "Not authenticated")]
  /\ sr_state r = st
  /\ findSocket sid (sr_state r) = Some socket
  /\ messages (sr_state r) = messages st
  /\ notifications (sr_state r) = notifications st.
Proof.
  intros Hfind Hnone. cbv zeta.
  destruct (findSocket_id _ _ _ Hfind) as [<- _].
  unfold onPrivateMessage. rewrite Hfind, Hnone. simpl.
  repeat split; assumption.
Qed.

(** The second connection of [st0] never authenticated. *)
Lemma unauthenticated_private_message_witness :
  let r := onPrivateMessage "sock-2" (Some helloCarol) 100 st0 in
  sr_emitted r = [("sock-2", EvError "Not authenticated")]
  /\ sr_state r = st0
  /\ findSocket "sock-2" (sr_state r) = Some (mkSocket "sock-2" None None ["sock-2"])
  /\ messages (sr_state r) = messages st0
  /\ notifications (sr_state r) = notifications st0.
Proof.
  exact (unauthenticated_private_message "sock-2"
           (mkSocket "sock-2" None None ["sock-2"]) (Some helloCarol) 100 st0
           eq_refl eq_refl).
Defined.

End CommunicationFacts.

Section NotificationFacts.
Import CommunicationService.



Lemma in_getNotifications user st n :
  In n (getNotifications user st)
  <-> In n (notifications st) /\ n_userId n = Some (u_id user).
Proof.
  unfold getNotifications. rewrite in_sort_by, filter_In, strict_eq_true. tauto.
Qed.

(** A subject that is empty once trimmed, one NO-BREAK SPACE for instance,
    is refused by the Message schema: nothing is stored and the sender gets
    the [error] event. *)
Lemma blank_subject_is_refused sid socket sender data subject now st :
  findSocket sid st = Some socket ->
  s_userId socket = Some sender -> sender <> "" ->
  pm_subject data = Some subject -> JS.trim subject = "" ->
  onPrivateMessage sid (Some data) now st
  = mkSocketResult [(sid, EvError "Failed to send message")] None st.
Proof.
  intros Hfind Huser Hsender Hsubject Hblank.
  destruct (findSocket_id _ _ _ Hfind) as [<- _].
  apply truthy_true in Hsender.
  unfold onPrivateMessage. rewrite Hfind, Huser.
  cbn [JS.truthy_opt interpolate]. rewrite Hsender. cbn [negb].
  assert (Hinvalid : Message_valid (Message_new sender data now st) = false).
  { unfold Message_valid, Message_new.
    cbn [m_senderId m_recipientId m_subject m_content]. rewrite Hsubject.
    cbn [option_map]. rewrite Hblank. unfold JS.required_ok.
    cbn [JS.truthy_opt].
    change (JS.truthy "") with false.
    now rewrite andb_false_r. }
  now rewrite Hinvalid.
Qed.



End NotificationFacts.

Section AnnouncementFacts.
Import CommunicationService.

Lemma announcementQuery_spec user now a :
  announcementQuery user now a = true <-> startedBy now a /\ audienceMatches user a.
Proof.
  unfold announcementQuery, startedBy, audienceMatches.
  rewrite andb_true_iff, !orb_true_iff, !andb_true_iff, orb_true_iff.
  rewrite !strict_eq_true, !String.eqb_eq.
  destruct (a_startDate a) as [start|].
  - rewrite Z.leb_le. split.
    + intros [Hs Ha]. split; [now exists start|tauto].
    + intros [(s & Heq & Hs) Ha]. injection Heq as <-. tauto.
  - split; [intros [H _]; discriminate H|].
    intros [(s & Heq & _) _]. discriminate Heq.
Qed.

(** C9.  GET /announcements returns exactly the stored announcements that
    have started and whose audience matches the caller; the end date plays
    no part, so an announcement that ended in the past is still returned
    when it has started and its audience matches. *)
Theorem announcements_ignore_endDate user now st :
  (forall a, In a (getAnnouncements user now st)
             <-> In a (announcements st) /\ startedBy now a /\ audienceMatches user a)
  /\ (forall a ended,
        In a (announcements st) -> a_endDate a = Some ended -> ended < now ->
        startedBy now a -> audienceMatches user a ->
        In a (getAnnouncements user now st)).
Proof.
  assert (Hiff : forall a, In a (getAnnouncements user now st)
             <-> In a (announcements st) /\ startedBy now a /\ audienceMatches user a).
  { intros a. unfold getAnnouncements.
    rewrite in_sort_by, filter_In, announcementQuery_spec. tauto. }
  split; [exact Hiff|].
  intros a ended Hin _ _ Hs Ha. apply Hiff. tauto.
Qed.

Lemma announcementSchema_audience body :
  announcementSchema_joi body = None ->
  exists ta, b_targetAudience body = Some ta
    /\ (ta_type ta = Some "all" \/ ta_type ta = Some "class"
        \/ (ta_type ta = Some "role" /\ exists role, ta_role ta = Some role)).
Proof.
  unfold announcementSchema_joi. cbn [firstError].
  destruct (joiString "title" true _); [discriminate|].
  destruct (joiString "content" true _); [discriminate|].
  destruct (b_targetAudience body) as [ta|]; [|discriminate].
  cbn [firstError].
  destruct (joiValid "targetAudience.type" _ _ _) eqn:Htype; [discriminate|].
  destruct (joiString "targetAudience.classId" _ _); [discriminate|].
  destruct (joiValid "targetAudience.role" _ _ _) eqn:Hrole; [discriminate|].
  intros _. exists ta. split; [reflexivity|].
  unfold joiValid in Htype, Hrole.
  destruct (ta_type ta) as [t|]; [|discriminate].
  destruct (JS.one_of audienceTypes t) eqn:Hin; [|discriminate].
  apply one_of_In in Hin. simpl in Hin.
  destruct Hin as [<-|[<-|[<-|[]]]]; [now left|now right; left|].
  right; right. split; [reflexivity|].
  destruct (ta_role ta) as [role|]; [now exists role|discriminate].
Qed.

(** C5.  When POST /announcements creates an announcement (status 201), the
    document is appended to the collection and the [new-announcement] event
    goes to every connected session when the audience type is all, to
    exactly the sessions in the room of the target role when it is role,
    and, as the fallback, to every connected session when it is class; the
    type is one of the three. *)
Theorem announcement_broadcast_targets user body now st a :
  res_announcement (fst (fst (postAnnouncements user body now st))) = Some a ->
  let out := snd (fst (postAnnouncements user body now st)) in
  let st' := snd (postAnnouncements user body now st) in
  let everyone := map (fun s => (s_id s, EvNewAnnouncement a)) (sockets st) in
  res_status (fst (fst (postAnnouncements user body now st))) = 201
  /\ announcements st' = (announcements st ++ [a])%list
  /\ sockets st' = sockets st
  /\ (ta_type (a_targetAudience a) = Some "all" -> out = everyone)
  /\ (forall role,
        ta_type (a_targetAudience a) = Some "role" ->
        ta_role (a_targetAudience a) = Some role ->
        out = map (fun s => (s_id s, EvNewAnnouncement a))
                  (filter (inRoom (roleRoom role)) (sockets st)))
  /\ (ta_type (a_targetAudience a) = Some "class" -> out = everyone)
  /\ (ta_type (a_targetAudience a) = Some "all"
      \/ ta_type (a_targetAudience a) = Some "class"
      \/ (ta_type (a_targetAudience a) = Some "role"
          /\ exists role, ta_role (a_targetAudience a) = Some role)).
Proof.
  unfold postAnnouncements.
  destruct (negb _ && negb _); [discriminate|].
  destruct (announcementSchema_joi body) eqn:Hjoi; [discriminate|].
  destruct (Announcement_valid _); [|discriminate].
  cbn [fst snd res_announcement res_status]. intros H. injection H as <-.
  destruct (announcementSchema_audience _ Hjoi) as (ta & Hta & Hkind).
  cbv zeta. unfold announce, io_emit, io_to_emit, Announcement_new.
  cbn [a_targetAudience Announcement_insert sockets announcements].
  rewrite Hta.
  split; [reflexivity|]. split; [reflexivity|]. split; [reflexivity|].
  split; [intros ->; reflexivity|].
  split; [intros role -> ->; reflexivity|].
  split; [intros ->; reflexivity|].
  exact Hkind.
Qed.

(** Bob announces an exam to the students: carol's session, the only one in
    the room of that role, gets the event. *)
Lemma announcement_broadcast_targets_witness :
  snd (fst (postAnnouncements bob examBody 100 st1))
  = [("sock-3", EvNewAnnouncement examAnnouncement)].
Proof.
  exact (proj1 (proj2 (proj2 (proj2 (proj2
           (announcement_broadcast_targets bob examBody 100 st1 examAnnouncement
              eq_refl)))))
           "student" eq_refl eq_refl).
Defined.

(** The fair ended at time 50; carol still gets it at time 100. *)
Lemma announcements_ignore_endDate_witness :
  In fairAnnouncement (getAnnouncements carol 100 st2).
Proof.
  refine (proj2 (announcements_ignore_endDate carol 100 st2)
                fairAnnouncement 50 _ eq_refl eq_refl _ _).
  - left. reflexivity.
  - exists 10. split; [reflexivity|discriminate].
  - left. reflexivity.
Defined.

End AnnouncementFacts.

(** ** User service *)

Section UserServiceFacts.
Import UserService.
Context {L : Libraries}.




Context {LS : LibrariesSpec L}.


(** The profile fields are all a user without the admin role can write:
    role, status, username, e-mail, password hash, id, last login and
    creation time stay. *)
Lemma assignProfile_protected user body :
  protectedFields (assignProfile user body) = protectedFields user.
Proof. reflexivity. Qed.

(** C10, amended.  Whatever the payload of a PUT /users/:id request of a
    caller who is not an admin (on the caller's own record: any other id
    is refused), the fields of every stored user outside firstName,
    lastName, avatar, contactInfo, preferences and the updatedAt stamp of
    the save hook are unchanged; in particular role, status, username,
    e-mail and password hash are, so the caller cannot escalate. *)
Theorem self_update_keeps_protected_fields payload id body now db reqUser :
  User_findById (tp_id payload) db = Some reqUser ->
  usr_role reqUser <> "admin" ->
  map protectedFields (users (snd (putUser payload id body now db)))
  = map protectedFields (users db).
Proof.
  intros Hreq Hrole. unfold putUser. rewrite Hreq.
  apply String.eqb_neq in Hrole. rewrite Hrole. cbn [negb andb].
  destruct id as [|n]; [reflexivity|].
  destruct (Nat.eqb (usr_id reqUser) n); [|reflexivity]. cbn [negb].
  destruct (User_findById n db) as [user|] eqn:Huser; [|reflexivity].
  destruct (User_valid _); [|reflexivity].
  cbn [snd]. unfold User_save. cbn [users].
  apply map_updateOne with (old := user).
  - unfold User_findById in Huser.
    destruct (findById_some _ _ _ _ Huser) as [_ Hid].
    cbn [User_stamp usr_id assignProfile]. now rewrite Hid.
  - reflexivity.
Qed.

End UserServiceFacts.

Section UserServiceExamples.
Import UserService.

Lemma toyCompare_hash password salt :
  toyCompare password (toyHash password salt) = true.
Proof.
  unfold toyHash. induction salt as [|c rest IH]; simpl.
  - destruct password as [|a rest]; [reflexivity|].
    cbn [toyCompare]. now rewrite String.eqb_refl.
  - rewrite IH. apply orb_true_r.
Qed.

Lemma toySpec : LibrariesSpec toy.
Proof.
  split.
  - exact toyCompare_hash.
  - reflexivity.
Qed.


(** C10, as stated, fails: Dave, a student, renames himself (and asks in
    vain for the admin role); the request is accepted and the updatedAt
    field of his record, which is not one of the five, changes from 1 to
    50. *)
Lemma self_update_changes_updatedAt :
  exists before after,
    User_findById 0%nat db1 = Some before
    /\ usr_role before = "student"
    /\ res_status (fst (putUser (L := toy) daveToken (GoodId 0%nat) renameBody 50 db1))
       = 200
    /\ User_findById 0%nat
         (snd (putUser (L := toy) daveToken (GoodId 0%nat) renameBody 50 db1))
       = Some after
    /\ ~ onlyProfileChanged before after.
Proof.
  eexists. eexists. repeat (split; [reflexivity|]).
  intros [_ H]. discriminate H.
Qed.

Lemma self_update_keeps_protected_fields_witness :
  map protectedFields
      (users (snd (putUser (L := toy) daveToken (GoodId 0%nat) renameBody 50 db1)))
  = map protectedFields (users db1).
Proof.
  refine (self_update_keeps_protected_fields (L := toy) daveToken (GoodId 0%nat)
            renameBody 50 db1 _ eq_refl _).
  discriminate.
Defined.

End UserServiceExamples.

(** * Further properties of the routes *)

Section MoreCollectionFacts.
Context {A : Type} (idOf : A -> oid).

Lemma Forall_updateOne (P : A -> Prop) (doc : A) (l : list A) :
  Forall P l -> P doc -> Forall P (updateOne idOf doc l).
Proof.
  intros Hl Hdoc. induction Hl as [|x rest Hx Hrest IH]; simpl; [constructor|].
  destruct (Nat.eqb (idOf x) (idOf doc)); constructor; assumption.
Qed.

Lemma Forall_deleteOne (P : A -> Prop) (id : oid) (l : list A) :
  Forall P l -> Forall P (deleteOne idOf id l).
Proof.
  intros Hl. induction Hl as [|x rest Hx Hrest IH]; simpl; [constructor|].
  destruct (Nat.eqb (idOf x) id); [assumption|constructor; assumption].
Qed.

Lemma findById_deleteOne_other (id other : oid) (l : list A) :
  other <> id ->
  findById idOf other (deleteOne idOf id l) = findById idOf other l.
Proof.
  unfold findById. intros Hne.
  induction l as [|x rest IH]; simpl; [reflexivity|].
  destruct (Nat.eqb (idOf x) id) eqn:E; simpl.
  - apply Nat.eqb_eq in E. rewrite E.
    apply Nat.eqb_neq in Hne. rewrite Nat.eqb_sym in Hne. now rewrite Hne.
  - destruct (Nat.eqb (idOf x) other); [reflexivity|exact IH].
Qed.

Lemma findById_none (id : oid) (l : list A) :
  findById idOf id l = None <-> ~ In id (map idOf l).
Proof.
  unfold findById. induction l as [|x rest IH]; simpl; [tauto|].
  destruct (Nat.eqb (idOf x) id) eqn:E.
  - apply Nat.eqb_eq in E. split; [discriminate|]. intros H. exfalso. apply H. now left.
  - apply Nat.eqb_neq in E. rewrite IH. tauto.
Qed.

(** With unique ids, the deleted document cannot be found any more. *)
Lemma findById_deleteOne (id : oid) (l : list A) :
  NoDup (map idOf l) -> findById idOf id (deleteOne idOf id l) = None.
Proof.
  intros Hnd. induction l as [|x rest IH]; simpl; [reflexivity|].
  inversion Hnd as [|? ? Hnotin Hrest]; subst.
  destruct (Nat.eqb (idOf x) id) eqn:E.
  - apply Nat.eqb_eq in E. subst id. now apply findById_none.
  - unfold findById in *. simpl. rewrite E. now apply IH.
Qed.

Lemma in_deleteOne (x : A) (id : oid) (l : list A) :
  In x (deleteOne idOf id l) -> In x l.
Proof.
  induction l as [|y rest IH]; simpl; [tauto|].
  destruct (Nat.eqb (idOf y) id); simpl; tauto.
Qed.

Lemma map_id_updateOne (doc : A) (l : list A) :
  map idOf (updateOne idOf doc l) = map idOf l.
Proof.
  induction l as [|x rest IH]; simpl; [reflexivity|].
  destruct (Nat.eqb (idOf x) (idOf doc)) eqn:E; simpl.
  - apply Nat.eqb_eq in E. now rewrite E.
  - now rewrite IH.
Qed.
End MoreCollectionFacts.

(** ** Class service: capacity, drops, attendance, deletion, listings *)

Section ClassRoutesFacts.
Import ClassService.

(** X1.  POST /enrollments never takes a class over its capacity rounded up
    to a whole number ([capacity] is a Number that no schema holds to whole
    values): when no class holds more enrollments than that before the
    request, none does after it, so that a class whose capacity is a whole
    number never holds more than its capacity; and a request for a class
    whose counter has reached the capacity is refused and stores nothing. *)
Theorem postEnrollments_within_capacity user body now db :
  withinCapacity db ->
  withinCapacity (snd (postEnrollments user body now db))
  /\ (forall c k,
        In c (classes (snd (postEnrollments user body now db))) ->
        (c_capacity c == inject_Z k)%Q ->
        c_enrollmentCount c <= k)
  /\ forall classId c,
       b_classId body = Some (GoodId classId) ->
       Class_findById classId db = Some c ->
       (c_capacity c <= inject_Z (c_enrollmentCount c))%Q ->
       res_status (fst (postEnrollments user body now db)) <> 201
       /\ snd (postEnrollments user body now db) = db.
Proof.
  intros Hinv.
  assert (Hafter : withinCapacity (snd (postEnrollments user body now db))).
  { unfold postEnrollments.
    destruct (negb _); [exact Hinv|].
    destruct (enrollmentSchema_joi body); [exact Hinv|].
    destruct (b_classId body) as [[|classId]|]; try exact Hinv.
    destruct (Class_findById classId db) as [classItem|]; [|exact Hinv].
    destruct (Qle_bool (c_capacity classItem)
                       (inject_Z (c_enrollmentCount classItem))) eqn:Hfull;
      [exact Hinv|].
    destruct (Enrollment_findOne _ _ db); [exact Hinv|].
    destruct (Enrollment_valid _); [|exact Hinv].
    cbn [snd]. unfold withinCapacity, Class_save.
    cbn [classes Enrollment_insert].
    apply Forall_updateOne; [exact Hinv|].
    cbn [c_enrollmentCount c_capacity Class_setCount].
    assert (Hfree : (inject_Z (c_enrollmentCount classItem)
                     < inject_Z (Qceiling (c_capacity classItem)))%Q).
    { apply Qlt_le_trans with (c_capacity classItem); [|apply Qle_ceiling].
      apply Qnot_le_lt. intros Hle. apply Qle_bool_iff in Hle.
      rewrite Hle in Hfull. discriminate Hfull. }
    rewrite <- Zlt_Qlt in Hfree. lia. }
  split; [exact Hafter|]. split.
  - intros c k Hin Hwhole. unfold withinCapacity in Hafter.
    rewrite Forall_forall in Hafter. specialize (Hafter c Hin). cbn beta in Hafter.
    rewrite (Qceiling_comp _ _ Hwhole), Qceiling_Z in Hafter. exact Hafter.
  - intros classId c Hbody Hclass Hfull. unfold postEnrollments.
    destruct (negb _); [split; [simpl; lia|reflexivity]|].
    destruct (enrollmentSchema_joi body); [split; [simpl; lia|reflexivity]|].
    rewrite Hbody, Hclass.
    apply Qle_bool_iff in Hfull. rewrite Hfull. split; [simpl; lia|reflexivity].
Qed.

(** Alice's class, of capacity 2, holds at most two students after she
    enrolls. *)
Lemma postEnrollments_within_capacity_witness :
  forallb (fun c => c_enrollmentCount c <=? 2) (classes db_enrolled) = true
  /\ withinCapacity db_enrolled.
Proof.
  split; [reflexivity|].
  refine (proj1 (postEnrollments_within_capacity alice enrollAlgebra 10 db0 _)).
  constructor; [discriminate|constructor].
Defined.

(** The rounding is needed: a class of capacity one and a half that holds one
    student takes a second one. *)
Lemma fractional_capacity_takes_second_student :
  res_status (fst (postEnrollments bea enrollDrawing 10 (mkDB [drawing] [] 1%nat)))
  = 201
  /\ map c_enrollmentCount
         (classes (snd (postEnrollments bea enrollDrawing 10
                          (mkDB [drawing] [] 1%nat))))
     = [2].
Proof. split; reflexivity. Qed.

(** X2.  Whatever the enrolled student sends to PUT /enrollments/:id, the
    enrollment is afterwards either as it was or dropped: its status is the
    old one or [dropped], its class and its student are the same. *)
Theorem student_can_only_drop user eid body now db e :
  Enrollment_findById eid db = Some e ->
  u_id user = e_studentId e ->
  exists e',
    Enrollment_findById eid (snd (putEnrollment user (GoodId eid) body now db))
    = Some e'
    /\ (e_status e' = e_status e \/ e_status e' = Some "dropped")
    /\ e_classId e' = e_classId e
    /\ e_studentId e' = e_studentId e.
Proof.
  intros Hfind Hstudent. unfold putEnrollment. rewrite Hfind.
  assert (Hsame : exists e', Enrollment_findById eid db = Some e'
            /\ (e_status e' = e_status e \/ e_status e' = Some "dropped")
            /\ e_classId e' = e_classId e /\ e_studentId e' = e_studentId e).
  { exists e. auto. }
  destruct (Class_findById (e_classId e) db) as [classItem|]; [|exact Hsame].
  rewrite Hstudent, String.eqb_refl. cbn [negb andb].
  destruct (JS.strict_eq (b_status body) (Some "dropped")) eqn:Hdrop;
    cbn [negb]; [|exact Hsame].
  apply strict_eq_true in Hdrop. rewrite Hdrop.
  cbn [Enrollment_setStatus e_status JS.strict_eq].
  change (String.eqb "dropped" "dropped") with true.
  change (String.eqb "dropped" "active") with false. cbn [andb].
  destruct (Enrollment_valid _); [|exact Hsame].
  cbn [snd]. unfold Enrollment_findById, Enrollment_save in *. cbn [enrollments].
  destruct (findById_some _ _ _ _ Hfind) as [_ Hid].
  set (written := Enrollment_stamp _ now).
  assert (Hw : e_id written = eid) by exact Hid.
  exists written. rewrite <- Hw at 1. rewrite <- Hw in Hfind.
  rewrite (findById_updateOne e_id written e _ Hfind).
  split; [reflexivity|]. split; [now right|]. split; reflexivity.
Qed.

(** Alice asks for her dropped enrollment to be active again. *)
Lemma student_can_only_drop_witness :
  exists e',
    Enrollment_findById 1%nat
      (snd (putEnrollment alice (GoodId 1%nat) (mkStatusBody (Some "active")) 40
              db_dropped))
    = Some e'
    /\ (e_status e' = Some "dropped" \/ e_status e' = Some "dropped")
    /\ e_classId e' = 0%nat
    /\ e_studentId e' = "student-1".
Proof.
  exact (student_can_only_drop alice 1%nat (mkStatusBody (Some "active")) 40
           db_dropped _ eq_refl eq_refl).
Defined.

End ClassRoutesFacts.

Section AttendanceFacts.
Import ClassService.

(** X3.  Attendance is append-only and only the teacher of the class or an
    admin writes it: after any POST /enrollments/:id/attendance request,
    every stored enrollment has the attendance it had, or that list followed
    by one entry whose status is one of present, absent, late, excused, and
    then the caller is an admin or the teacher of the class; status, class
    and student of the enrollment are untouched. *)
Theorem attendance_append_only user id body now db eid e :
  Enrollment_findById eid db = Some e ->
  exists e',
    Enrollment_findById eid (snd (postAttendance user id body now db)) = Some e'
    /\ e_status e' = e_status e
    /\ e_classId e' = e_classId e
    /\ e_studentId e' = e_studentId e
    /\ (e_attendance e' = e_attendance e
        \/ exists a c,
             e_attendance e' = (e_attendance e ++ [a])%list
             /\ In (at_status a) attendanceStatuses
             /\ Class_findById (e_classId e) db = Some c
             /\ (u_role user = "admin" \/ c_teacherId c = u_id user)).
Proof.
  intros Hfind.
  assert (Hsame : exists e', Enrollment_findById eid db = Some e'
            /\ e_status e' = e_status e /\ e_classId e' = e_classId e
            /\ e_studentId e' = e_studentId e
            /\ (e_attendance e' = e_attendance e
                \/ exists a c,
                     e_attendance e' = (e_attendance e ++ [a])%list
                     /\ In (at_status a) attendanceStatuses
                     /\ Class_findById (e_classId e) db = Some c
                     /\ (u_role user = "admin" \/ c_teacherId c = u_id user))).
  { exists e. repeat split; auto. }
  unfold postAttendance.
  destruct id as [|target]; [exact Hsame|].
  destruct (Enrollment_findById target db) as [enrollment|] eqn:Htarget; [|exact Hsame].
  destruct (Class_findById (e_classId enrollment) db) as [classItem|] eqn:Hclass;
    [|exact Hsame].
  destruct (negb (String.eqb (u_role user) "admin")
            && negb (String.eqb (c_teacherId classItem) (u_id user))) eqn:Hauth;
    [exact Hsame|].
  destruct (ab_date body) as [date|]; [|exact Hsame].
  destruct (ab_status body) as [status|]; [|exact Hsame].
  destruct (negb (JS.truthy status)); [exact Hsame|].
  destruct (negb (JS.one_of attendanceStatuses status)) eqn:Hstatus; [exact Hsame|].
  destruct date as [|t]; [exact Hsame|].
  cbn [Enrollment_pushAttendance e_studentId].
  destruct (JS.truthy (e_studentId enrollment)); [|exact Hsame].
  cbn [snd]. unfold Enrollment_findById, Enrollment_save in *. cbn [enrollments].
  destruct (findById_some _ _ _ _ Htarget) as [_ Hid].
  set (written := Enrollment_stamp _ now).
  assert (Hw : e_id written = target) by exact Hid.
  destruct (Nat.eq_dec eid target) as [->|Hne].
  - rewrite Hfind in Htarget. injection Htarget as <-.
    exists written. rewrite <- Hw at 1. rewrite <- Hw in Hfind.
    rewrite (findById_updateOne e_id written e _ Hfind).
    repeat (split; [reflexivity|]). right.
    eexists. exists classItem. split; [reflexivity|].
    split; [|split; [exact Hclass|]].
    + apply negb_false_iff in Hstatus. now apply one_of_In.
    + apply andb_false_iff in Hauth.
      destruct Hauth as [H|H]; apply negb_false_iff, String.eqb_eq in H; auto.
  - exists e. rewrite findById_updateOne_other by (rewrite Hw; congruence).
    repeat split; auto.
Qed.

(** The teacher of Algebra marks Alice present. *)
Lemma attendance_append_only_witness :
  exists e',
    Enrollment_findById 1%nat
      (snd (postAttendance teacher1 (GoodId 1%nat) presentBody 16 db_enrolled))
    = Some e'
    /\ e_status e' = Some "active"
    /\ e_classId e' = 0%nat
    /\ e_studentId e' = "student-1"
    /\ (e_attendance e' = []
        \/ exists a c,
             e_attendance e' = [a]
             /\ In (at_status a) attendanceStatuses
             /\ Class_findById 0%nat db_enrolled = Some c
             /\ (u_role teacher1 = "admin" \/ c_teacherId c = u_id teacher1)).
Proof.
  exact (attendance_append_only teacher1 (GoodId 1%nat) presentBody 16 db_enrolled
           1%nat _ eq_refl).
Defined.

(** X4.  DELETE /classes/:id cascades: when it succeeds the caller is an
    admin, the enrollments left are exactly those of the other classes, the
    other classes are found as before and, ids being unique, the class itself
    is not found any more. *)
Theorem deleteClass_cascades user cid db :
  res_status (fst (deleteClass user (GoodId cid) db)) = 200 ->
  let db' := snd (deleteClass user (GoodId cid) db) in
  u_role user = "admin"
  /\ (forall e, In e (enrollments db') <-> In e (enrollments db) /\ e_classId e <> cid)
  /\ (forall other, other <> cid -> Class_findById other db' = Class_findById other db)
  /\ (NoDup (map c_id (classes db)) -> Class_findById cid db' = None).
Proof.
  unfold deleteClass.
  destruct (negb (String.eqb (u_role user) "admin")) eqn:Hrole;
    [simpl; intros H; discriminate H|].
  destruct (Class_findById cid db); [|simpl; intros H; discriminate H].
  intros _. cbn [snd]. unfold Class_findById. cbn [classes enrollments].
  split; [now apply negb_false_iff, String.eqb_eq in Hrole|].
  split; [|split].
  - intros e. rewrite filter_In, negb_true_iff, Nat.eqb_neq. tauto.
  - intros other Hne. now apply findById_deleteOne_other.
  - apply findById_deleteOne.
Qed.

(** The admin deletes Algebra after Alice enrolled. *)
Lemma deleteClass_cascades_witness :
  u_role admin1 = "admin"
  /\ (forall e, In e (enrollments (snd (deleteClass admin1 (GoodId 0%nat) db_enrolled)))
                <-> In e (enrollments db_enrolled) /\ e_classId e <> 0%nat)
  /\ (forall other, other <> 0%nat ->
        Class_findById other (snd (deleteClass admin1 (GoodId 0%nat) db_enrolled))
        = Class_findById other db_enrolled)
  /\ (NoDup (map c_id (classes db_enrolled)) ->
      Class_findById 0%nat (snd (deleteClass admin1 (GoodId 0%nat) db_enrolled)) = None).
Proof.
  exact (deleteClass_cascades admin1 0%nat db_enrolled eq_refl).
Defined.

(** X5.  An accepted enrollment shows up in both listings: the student's
    GET /enrollments/student holds it, active, with its class, and
    GET /enrollments/class/:classId of the teacher of that class or of an
    admin holds it with the id of the student. *)
Theorem enrollment_is_listed user body now db e :
  res_enrollment (fst (postEnrollments user body now db)) = Some e ->
  let db' := snd (postEnrollments user body now db) in
  e_studentId e = u_id user
  /\ e_status e = Some "active"
  /\ exists c,
       In (e, Some c) (getStudentEnrollments user db')
       /\ c_id c = e_classId e
       /\ forall caller,
            u_role caller = "admin" \/ c_teacherId c = u_id caller ->
            exists l,
              getClassEnrollments caller (GoodId (e_classId e)) db' = inr l
              /\ In (e, u_id user) l.
Proof.
  unfold postEnrollments.
  destruct (negb _); [discriminate|].
  destruct (enrollmentSchema_joi body); [discriminate|].
  destruct (b_classId body) as [[|classId]|]; try discriminate.
  destruct (Class_findById classId db) as [classItem|] eqn:Hclass; [|discriminate].
  destruct (Qle_bool _ _); [discriminate|].
  destruct (Enrollment_findOne _ _ db); [discriminate|].
  destruct (Enrollment_valid _); [|discriminate].
  cbn [fst snd res_enrollment]. intros H. injection H as <-.
  split; [reflexivity|]. split; [reflexivity|].
  unfold Class_findById in Hclass.
  destruct (findById_some _ _ _ _ Hclass) as [_ Hid].
  set (written := mkClass (c_id classItem) (c_name classItem) (c_teacherId classItem)
                    (c_capacity classItem) (c_enrollmentCount classItem + 1)
                    (c_status classItem) now).
  assert (Hw : c_id written = classId) by exact Hid.
  assert (Hfound : forall d,
            Class_findById classId
              (Class_save (Class_setCount classItem (c_enrollmentCount classItem + 1))
                          now d)
            = match findById c_id classId (classes d) with
              | Some _ => Some written
              | None => None
              end).
  { intros d. unfold Class_findById, Class_save. cbn [classes].
    fold written.
    destruct (findById c_id classId (classes d)) as [old|] eqn:Hd.
    - rewrite <- Hw at 1. rewrite <- Hw in Hd.
      apply (findById_updateOne c_id written old _ Hd).
    - rewrite findById_none in Hd |- *. now rewrite map_id_updateOne. }
  specialize (Hfound (Enrollment_insert
                        (Enrollment_new classId (u_id user) now db) now db)).
  cbn [Enrollment_insert classes] in Hfound. rewrite Hclass in Hfound.
  exists written. split; [|split; [exact Hw|]].
  - unfold getStudentEnrollments. apply in_map_iff.
    exists (Enrollment_stamp (Enrollment_new classId (u_id user) now db) now). split.
    + cbn [Enrollment_stamp Enrollment_new e_classId]. now rewrite Hfound.
    + apply filter_In. split.
      * cbn [Class_save Enrollment_insert enrollments]. apply in_or_app.
        right. left. reflexivity.
      * cbn [Enrollment_stamp Enrollment_new e_studentId]. apply String.eqb_refl.
  - intros caller Hcaller. unfold getClassEnrollments.
    cbn [Enrollment_stamp Enrollment_new e_classId]. rewrite Hfound.
    assert (Hauth : negb (String.eqb (u_role caller) "admin")
                    && negb (String.eqb (c_teacherId written) (u_id caller)) = false).
    { apply andb_false_iff. destruct Hcaller as [H|H].
      - left. now rewrite H.
      - right. rewrite H. now rewrite String.eqb_refl. }
    rewrite Hauth. eexists. split; [reflexivity|].
    apply in_map_iff.
    exists (Enrollment_stamp (Enrollment_new classId (u_id user) now db) now).
    split; [reflexivity|].
    apply filter_In. split.
    + cbn [Class_save Enrollment_insert enrollments]. apply in_or_app.
      right. left. reflexivity.
    + cbn [Enrollment_stamp Enrollment_new e_classId]. apply Nat.eqb_refl.
Qed.

Lemma enrollment_is_listed_witness :
  e_studentId (mkEnrollment 1%nat 0%nat "student-1" 10 (Some "active") None [] 10 10)
  = u_id alice
  /\ e_status (mkEnrollment 1%nat 0%nat "student-1" 10 (Some "active") None [] 10 10)
     = Some "active"
  /\ exists c,
       In (mkEnrollment 1%nat 0%nat "student-1" 10 (Some "active") None [] 10 10,
           Some c)
          (getStudentEnrollments alice db_enrolled)
       /\ c_id c = 0%nat
       /\ forall caller,
            u_role caller = "admin" \/ c_teacherId c = u_id caller ->
            exists l,
              getClassEnrollments caller (GoodId 0%nat) db_enrolled = inr l
              /\ In (mkEnrollment 1%nat 0%nat "student-1" 10 (Some "active") None []
                                  10 10, u_id alice) l.
Proof.
  exact (enrollment_is_listed alice enrollAlgebra 10 db0 _ eq_refl).
Defined.

End AttendanceFacts.

(** ** Content service: what a student sees, deletion, fixed fields *)

Section ContentRoutesFacts.
Import ContentService.

Lemma shownToStudent_publishedBy now c :
  shownToStudent now c = true -> publishedBy now c.
Proof.
  unfold shownToStudent, publishedBy. rewrite andb_true_iff, strict_eq_true.
  intros [Hs Hd]. split; [exact Hs|].
  intros d Heq. rewrite Heq in Hd. now apply Z.leb_le.
Qed.

Lemma moduleView_student user now st m item :
  u_role user = "student" ->
  In item (pm_contentItems (moduleView user now st m)) -> publishedBy now item.
Proof.
  intros Hrole. unfold moduleView. rewrite Hrole. cbn [pm_contentItems].
  change (String.eqb "student" "student") with true. cbn iota.
  rewrite filter_In. intros [_ H]. now apply shownToStudent_publishedBy.
Qed.

(** X6.  A student is never served unpublished or future-dated content: every
    item returned to a student by GET /content-items/class/:classId,
    GET /content-items/:id, GET /content-modules/class/:classId or
    GET /content-modules/:id is published and not dated after [now], and the
    modules returned are published themselves. *)
Theorem student_sees_only_published user now st :
  u_role user = "student" ->
  (forall classId query item,
     In item (getContentItemsForClass user classId query now (st_items st)) ->
     publishedBy now item)
  /\ (forall id item,
        res_contentItem (getContentItem user id now (st_items st)) = Some item ->
        publishedBy now item)
  /\ (forall classId status pm,
        In pm (getContentModulesForClass user classId status now st) ->
        cm_status (pm_module pm) = Some "published"
        /\ forall item, In item (pm_contentItems pm) -> publishedBy now item)
  /\ (forall id pm,
        getContentModule user id now st = inr pm ->
        cm_status (pm_module pm) = Some "published"
        /\ forall item, In item (pm_contentItems pm) -> publishedBy now item).
Proof.
  intros Hrole. split; [|split; [|split]].
  - intros classId query item. unfold getContentItemsForClass.
    rewrite Hrole. change (String.eqb "student" "student") with true. cbn iota.
    rewrite in_sort_by, filter_In, !andb_true_iff.
    intros (_ & (((_ & Hstatus) & _) & _) & Hdate).
    apply strict_eq_true in Hstatus. split; [exact Hstatus|].
    unfold publishedBefore in Hdate. intros d Heq. rewrite Heq in Hdate.
    now apply Z.leb_le.
  - intros id item. unfold getContentItem.
    destruct id as [|cid]; [discriminate|].
    destruct (ContentItem_findById cid (st_items st)) as [c|]; [|discriminate].
    rewrite Hrole. change (String.eqb "student" "student") with true. cbn [andb].
    destruct (hiddenFromStudent now c) eqn:Hhidden; [discriminate|].
    cbn [res_contentItem]. intros H. injection H as <-.
    unfold hiddenFromStudent in Hhidden. apply orb_false_iff in Hhidden.
    destruct Hhidden as [Hs Hd]. apply negb_false_iff, strict_eq_true in Hs.
    split; [exact Hs|]. intros d Heq. rewrite Heq in Hd.
    apply Z.ltb_ge in Hd. exact Hd.
  - intros classId status pm. unfold getContentModulesForClass.
    rewrite Hrole. change (String.eqb "student" "student") with true. cbn iota.
    rewrite in_map_iff. intros (m & <- & Hin).
    apply in_sort_by, filter_In in Hin. destruct Hin as [_ Hm].
    apply andb_true_iff in Hm. destruct Hm as [_ Hm].
    cbn [matches] in Hm. apply strict_eq_true in Hm.
    split; [exact Hm|]. intros item. now apply moduleView_student.
  - intros id pm. unfold getContentModule.
    destruct id as [|mid]; [discriminate|].
    destruct (ContentModule_findById mid st) as [m|]; [|discriminate].
    rewrite Hrole. change (String.eqb "student" "student") with true. cbn [andb].
    destruct (JS.strict_eq (cm_status m) (Some "published")) eqn:Hs;
      cbn [negb]; [|discriminate].
    intros H. injection H as <-. apply strict_eq_true in Hs.
    split; [exact Hs|]. intros item. now apply moduleView_student.
Qed.

Lemma student_sees_only_published_witness :
  exists item,
    res_contentItem (getContentItem student1 (GoodId 0%nat) 9 (st_items store2))
    = Some item
    /\ publishedBy 9 item.
Proof.
  eexists. split; [reflexivity|].
  exact (proj1 (proj2 (student_sees_only_published student1 9 store2 eq_refl))
           (GoodId 0%nat) _ eq_refl).
Defined.

(** X7.  The two read routes of the items disagree on a published item that
    has no publish date: a student gets it from GET /content-items/:id (and
    inside a module that lists it), but GET /content-items/class/:classId
    never lists it to a student, whatever the query, because its date
    condition demands a date. *)
Theorem undated_item_hidden_from_listing user cid now db item :
  u_role user = "student" ->
  ContentItem_findById cid db = Some item ->
  ci_status item = Some "published" ->
  ci_publishDate item = None ->
  getContentItem user (GoodId cid) now db = mkResponse 200 (Msg "") (Some item)
  /\ shownToStudent now item = true
  /\ forall classId query,
       ~ In item (getContentItemsForClass user classId query now db).
Proof.
  intros Hrole Hfind Hstatus Hdate. split; [|split].
  - unfold getContentItem, hiddenFromStudent. rewrite Hfind, Hstatus, Hdate.
    cbn [JS.strict_eq]. change (String.eqb "published" "published") with true.
    cbn [negb orb]. now rewrite andb_false_r.
  - unfold shownToStudent. rewrite Hstatus, Hdate. reflexivity.
  - intros classId query. unfold getContentItemsForClass.
    rewrite Hrole. change (String.eqb "student" "student") with true. cbn iota.
    rewrite in_sort_by, filter_In, !andb_true_iff.
    intros (_ & _ & Hd). unfold publishedBefore in Hd. rewrite Hdate in Hd.
    discriminate Hd.
Qed.

Lemma undated_item_hidden_from_listing_witness :
  res_status (getContentItem student1 (GoodId 0%nat) 9 db2) = 200
  /\ getContentItemsForClass student1 "class-1" (mkListQuery None None None) 9 db2 = [].
Proof.
  pose proof (undated_item_hidden_from_listing student1 0%nat 9 db2 _
                eq_refl eq_refl eq_refl eq_refl) as [Hget _].
  split; [now rewrite Hget|reflexivity].
Defined.

End ContentRoutesFacts.

Section ContentDeletionFacts.
Import ContentService.

Lemma findById_map_pull (cid mid : oid) (l : list ContentModule) :
  findById cm_id mid (map (pullItem cid) l)
  = option_map (pullItem cid) (findById cm_id mid l).
Proof.
  unfold findById. induction l as [|m rest IH]; simpl; [reflexivity|].
  destruct (Nat.eqb (cm_id m) mid); [reflexivity|exact IH].
Qed.

(** X8.  DELETE /content-items/:id leaves no dangling reference: when it
    succeeds the caller is the author or an admin, every module is found as
    before with exactly the occurrences of the deleted id removed from its
    list, no module refers to the id any more, the other items are found as
    before and, ids being unique, the item itself is gone. *)
Theorem deleteContentItem_pulls_references user cid st :
  res_status (fst (deleteContentItem user (GoodId cid) st)) = 200 ->
  let st' := snd (deleteContentItem user (GoodId cid) st) in
  (exists item, ContentItem_findById cid (st_items st) = Some item
                /\ (u_role user = "admin" \/ ci_authorId item = u_id user))
  /\ (forall mid, ContentModule_findById mid st'
                  = option_map (pullItem cid) (ContentModule_findById mid st))
  /\ (forall m, In m (st_modules st') -> ~ In cid (cm_contentItems m))
  /\ (forall other, other <> cid ->
        ContentItem_findById other (st_items st')
        = ContentItem_findById other (st_items st))
  /\ (NoDup (map ci_id (contentItems (st_items st))) ->
      ContentItem_findById cid (st_items st') = None).
Proof.
  unfold deleteContentItem.
  destruct (ContentItem_findById cid (st_items st)) as [item|] eqn:Hitem;
    [|simpl; intros H; discriminate H].
  destruct (negb (String.eqb (u_role user) "admin")
            && negb (String.eqb (ci_authorId item) (u_id user))) eqn:Hauth;
    [simpl; intros H; discriminate H|].
  intros _. cbn [snd]. split; [|split; [|split; [|split]]].
  - exists item. split; [reflexivity|].
    apply andb_false_iff in Hauth.
    destruct Hauth as [H|H]; apply negb_false_iff, String.eqb_eq in H; auto.
  - intros mid. unfold ContentModule_findById. cbn [st_modules].
    apply findById_map_pull.
  - intros m. cbn [st_modules]. rewrite in_map_iff. intros (m0 & <- & _).
    cbn [pullItem cm_contentItems]. rewrite filter_In.
    intros [_ H]. now rewrite Nat.eqb_refl in H.
  - intros other Hne. unfold ContentItem_findById. cbn [st_items contentItems].
    now apply findById_deleteOne_other.
  - unfold ContentItem_findById. cbn [st_items contentItems].
    apply findById_deleteOne.
Qed.

(** The author deletes the lesson that the module of [store2] lists. *)
Lemma deleteContentItem_pulls_references_witness :
  map cm_contentItems (st_modules store2) = [[0%nat]]
  /\ Forall (fun m => ~ In 0%nat (cm_contentItems m))
            (st_modules (snd (deleteContentItem teacher1 (GoodId 0%nat) store2))).
Proof.
  split; [reflexivity|]. apply Forall_forall.
  exact (proj1 (proj2 (proj2
           (deleteContentItem_pulls_references teacher1 0%nat store2 eq_refl)))).
Defined.

(** X9.  PUT /content-items/:id cannot move or re-attribute an item:
    whatever the caller and the payload, the id, author, class, attachments
    and creation time of every stored item are as before; and a caller who is
    neither an admin nor the author of the item changes nothing at all. *)
Theorem putContentItem_fixed_fields user id body now db :
  map fixedFields (contentItems (snd (putContentItem user id body now db)))
  = map fixedFields (contentItems db)
  /\ forall cid item,
       id = GoodId cid ->
       ContentItem_findById cid db = Some item ->
       u_role user <> "admin" -> ci_authorId item <> u_id user ->
       putContentItem user id body now db
       = (reply 403
            "Access denied. Only the author of this content or an admin can update it.",
          db).
Proof.
  split.
  - unfold putContentItem.
    destruct id as [|cid]; [reflexivity|].
    destruct (ContentItem_findById cid db) as [item|] eqn:Hitem; [|reflexivity].
    destruct (negb _ && negb _); [reflexivity|].
    destruct (ContentItem_valid _); [|reflexivity].
    cbn [snd]. unfold ContentItem_save. cbn [contentItems].
    unfold ContentItem_findById in Hitem.
    destruct (findById_some _ _ _ _ Hitem) as [_ Hid].
    apply map_updateOne with (old := item).
    + destruct (contentChanges body item); cbn; now rewrite Hid.
    + destruct (contentChanges body item); reflexivity.
  - intros cid item -> Hitem Hrole Hauthor. unfold putContentItem. rewrite Hitem.
    apply String.eqb_neq in Hrole, Hauthor. now rewrite Hrole, Hauthor.
Qed.

Lemma putContentItem_fixed_fields_witness :
  putContentItem student1 (GoodId 0%nat) (withContent "defaced") 9 db2
  = (reply 403
       "Access denied. Only the author of this content or an admin can update it.",
     db2).
Proof.
  refine (proj2 (putContentItem_fixed_fields student1 (GoodId 0%nat)
                   (withContent "defaced") 9 db2)
                0%nat _ eq_refl eq_refl _ _); discriminate.
Defined.

End ContentDeletionFacts.

(** ** Communication service: sending, reading, rooms *)

Section MessagingFacts.
Import CommunicationService.

Lemma notification_for_message_valid sender data m now st recipient :
  pm_recipientId data = Some recipient -> JS.truthy recipient = true ->
  Notification_valid (Notification_new sender data m now st) = true.
Proof.
  intros Hr Ht. unfold Notification_valid, Notification_new.
  cbn [n_userId n_title n_message n_type n_relatedType JS.required_ok JS.truthy_opt].
  rewrite Hr. unfold JS.required_ok. cbn [JS.truthy_opt]. rewrite Ht. reflexivity.
Qed.

Lemma message_valid_iff sender data now st :
  Message_valid (Message_new sender data now st) = true
  <-> JS.truthy sender = true
      /\ (exists r, pm_recipientId data = Some r /\ JS.truthy r = true)
      /\ (exists s, pm_subject data = Some s /\ JS.truthy (JS.trim s) = true)
      /\ (exists c, pm_content data = Some c /\ JS.truthy c = true).
Proof.
  unfold Message_valid, Message_new.
  cbn [m_senderId m_recipientId m_subject m_content JS.required_ok].
  rewrite !andb_true_iff.
  destruct (pm_recipientId data) as [r|], (pm_subject data) as [s|],
    (pm_content data) as [c|]; cbn [option_map JS.truthy_opt]; split;
    try (intros [[[? ?] ?] ?]; discriminate);
    try (intros (_ & (? & ? & _) & (? & ? & _) & (? & ? & _)); discriminate).
  - intros [[[H1 H2] H3] H4]. repeat split; eauto.
  - intros (H1 & (r' & Hr & H2) & (s' & Hs & H3) & (c' & Hc & H4)).
    injection Hr as <-. injection Hs as <-. injection Hc as <-. auto.
Qed.



(** X11.  POST /messages and the [private-message] event are two doors to
    the same room: for every payload made of the keys recipientId, subject and
    content, each absent or a string, sent by the same user, both leave the
    same state; when the HTTP route answers 201 the socket emits the same
    [new-message] deliveries followed by [message-sent] with the id of the
    reply, otherwise neither stores nor delivers anything and the socket
    emits the [error] event. *)
Theorem http_and_socket_send_agree sid socket user data now st :
  findSocket sid st = Some socket ->
  s_userId socket = Some (u_id user) -> u_id user <> "" ->
  let r := onPrivateMessage sid (Some data) now st in
  let reply := fst (fst (postMessages user data now st)) in
  let out := snd (fst (postMessages user data now st)) in
  sr_state r = snd (postMessages user data now st)
  /\ (rp_status reply = 201 ->
      exists id, rp_data reply = Some id
                 /\ sr_emitted r = (out ++ [(sid, EvMessageSent true id)])%list)
  /\ (rp_status reply <> 201 ->
      snd (postMessages user data now st) = st /\ out = []
      /\ sr_emitted r = [(sid, EvError "Failed to send message")]).
Proof.
  intros Hfind Huser Hsender. cbv zeta.
  destruct (findSocket_id _ _ _ Hfind) as [<- _].
  apply truthy_true in Hsender.
  unfold onPrivateMessage, postMessages. rewrite Hfind, Huser.
  cbn [JS.truthy_opt interpolate]. rewrite Hsender. cbn [negb].
  destruct (Message_valid (Message_new (u_id user) data now st)) eqn:Hvalid.
  - pose proof Hvalid as Hv. apply message_valid_iff in Hv.
    destruct Hv as (_ & (rc & Hr & Hrt) & (sb & Hs & Hst) & (ct & Hc & Hct)).
    assert (Hjoi : messageSchema_joi data = None).
    { unfold messageSchema_joi, joiString. rewrite Hr, Hs, Hc, Hrt, Hct.
      assert (Hraw : JS.truthy sb = true).
      { destruct sb; [discriminate Hst|reflexivity]. }
      now rewrite Hraw. }
    rewrite Hjoi.
    rewrite (notification_for_message_valid _ _ _ _ _ rc Hr Hrt).
    cbn [fst snd rp_status rp_data sr_state sr_emitted socket_emit].
    split; [reflexivity|]. split.
    + intros _. eexists. split; reflexivity.
    + intros H. now contradiction H.
  - destruct (messageSchema_joi data);
      cbn [fst snd rp_status rp_data sr_state sr_emitted socket_emit refuse];
      (split; [reflexivity|]); (split; [intros H; discriminate H|]);
      intros _; repeat split.
Qed.

Lemma http_and_socket_send_agree_witness :
  sr_state (onPrivateMessage "sock-1" (Some helloCarol) 100 st1) = st3.
Proof.
  exact (proj1 (http_and_socket_send_agree "sock-1"
                  (mkSocket "sock-1" (Some "bob") (Some "teacher")
                            ["sock-1"; "user:bob"; "role:teacher"])
                  bob helloCarol 100 st1 eq_refl eq_refl
                  (fun H => match H with eq_refl => I end))).
Defined.

End MessagingFacts.

Section MailboxFacts.
Import CommunicationService.

Lemma in_getInbox user st m :
  In m (getInbox user st)
  <-> In m (messages st) /\ m_recipientId m = Some (u_id user).
Proof.
  unfold getInbox. rewrite in_sort_by, filter_In, strict_eq_true. tauto.
Qed.

Lemma in_getOutbox user st m :
  In m (getOutbox user st) <-> In m (messages st) /\ m_senderId m = u_id user.
Proof.
  unfold getOutbox. rewrite in_sort_by, filter_In, String.eqb_eq. tauto.
Qed.

(** X12.  A message accepted by POST /messages (status 201) is in the outbox
    of its sender and in the inbox of its recipient, unread, under the id of
    the reply; and a mailbox never shows a user the mail of others: every
    message of an inbox is addressed to the caller, every message of an
    outbox was sent by the caller. *)
Theorem sent_message_in_mailboxes user body now st id :
  rp_data (fst (fst (postMessages user body now st))) = Some id ->
  let st' := snd (postMessages user body now st) in
  (exists m recipient,
     m_id m = id /\ m_read m = false
     /\ m_senderId m = u_id user
     /\ pm_recipientId body = Some recipient
     /\ In m (getOutbox user st')
     /\ forall role, In m (getInbox (mkAuthUser recipient role) st'))
  /\ (forall reader m, In m (getInbox reader st') ->
        m_recipientId m = Some (u_id reader))
  /\ (forall reader m, In m (getOutbox reader st') -> m_senderId m = u_id reader).
Proof.
  unfold postMessages.
  destruct (messageSchema_joi body); [discriminate|].
  destruct (Message_valid _) eqn:Hvalid; [|discriminate].
  apply message_valid_iff in Hvalid.
  destruct Hvalid as (_ & (rc & Hr & Hrt) & _).
  rewrite (notification_for_message_valid _ _ _ _ _ rc Hr Hrt).
  cbn [fst snd rp_data]. intros H. injection H as <-.
  split; [|split].
  - exists (Message_new (u_id user) body now st), rc.
    repeat (split; [reflexivity || assumption|]).
    split.
    + apply in_getOutbox. split; [|reflexivity].
      cbn [Notification_insert Message_insert messages].
      apply in_or_app. right. now left.
    + intros role. apply in_getInbox. split; [|exact Hr].
      cbn [Notification_insert Message_insert messages].
      apply in_or_app. right. now left.
  - intros reader m Hin. now apply in_getInbox in Hin.
  - intros reader m Hin. now apply in_getOutbox in Hin.
Qed.

Lemma sent_message_in_mailboxes_witness :
  exists m recipient,
    m_id m = 0%nat /\ m_read m = false
    /\ m_senderId m = "bob"
    /\ pm_recipientId helloCarol = Some recipient
    /\ In m (getOutbox bob st3)
    /\ forall role, In m (getInbox (mkAuthUser recipient role) st3).
Proof.
  exact (proj1 (sent_message_in_mailboxes bob helloCarol 100 st1 0%nat eq_refl)).
Defined.

Lemma getMessage_state user mid now st m :
  Message_findById mid st = Some m ->
  Message_valid m = true ->
  snd (getMessage user (GoodId mid) now st)
  = if JS.strict_eq (m_recipientId m) (Some (u_id user)) && negb (m_read m)
    then setMessages st (updateOne m_id (Message_markRead m now) (messages st))
    else st.
Proof.
  intros Hfind Hvalid. unfold getMessage. rewrite Hfind.
  destruct (JS.strict_eq (m_recipientId m) (Some (u_id user))); cbn [negb andb].
  - rewrite andb_false_r. destruct (m_read m); cbn [negb]; [reflexivity|].
    assert (Hv : Message_valid (Message_markRead m now) = true) by exact Hvalid.
    now rewrite Hv.
  - rewrite andb_true_r. destruct (negb _); reflexivity.
Qed.

(** X13.  Only the recipient's view marks a message read, and only once:
    GET /messages/:id by anybody else leaves the state as it is; the first
    view by the recipient stores [read = true] with the time of that view,
    and every later view by anybody leaves that state, so [readAt] keeps the
    time of the first view. *)
Theorem message_is_read_once user mid now st m :
  Message_findById mid st = Some m ->
  Message_valid m = true ->
  let st1 := snd (getMessage user (GoodId mid) now st) in
  (m_recipientId m <> Some (u_id user) -> st1 = st)
  /\ (m_recipientId m = Some (u_id user) ->
      exists m1,
        Message_findById mid st1 = Some m1
        /\ m_read m1 = true
        /\ (m_read m = false -> m_readAt m1 = Some now)
        /\ (m_read m = true -> st1 = st)
        /\ forall anyone later,
             snd (getMessage anyone (GoodId mid) later st1) = st1).
Proof.
  intros Hfind Hvalid. cbv zeta.
  rewrite (getMessage_state user mid now st m Hfind Hvalid).
  assert (Hstable : forall s m', Message_findById mid s = Some m' ->
            Message_valid m' = true -> m_read m' = true ->
            forall anyone later, snd (getMessage anyone (GoodId mid) later s) = s).
  { intros s m' Hm' Hv Hread anyone later.
    rewrite (getMessage_state anyone mid later s m' Hm' Hv), Hread.
    cbn [negb]. now rewrite andb_false_r. }
  split.
  - intros Hne.
    destruct (JS.strict_eq (m_recipientId m) (Some (u_id user))) eqn:E;
      [apply strict_eq_true in E; contradiction|reflexivity].
  - intros Hrcpt. apply strict_eq_true in Hrcpt. rewrite Hrcpt. cbn [andb].
    destruct (m_read m) eqn:Hread; cbn [negb].
    + exists m. split; [exact Hfind|]. split; [exact Hread|].
      split; [discriminate|]. split; [reflexivity|]. now apply Hstable with m.
    + unfold Message_findById in Hfind.
      destruct (findById_some _ _ _ _ Hfind) as [_ Hid].
      set (written := Message_markRead m now).
      assert (Hw : m_id written = mid) by exact Hid.
      assert (Hfound : Message_findById mid
                (setMessages st (updateOne m_id written (messages st)))
              = Some written).
      { unfold Message_findById. cbn [setMessages messages].
        rewrite <- Hw at 1. rewrite <- Hw in Hfind.
        apply (findById_updateOne m_id written m _ Hfind). }
      exists written. split; [exact Hfound|]. split; [reflexivity|].
      split; [reflexivity|]. split; [discriminate|].
      now apply Hstable with written.
Qed.

(** Carol opens bob's message at time 120. *)
Lemma message_is_read_once_witness :
  exists m1,
    Message_findById 0%nat (snd (getMessage carol (GoodId 0%nat) 120 st3)) = Some m1
    /\ m_read m1 = true
    /\ (false = false -> m_readAt m1 = Some 120)
    /\ (false = true -> snd (getMessage carol (GoodId 0%nat) 120 st3) = st3)
    /\ forall anyone later,
         snd (getMessage anyone (GoodId 0%nat) later
                (snd (getMessage carol (GoodId 0%nat) 120 st3)))
         = snd (getMessage carol (GoodId 0%nat) 120 st3).
Proof.
  exact (proj2 (message_is_read_once carol 0%nat 120 st3 _ eq_refl eq_refl) eq_refl).
Defined.

End MailboxFacts.

Section NotificationReadFacts.
Import CommunicationService.

Lemma filter_map_same {A : Type} (p : A -> bool) (f : A -> A) (l : list A) :
  (forall x, p (f x) = p x) -> (forall x, p x = true -> f x = x) ->
  filter p (map f l) = filter p l.
Proof.
  intros Hp Hf. induction l as [|x rest IH]; simpl; [reflexivity|].
  rewrite Hp. destruct (p x) eqn:E; [|exact IH].
  now rewrite (Hf x E), IH.
Qed.

(** X14.  PUT /notifications/read-all marks the caller's notifications and
    nobody else's: afterwards every notification of the caller's list is
    read, the notifications that were already read are stored as they were
    (their [readAt] is not renewed), and the list of every other user is
    what it was. *)
Theorem read_all_marks_own_only user now st :
  let st' := snd (putNotificationsReadAll user now st) in
  (forall n, In n (getNotifications user st') -> n_read n = true)
  /\ (forall n, In n (notifications st) -> n_read n = true ->
        In n (notifications st'))
  /\ (forall other, u_id other <> u_id user ->
        getNotifications other st' = getNotifications other st)
  /\ map n_id (notifications st') = map n_id (notifications st).
Proof.
  cbv zeta. unfold putNotificationsReadAll. cbn [snd].
  split; [|split; [|split]].
  - intros n Hin. apply in_getNotifications in Hin. destruct Hin as [Hin Howner].
    cbn [setNotifications notifications] in Hin. apply in_map_iff in Hin.
    destruct Hin as (n0 & Heq & _).
    destruct (JS.strict_eq (n_userId n0) (Some (u_id user))) eqn:Hmine;
      cbn [andb] in Heq.
    + destruct (n_read n0) eqn:Hread; cbn [negb] in Heq; subst n;
        [exact Hread|reflexivity].
    + subst n0. apply strict_eq_true in Howner. congruence.
  - intros n Hin Hread. cbn [setNotifications notifications].
    apply in_map_iff. exists n. split; [|exact Hin].
    rewrite Hread. cbn [negb]. now rewrite andb_false_r.
  - intros other Hne. unfold getNotifications. f_equal.
    cbn [setNotifications notifications]. apply filter_map_same.
    + intros n. destruct (_ && _); reflexivity.
    + intros n Howner. apply strict_eq_true in Howner.
      destruct (JS.strict_eq (n_userId n) (Some (u_id user))) eqn:Hmine;
        [|reflexivity].
      apply strict_eq_true in Hmine. congruence.
  - cbn [setNotifications notifications]. rewrite map_map. apply map_ext.
    intros n. destruct (_ && _); reflexivity.
Qed.

(** Carol marks all her notifications read at time 130. *)
Lemma read_all_marks_own_only_witness :
  map n_read (getNotifications carol st3) = [false]
  /\ Forall (fun n => n_read n = true)
            (getNotifications carol (snd (putNotificationsReadAll carol 130 st3))).
Proof.
  split; [reflexivity|]. apply Forall_forall.
  exact (proj1 (read_all_marks_own_only carol 130 st3)).
Defined.

(** X15.  The list and the detail of the announcements disagree on ended
    announcements: for a caller who is neither an admin nor the author, an
    announcement that has started, whose end date is past and whose audience
    matches is returned by GET /announcements, yet GET /announcements/:id
    refuses it with status 403 as not active. *)
Theorem ended_announcement_listed_but_refused user now st a ended :
  Announcement_findById (a_id a) st = Some a ->
  a_endDate a = Some ended -> ended < now ->
  startedBy now a -> audienceMatches user a ->
  u_role user <> "admin" -> a_authorId a <> u_id user ->
  In a (getAnnouncements user now st)
  /\ getAnnouncement user (GoodId (a_id a)) now st
     = refuse 403 "Access denied. This announcement is not active.".
Proof.
  intros Hfind Hend Hpast Hstart Haud Hrole Hauthor. split.
  - unfold Announcement_findById in Hfind.
    destruct (findById_some _ _ _ _ Hfind) as [Hin _].
    unfold getAnnouncements.
    rewrite in_sort_by, filter_In, announcementQuery_spec. tauto.
  - unfold getAnnouncement. rewrite Hfind.
    apply String.eqb_neq in Hrole, Hauthor. rewrite Hrole, Hauthor.
    unfold isActive. rewrite Hend.
    assert (Hlate : (now <=? ended) = false) by (apply Z.leb_gt; exact Hpast).
    rewrite Hlate, andb_false_r. reflexivity.
Qed.

(** The school fair of [st2], over since time 50, asked for by carol at 100. *)
Lemma ended_announcement_listed_but_refused_witness :
  In fairAnnouncement (getAnnouncements carol 100 st2)
  /\ getAnnouncement carol (GoodId (a_id fairAnnouncement)) 100 st2
     = refuse 403 "Access denied. This announcement is not active.".
Proof.
  refine (ended_announcement_listed_but_refused carol 100 st2 fairAnnouncement 50
            eq_refl eq_refl eq_refl _ _ _ _).
  - exists 10. split; [reflexivity|discriminate].
  - left. reflexivity.
  - discriminate.
  - discriminate.
Defined.

End NotificationReadFacts.

Section RoomFacts.
Import CommunicationService.

Lemma existsb_joinRoom room other rooms :
  existsb (String.eqb room) rooms = true ->
  existsb (String.eqb room) (joinRoom other rooms) = true.
Proof.
  unfold joinRoom. intros H.
  destruct (existsb (String.eqb other) rooms); [exact H|].
  rewrite existsb_app, H. reflexivity.
Qed.

Lemma existsb_joinRoom_same room rooms :
  existsb (String.eqb room) (joinRoom room rooms) = true.
Proof.
  unfold joinRoom.
  destruct (existsb (String.eqb room) rooms) eqn:E; [exact E|].
  rewrite existsb_app. cbn [existsb]. rewrite String.eqb_refl.
  now rewrite orb_true_r.
Qed.

Lemma findSocket_replace sid st socket socket' :
  findSocket sid st = Some socket -> s_id socket' = sid ->
  findSocket sid
    (setSockets st (map (fun s => if String.eqb (s_id s) sid then socket' else s)
                        (sockets st)))
  = Some socket'.
Proof.
  unfold findSocket. cbn [setSockets sockets]. intros Hfind Hid.
  induction (sockets st) as [|s rest IH]; simpl in *; [discriminate|].
  destruct (String.eqb (s_id s) sid) eqn:E; simpl.
  - now rewrite Hid, String.eqb_refl.
  - rewrite E. now apply IH.
Qed.

(** What a successful [authenticate] leaves on the connection. *)
Lemma onAuthenticate_success jwt_verify sid token st socket decoded :
  findSocket sid st = Some socket ->
  jwt_verify token = Some decoded ->
  findSocket sid (sr_state (onAuthenticate jwt_verify sid token st))
  = Some (mkSocket (s_id socket) (Some (u_id decoded)) (Some (u_role decoded))
            (joinRoom (roleRoom (u_role decoded))
               (joinRoom (userRoom (u_id decoded)) (s_rooms socket)))).
Proof.
  intros Hfind Hverify. unfold onAuthenticate. rewrite Hfind, Hverify.
  cbn [sr_state]. apply findSocket_replace with (socket := socket); [exact Hfind|].
  cbn [s_id]. now destruct (findSocket_id _ _ _ Hfind).
Qed.

(** X16.  A connection never leaves a room.  When a connection that has
    authenticated as one user authenticates again as another, it is bound to
    the second user but still sits in the first user's personal room and
    role room, so whatever is sent to the first user's room afterwards, a
    private message for instance, is still delivered to it. *)
Theorem reauthentication_keeps_rooms jwt_verify sid socket tokenA tokenB a b st :
  findSocket sid st = Some socket ->
  jwt_verify tokenA = Some a ->
  jwt_verify tokenB = Some b ->
  let st' :=
    sr_state (onAuthenticate jwt_verify sid tokenB
                (sr_state (onAuthenticate jwt_verify sid tokenA st))) in
  exists socket',
    findSocket sid st' = Some socket'
    /\ s_userId socket' = Some (u_id b)
    /\ inRoom (userRoom (u_id b)) socket' = true
    /\ inRoom (userRoom (u_id a)) socket' = true
    /\ inRoom (roleRoom (u_role a)) socket' = true
    /\ forall ev, In (sid, ev) (io_to_emit (userRoom (u_id a)) ev st').
Proof.
  intros Hfind Ha Hb. cbv zeta.
  pose proof (onAuthenticate_success _ _ _ _ _ _ Hfind Ha) as H1.
  pose proof (onAuthenticate_success _ _ _ _ _ _ H1 Hb) as H2.
  cbn [s_id s_rooms] in H2.
  eexists. split; [exact H2|].
  assert (HuserA : inRoom (userRoom (u_id a))
            (mkSocket (s_id socket) (Some (u_id b)) (Some (u_role b))
               (joinRoom (roleRoom (u_role b))
                  (joinRoom (userRoom (u_id b))
                     (joinRoom (roleRoom (u_role a))
                        (joinRoom (userRoom (u_id a)) (s_rooms socket))))))
          = true).
  { unfold inRoom. cbn [s_rooms].
    do 3 apply existsb_joinRoom. apply existsb_joinRoom_same. }
  split; [reflexivity|]. split; [|split; [exact HuserA|split]].
  - unfold inRoom. cbn [s_rooms]. apply existsb_joinRoom, existsb_joinRoom_same.
  - unfold inRoom. cbn [s_rooms].
    do 2 apply existsb_joinRoom. apply existsb_joinRoom_same.
  - intros ev. unfold io_to_emit.
    destruct (findSocket_id _ _ _ H2) as [Hid Hin]. cbn [s_id] in Hid.
    apply in_map_iff. eexists. split; [|apply filter_In; split; [exact Hin|exact HuserA]].
    cbn [s_id]. now rewrite Hid.
Qed.

(** The second connection of [st0] authenticates as bob, then as carol. *)
Lemma reauthentication_keeps_rooms_witness :
  exists socket',
    findSocket "sock-2"
      (sr_state (onAuthenticate verifyDemo "sock-2" "token-carol"
         (sr_state (onAuthenticate verifyDemo "sock-2" "token-bob" st0))))
    = Some socket'
    /\ s_userId socket' = Some "carol"
    /\ inRoom (userRoom "carol") socket' = true
    /\ inRoom (userRoom "bob") socket' = true
    /\ inRoom (roleRoom "teacher") socket' = true
    /\ forall ev,
         In ("sock-2", ev)
            (io_to_emit (userRoom "bob") ev
               (sr_state (onAuthenticate verifyDemo "sock-2" "token-carol"
                  (sr_state (onAuthenticate verifyDemo "sock-2" "token-bob" st0))))).
Proof.
  exact (reauthentication_keeps_rooms verifyDemo "sock-2"
           (mkSocket "sock-2" None None ["sock-2"]) "token-bob" "token-carol"
           (mkAuthUser "bob" "teacher") (mkAuthUser "carol" "student") st0
           eq_refl eq_refl eq_refl).
Defined.

End RoomFacts.

(** ** User service: passwords, unique accounts, guarded fields *)

Lemma NoDup_snoc {A : Type} (l : list A) (x : A) :
  NoDup l -> ~ In x l -> NoDup (l ++ [x]).
Proof.
  intros Hl Hx. induction Hl as [|y rest Hy Hrest IH]; simpl.
  - constructor; [tauto|constructor].
  - constructor.
    + rewrite in_app_iff. simpl. intros [H|[H|[]]]; [tauto|].
      apply Hx. now left.
    + apply IH. intros H. apply Hx. now right.
Qed.

Section MoreFindFacts.
Context {A : Type} (idOf : A -> oid).

Lemma find_app_some (f : A -> bool) (l1 l2 : list A) (x : A) :
  find f l1 = Some x -> find f (l1 ++ l2)%list = Some x.
Proof.
  induction l1 as [|y rest IH]; simpl; [discriminate|].
  destruct (f y); [trivial|exact IH].
Qed.

(** The document found by a test is still the one found after it was written
    back, when the written document passes the test. *)
Lemma find_updateOne (test : A -> bool) (doc old : A) (l : list A) :
  findById idOf (idOf doc) l = Some old ->
  find test l = Some old ->
  test doc = true ->
  find test (updateOne idOf doc l) = Some doc.
Proof.
  unfold findById. intros Hid Htest Hdoc.
  induction l as [|x rest IH]; simpl in *; [discriminate|].
  destruct (Nat.eqb (idOf x) (idOf doc)) eqn:E; simpl.
  - now rewrite Hdoc.
  - destruct (test x) eqn:T.
    + injection Htest as ->. destruct (findById_some idOf _ _ _ Hid) as [_ H].
      apply Nat.eqb_neq in E. congruence.
    + now apply IH.
Qed.

(** With unique ids, a stored document is the one found under its id. *)
Lemma findById_in (l : list A) (x : A) :
  NoDup (map idOf l) -> In x l -> findById idOf (idOf x) l = Some x.
Proof.
  unfold findById. intros Hnd Hin.
  induction l as [|y rest IH]; simpl in *; [contradiction|].
  inversion Hnd as [|? ? Hnotin Hrest]; subst.
  destruct Hin as [->|Hin]; [now rewrite Nat.eqb_refl|].
  destruct (Nat.eqb (idOf y) (idOf x)) eqn:E; [|now apply IH].
  apply Nat.eqb_eq in E. exfalso. apply Hnotin. rewrite E. now apply in_map.
Qed.
End MoreFindFacts.

Section PasswordFacts.
Import UserService.
Context {L : Libraries} {LS : LibrariesSpec L}.

(** X17.  After an accepted change of password the new password logs in:
    when POST /users/:id/change-password answers 200, the body held the
    current password of the caller's own account and a new one of at least
    six characters, and POST /auth/login with the e-mail that finds the
    account and the new password succeeds. *)
Theorem change_password_round_trip payload id body salt now db user email later :
  User_findById (tp_id payload) db = Some user ->
  User_findByEmail email db = Some user ->
  email <> "" -> isEmail email = true ->
  res_status (fst (postChangePassword payload id body salt now db)) = 200 ->
  let db' := snd (postChangePassword payload id body salt now db) in
  id = GoodId (usr_id user)
  /\ bcrypt_compare (text (pb_currentPassword body)) (usr_passwordHash user) = true
  /\ (6 <= String.length (text (pb_newPassword body)))%nat
  /\ res_status (fst (postLogin (mkLoginBody (Some email) (pb_newPassword body))
                                later db')) = 200.
Proof.
  intros Hid Hmail Hne Hsyntax. cbv zeta. unfold postChangePassword. rewrite Hid.
  destruct id as [|n]; [simpl; intros H; discriminate H|].
  destruct (Nat.eqb (usr_id user) n) eqn:Hown; cbn [negb];
    [|simpl; intros H; discriminate H].
  apply Nat.eqb_eq in Hown. subst n.
  destruct (negb (JS.truthy (text (pb_currentPassword body)))
            || negb (JS.truthy (text (pb_newPassword body)))) eqn:Hgiven;
    [simpl; intros H; discriminate H|].
  destruct (String.length (text (pb_newPassword body)) <? 6)%nat eqn:Hlen;
    [simpl; intros H; discriminate H|].
  unfold User_findById in Hid.
  destruct (findById_some _ _ _ _ Hid) as [_ Hpayload].
  unfold User_findById. rewrite <- Hpayload in Hid. rewrite Hid.
  destruct (bcrypt_compare _ (usr_passwordHash user)) eqn:Hmatch; cbn [negb];
    [|simpl; intros H; discriminate H].
  destruct (User_valid _) eqn:Hvalid; [|simpl; intros H; discriminate H].
  intros _. cbn [snd].
  split; [reflexivity|]. split; [reflexivity|].
  split; [now apply Nat.ltb_ge in Hlen|].
  apply orb_false_iff in Hgiven. destruct Hgiven as [_ Hnew].
  apply negb_false_iff in Hnew.
  destruct (pb_newPassword body) as [new|]; [|discriminate Hnew].
  cbn [text] in *.
  apply truthy_true in Hne.
  unfold postLogin, loginSchema, joiEmail, joiString.
  cbn [lb_email lb_password firstError text].
  rewrite Hne, Hsyntax, Hnew. cbn [negb Nat.ltb Nat.leb firstError].
  set (written := User_stamp (User_setPasswordHash user (bcrypt_hash new salt)) now).
  assert (Hfound : User_findByEmail email (User_save
            (User_setPasswordHash user (bcrypt_hash new salt)) now db)
          = Some written).
  { unfold User_findByEmail, User_save in *. cbn [users].
    apply (find_updateOne usr_id _ written user); [exact Hid|exact Hmail|].
    cbn [written User_stamp User_setPasswordHash usr_email].
    apply find_some in Hmail. tauto. }
  rewrite Hfound.
  cbn [written User_stamp User_setPasswordHash usr_passwordHash].
  rewrite bcrypt_compare_hash. reflexivity.
Qed.

End PasswordFacts.

Section PasswordExamples.
Import UserService.

(** Dave replaces secret1 by secret2 and logs in with secret2. *)
Lemma change_password_round_trip_witness :
  res_status
    (fst (postLogin (L := toy) (mkLoginBody (Some "Dave@School.org") (Some "secret2")) 70
            (snd (postChangePassword (L := toy) daveToken (GoodId 0%nat)
                    newPasswordBody "pepper" 60 db1))))
  = 200.
Proof.
  refine (proj2 (proj2 (proj2
            (change_password_round_trip (L := toy) (LS := toySpec)
               daveToken (GoodId 0%nat) newPasswordBody "pepper" 60 db1 _
               "Dave@School.org" 70 eq_refl eq_refl _ eq_refl eq_refl)))).
  discriminate.
Defined.

End PasswordExamples.

Section AccountFacts.
Import UserService.
Context {L : Libraries}.

(** Writing back a stored user under unchanged id, e-mail and user name
    keeps the store well-formed. *)
Lemma User_save_keeps user written now db :
  In user (users db) ->
  usr_id written = usr_id user ->
  usr_email written = usr_email user ->
  usr_username written = usr_username user ->
  idsFresh db -> uniqueAccounts db ->
  idsFresh (User_save written now db) /\ uniqueAccounts (User_save written now db).
Proof.
  intros Hin Hid Hemail Hname [Hids Hbelow] [Hemails Hnames].
  pose proof (findById_in usr_id _ _ Hids Hin) as Hfind.
  rewrite <- Hid in Hfind.
  unfold idsFresh, uniqueAccounts, User_save. cbn [users nextId].
  rewrite (map_updateOne usr_id usr_id (User_stamp written now) user _ Hfind)
    by exact Hid.
  rewrite (map_updateOne usr_id usr_email (User_stamp written now) user _ Hfind)
    by exact Hemail.
  rewrite (map_updateOne usr_id usr_username (User_stamp written now) user _ Hfind)
    by exact Hname.
  repeat split; try assumption.
  apply Forall_updateOne; [exact Hbelow|].
  cbn [User_stamp usr_id]. rewrite Hid.
  rewrite Forall_forall in Hbelow. now apply Hbelow.
Qed.

(** X18.  No request makes two accounts share an e-mail address or a user
    name: in a store whose ids are unique, if the stored e-mail addresses and
    the stored user names are pairwise different, all of this still holds
    after any registration, login, update or change of password. *)
Theorem accounts_stay_unique request now db :
  idsFresh db -> uniqueAccounts db ->
  idsFresh (serve request now db) /\ uniqueAccounts (serve request now db).
Proof.
  intros Hfresh Hunique.
  destruct request as [body salt|body|payload id body|payload id body salt];
    cbn [serve].
  - unfold postRegister.
    destruct (registerSchema body); [now split|].
    destruct (User_findByEmailOrUsername _ _ db) eqn:Hfree; [now split|].
    destruct (User_valid _ && negb _); [|now split].
    cbn [snd]. destruct Hfresh as [Hids Hbelow], Hunique as [Hemails Hnames].
    unfold idsFresh, uniqueAccounts, User_insert. cbn [users nextId].
    rewrite !map_app. cbn [map User_stamp User_new usr_email usr_username usr_id].
    unfold User_findByEmailOrUsername in Hfree.
    pose proof (find_none _ _ Hfree) as Hnone.
    rewrite Forall_forall in Hbelow.
    split; split.
    + apply NoDup_snoc; [exact Hids|].
      rewrite in_map_iff. intros (x & Hx & Hin).
      specialize (Hbelow x Hin). cbn beta in Hbelow.
      rewrite Hx in Hbelow. exact (Nat.lt_irrefl _ Hbelow).
    + apply Forall_app. split.
      * apply Forall_forall. intros x Hin. specialize (Hbelow x Hin).
        cbn beta in Hbelow. now apply Nat.lt_lt_succ_r.
      * constructor; [cbn [usr_id]; apply Nat.lt_succ_diag_r|constructor].
    + apply NoDup_snoc; [exact Hemails|].
      rewrite in_map_iff. intros (x & Hx & Hin).
      specialize (Hnone x Hin). cbn beta in Hnone.
      rewrite Hx, String.eqb_refl in Hnone. discriminate Hnone.
    + apply NoDup_snoc; [exact Hnames|].
      rewrite in_map_iff. intros (x & Hx & Hin).
      specialize (Hnone x Hin). cbn beta in Hnone.
      rewrite Hx, String.eqb_refl, orb_true_r in Hnone. discriminate Hnone.
  - unfold postLogin.
    destruct (loginSchema body); [now split|].
    destruct (User_findByEmail _ db) as [user|] eqn:Hfind; [|now split].
    destruct (negb _); [now split|].
    cbn [snd]. destruct (User_valid _); [|now split].
    unfold User_findByEmail in Hfind. apply find_some in Hfind.
    now apply User_save_keeps with (user := user).
  - unfold putUser.
    destruct (User_findById (tp_id payload) db) as [reqUser|]; [|now split].
    destruct (negb _ && negb _); [now split|].
    destruct id as [|n]; [now split|].
    destruct (User_findById n db) as [user|] eqn:Hfind; [|now split].
    destruct (User_valid _); [|now split]. cbn [snd].
    apply findById_some in Hfind.
    apply User_save_keeps with (user := user); try tauto;
      destruct (String.eqb (usr_role reqUser) "admin"); reflexivity.
  - unfold postChangePassword.
    destruct (User_findById (tp_id payload) db) as [reqUser|]; [|now split].
    destruct id as [|n]; [now split|].
    destruct (negb (Nat.eqb _ _)); [now split|].
    destruct (negb _ || negb _); [now split|].
    destruct (_ <? _)%nat; [now split|].
    destruct (User_findById n db) as [user|] eqn:Hfind; [|now split].
    destruct (negb _); [now split|].
    destruct (User_valid _); [|now split]. cbn [snd].
    apply findById_some in Hfind.
    apply User_save_keeps with (user := user); try tauto; reflexivity.
Qed.

End AccountFacts.

Section AccountExamples.
Import UserService.

(** A second registration with Dave's address in other letters is refused,
    and the store keeps one account per address. *)
Lemma accounts_stay_unique_witness :
  uniqueAccounts
    (serve (L := toy)
       (Register (mkRegisterBody (Some "david") (Some "DAVE@school.org")
                                 (Some "secret9") (Some "D") (Some "J") (Some "teacher"))
                 "salt")
       80 db1).
Proof.
  refine (proj2 (accounts_stay_unique (L := toy) _ 80 db1 _ _)).
  - split; [repeat constructor; simpl; tauto|].
    repeat constructor.
  - split; repeat constructor; simpl; tauto.
Defined.

End AccountExamples.

Section GuardedFieldFacts.
Import UserService.
Context {L : Libraries}.

Lemma after_User_save n u user written now db :
  NoDup (map usr_id (users db)) ->
  User_findById n db = Some u ->
  In user (users db) ->
  usr_id written = usr_id user ->
  (n = usr_id user /\ u = user
   /\ User_findById n (User_save written now db) = Some (User_stamp written now))
  \/ (n <> usr_id user /\ User_findById n (User_save written now db) = Some u).
Proof.
  intros Hids Hfind Hin Hid. unfold User_findById, User_save in *. cbn [users].
  destruct (Nat.eq_dec n (usr_id user)) as [->|Hne].
  - left. pose proof (findById_in usr_id _ _ Hids Hin) as Huser.
    rewrite Huser in Hfind. injection Hfind as <-.
    split; [reflexivity|]. split; [reflexivity|].
    rewrite <- Hid in Huser |- *.
    apply (findById_updateOne usr_id (User_stamp written now) user _ Huser).
  - right. split; [exact Hne|].
    rewrite findById_updateOne_other; [exact Hfind|].
    cbn [User_stamp usr_id]. congruence.
Qed.

(** X19.  Accounts are never removed and their sensitive fields are guarded:
    after any registration, login, update or change of password, every stored
    user is still found under its id with the same e-mail address and user
    name; its password hash is the same unless the request is a change of
    password made by that very user with a current password that matches the
    stored hash; its role and status are the same unless the request is an
    update made by a caller whose stored role is admin. *)
Theorem account_fields_guarded request now db n u :
  idsFresh db ->
  User_findById n db = Some u ->
  exists u',
    User_findById n (serve request now db) = Some u'
    /\ usr_email u' = usr_email u
    /\ usr_username u' = usr_username u
    /\ (usr_passwordHash u' = usr_passwordHash u
        \/ exists payload body salt,
             request = ChangePassword payload (GoodId n) body salt
             /\ tp_id payload = n
             /\ bcrypt_compare (text (pb_currentPassword body)) (usr_passwordHash u)
                = true)
    /\ ((usr_role u' = usr_role u /\ usr_status u' = usr_status u)
        \/ exists payload body caller,
             request = UpdateUser payload (GoodId n) body
             /\ User_findById (tp_id payload) db = Some caller
             /\ usr_role caller = "admin").
Proof.
  intros [Hids _] Hfind.
  assert (Hsame : exists u',
    User_findById n db = Some u'
    /\ usr_email u' = usr_email u /\ usr_username u' = usr_username u
    /\ (usr_passwordHash u' = usr_passwordHash u
        \/ exists payload body salt,
             request = ChangePassword payload (GoodId n) body salt
             /\ tp_id payload = n
             /\ bcrypt_compare (text (pb_currentPassword body)) (usr_passwordHash u)
                = true)
    /\ ((usr_role u' = usr_role u /\ usr_status u' = usr_status u)
        \/ exists payload body caller,
             request = UpdateUser payload (GoodId n) body
             /\ User_findById (tp_id payload) db = Some caller
             /\ usr_role caller = "admin")).
  { exists u. repeat split; auto. }
  destruct request as [body salt|body|payload id body|payload id body salt];
    cbn [serve].
  - unfold postRegister.
    destruct (registerSchema body); [exact Hsame|].
    destruct (User_findByEmailOrUsername _ _ db); [exact Hsame|].
    destruct (User_valid _ && negb _); [|exact Hsame].
    cbn [snd]. exists u. unfold User_findById, User_insert in *. cbn [users].
    unfold findById in *. rewrite (find_app_some _ _ _ _ Hfind).
    repeat split; auto.
  - unfold postLogin.
    destruct (loginSchema body); [exact Hsame|].
    destruct (User_findByEmail _ db) as [user|] eqn:Huser; [|exact Hsame].
    destruct (negb _); [exact Hsame|].
    cbn [snd]. destruct (User_valid _); [|exact Hsame].
    unfold User_findByEmail in Huser. apply find_some in Huser.
    destruct Huser as [Hin _].
    destruct (after_User_save n u user (User_setLastLogin user now) now db
                Hids Hfind Hin eq_refl) as [(_ & -> & Hnew)|(_ & Hold)].
    + eexists. split; [exact Hnew|]. repeat split; auto.
    + exists u. split; [exact Hold|]. repeat split; auto.
  - unfold putUser.
    destruct (User_findById (tp_id payload) db) as [reqUser|] eqn:Hreq; [|exact Hsame].
    destruct (negb _ && negb _); [exact Hsame|].
    destruct id as [|target]; [exact Hsame|].
    destruct (User_findById target db) as [user|] eqn:Huser; [|exact Hsame].
    destruct (User_valid _); [|exact Hsame]. cbn [snd].
    unfold User_findById in Huser.
    destruct (findById_some _ _ _ _ Huser) as [Hin Htarget].
    set (written := if String.eqb (usr_role reqUser) "admin"
                    then assignAdminFields (assignProfile user body) body
                    else assignProfile user body).
    assert (Hid : usr_id written = usr_id user).
    { unfold written. destruct (String.eqb (usr_role reqUser) "admin"); reflexivity. }
    destruct (after_User_save n u user written now db Hids Hfind Hin Hid)
      as [(Hn & -> & Hnew)|(_ & Hold)].
    + eexists. split; [exact Hnew|].
      unfold written.
      destruct (String.eqb (usr_role reqUser) "admin") eqn:Hrole.
      * repeat (split; [reflexivity || (left; reflexivity)|]).
        right. exists payload, body, reqUser.
        apply String.eqb_eq in Hrole. rewrite Hn, Htarget. auto.
      * repeat (split; [reflexivity || (left; reflexivity)|]).
        left. split; reflexivity.
    + exists u. split; [exact Hold|]. repeat split; auto.
  - unfold postChangePassword.
    destruct (User_findById (tp_id payload) db) as [reqUser|] eqn:Hreq; [|exact Hsame].
    destruct id as [|target]; [exact Hsame|].
    destruct (Nat.eqb (usr_id reqUser) target) eqn:Hown; cbn [negb]; [|exact Hsame].
    destruct (negb _ || negb _); [exact Hsame|].
    destruct (_ <? _)%nat; [exact Hsame|].
    destruct (User_findById target db) as [user|] eqn:Huser; [|exact Hsame].
    destruct (bcrypt_compare _ (usr_passwordHash user)) eqn:Hmatch; cbn [negb];
      [|exact Hsame].
    destruct (User_valid _); [|exact Hsame]. cbn [snd].
    unfold User_findById in Huser, Hreq.
    destruct (findById_some _ _ _ _ Huser) as [Hin Htarget].
    destruct (findById_some _ _ _ _ Hreq) as [_ Hcaller].
    apply Nat.eqb_eq in Hown.
    destruct (after_User_save n u user
                (User_setPasswordHash user
                   (bcrypt_hash (text (pb_newPassword body)) salt))
                now db Hids Hfind Hin eq_refl) as [(Hn & -> & Hnew)|(_ & Hold)].
    + eexists. split; [exact Hnew|].
      split; [reflexivity|]. split; [reflexivity|]. split.
      * right. exists payload, body, salt. rewrite Hn, Htarget.
        split; [reflexivity|]. split; [congruence|exact Hmatch].
      * left. split; reflexivity.
    + exists u. split; [exact Hold|]. repeat split; auto.
Qed.

End GuardedFieldFacts.

Section GuardedFieldExamples.
Import UserService.

(** Dave's self-update with role admin in the payload leaves him a student. *)
Lemma account_fields_guarded_witness :
  exists u',
    User_findById 0%nat (serve (L := toy) (UpdateUser daveToken (GoodId 0%nat) renameBody)
                               50 db1) = Some u'
    /\ usr_email u' = "dave@school.org"
    /\ usr_username u' = "dave"
    /\ (usr_passwordHash u' = "saltsecret1"
        \/ exists payload body salt,
             UpdateUser daveToken (GoodId 0%nat) renameBody
             = ChangePassword payload (GoodId 0%nat) body salt
             /\ tp_id payload = 0%nat
             /\ bcrypt_compare (Libraries := toy) (text (pb_currentPassword body))
                               "saltsecret1" = true)
    /\ ((usr_role u' = "student" /\ usr_status u' = "active")
        \/ exists payload body caller,
             UpdateUser daveToken (GoodId 0%nat) renameBody
             = UpdateUser payload (GoodId 0%nat) body
             /\ User_findById (tp_id payload) db1 = Some caller
             /\ usr_role caller = "admin").
Proof.
  refine (account_fields_guarded (L := toy)
            (UpdateUser daveToken (GoodId 0%nat) renameBody) 50 db1 0%nat _ _ eq_refl).
  split; [repeat constructor; simpl; tauto|repeat constructor].
Defined.

End GuardedFieldExamples.

(** ** Frontend: the badge of unread notifications *)

Section BadgeFacts.
Import CommunicationService Frontend.

Lemma unread_cons n l :
  unread (n :: l) = unread l + (if n_read n then 0 else 1).
Proof.
  unfold unread. cbn [filter]. destruct (n_read n); cbn [negb List.length]; lia.
Qed.

Lemma unread_all_read now l :
  unread (map (fun x => Notification_markRead x now) l) = 0.
Proof.
  induction l as [|x rest IH]; [reflexivity|].
  cbn [map]. rewrite unread_cons, IH. reflexivity.
Qed.

Lemma ids_after_delete id l :
  NoDup (map n_id l) ->
  NoDup (map n_id (filter (fun x => negb (Nat.eqb (n_id x) id)) l)).
Proof.
  induction l as [|x rest IH]; simpl; intros Hnd; [constructor|].
  inversion Hnd as [|? ? Hnotin Hrest]; subst.
  destruct (Nat.eqb (n_id x) id); cbn [negb]; [now apply IH|].
  cbn [map]. constructor; [|now apply IH].
  rewrite in_map_iff. intros (y & Hy & Hin). apply filter_In in Hin.
  apply Hnotin. rewrite <- Hy. apply in_map. tauto.
Qed.

Lemma filter_absent id l :
  ~ In id (map n_id l) ->
  filter (fun x => negb (Nat.eqb (n_id x) id)) l = l.
Proof.
  induction l as [|x rest IH]; simpl; intros Hnotin; [reflexivity|].
  destruct (Nat.eqb (n_id x) id) eqn:E.
  - apply Nat.eqb_eq in E. exfalso. apply Hnotin. now left.
  - cbn [negb]. f_equal. apply IH. tauto.
Qed.

Lemma unread_after_delete id l :
  NoDup (map n_id l) ->
  unread (filter (fun x => negb (Nat.eqb (n_id x) id)) l)
  = match find (fun x => Nat.eqb (n_id x) id) l with
    | Some d => if negb (n_read d) then unread l - 1 else unread l
    | None => unread l
    end.
Proof.
  induction l as [|x rest IH]; simpl; intros Hnd; [reflexivity|].
  inversion Hnd as [|? ? Hnotin Hrest]; subst.
  destruct (Nat.eqb (n_id x) id) eqn:E; cbn [negb].
  - apply Nat.eqb_eq in E. subst id.
    rewrite (filter_absent _ _ Hnotin), unread_cons.
    destruct (n_read x); cbn [negb]; lia.
  - rewrite !unread_cons, (IH Hrest).
    destruct (find _ rest) as [d|]; [destruct (negb (n_read d))|]; lia.
Qed.

(** X20.  The reducer of the communication slice keeps the badge right: if
    [unreadNotificationsCount] is the number of unread notifications of the
    list and no id is listed twice, the same holds after every action, as
    long as a pushed notification is new and unread and a fetched list has no
    id twice. *)
Theorem reducer_keeps_badge s action :
  badgeConsistent s -> fromService s action -> badgeConsistent (reducer s action).
Proof.
  destruct s as [connected inbox outbox message announcements announcement
                 notifications count loading error].
  unfold badgeConsistent. cbn [cs_unreadNotificationsCount cs_notifications].
  intros [Hcount Hids] Hfrom.
  destruct action; cbn [reducer cs_unreadNotificationsCount cs_notifications];
    try (split; assumption).
  - cbn [fromService cs_notifications] in Hfrom. destruct Hfrom as [Hread Hnew].
    split.
    + rewrite unread_cons, Hread, Hcount. reflexivity.
    + cbn [map]. now constructor.
  - destruct (tracked t); cbn [cs_unreadNotificationsCount cs_notifications];
      split; assumption.
  - destruct t; cbn [tracked cs_unreadNotificationsCount cs_notifications];
      split; assumption.
  - split; [reflexivity|exact Hfrom].
  - split; [reflexivity|].
    rewrite map_map.
    erewrite map_ext_in; [exact Hids|].
    intros x _. cbn beta.
    destruct (Nat.eqb (n_id x) (n_id n)) eqn:E; [|reflexivity].
    now apply Nat.eqb_eq in E.
  - split; [now rewrite unread_all_read|].
    rewrite map_map. erewrite map_ext; [exact Hids|]. reflexivity.
  - split; [|now apply ids_after_delete].
    rewrite (unread_after_delete _ _ Hids), Hcount.
    destruct (find _ notifications) as [d|]; [destruct (negb (n_read d))|];
      reflexivity.
Qed.

(** A notification is pushed over the socket into the empty list. *)
Lemma reducer_keeps_badge_witness :
  badgeConsistent
    (reducer initialState
       (AddNotification
          (mkNotification 1%nat (Some "carol") "New Message" "Hello" "info"
                          "message" 0%nat false None 100))).
Proof.
  refine (reducer_keeps_badge initialState _ _ _).
  - split; [reflexivity|constructor].
  - split; [reflexivity|]. simpl. tauto.
Defined.

End BadgeFacts.

(** ** The bearer-token middleware *)

Section MiddlewareFacts.
Import Middleware.

Lemma splitSpace_spaceless s : spaceless s = true -> splitSpace s = [s].
Proof.
  induction s as [|c rest IH]; [reflexivity|]. cbn [spaceless splitSpace].
  destruct (Ascii.eqb c " "); [discriminate|]. cbn [negb andb].
  intros H. now rewrite (IH H).
Qed.

Lemma splitSpace_first scheme rest :
  spaceless scheme = true ->
  splitSpace (String.append scheme (String " " rest)) = scheme :: splitSpace rest.
Proof.
  induction scheme as [|c scheme' IH]; [reflexivity|].
  cbn [spaceless String.append splitSpace].
  destruct (Ascii.eqb c " "); [discriminate|]. cbn [negb andb].
  intros H. now rewrite (IH H).
Qed.

(** X21.  The middleware looks at the second word of the Authorization
    header only.  For any first word and any non-empty token, both without
    spaces, the services and the gateway let the request through exactly when
    [jwt.verify] accepts the token, with the decoded user, and answer 403
    otherwise: the scheme is never compared with Bearer.  A request without
    the header gets 401 from both.  And, [jwt.verify] refusing the empty
    token, the gateway lets through exactly the requests the services let
    through. *)
Theorem middleware_ignores_scheme jwt_verify :
  (forall scheme token,
     spaceless scheme = true -> spaceless token = true -> token <> "" ->
     let header := Some (String.append scheme (String " " token)) in
     authenticateToken jwt_verify header
     = match jwt_verify token with
       | Some user => Next user
       | None => Refused 403
       end
     /\ gatewayAuthenticateToken jwt_verify header
        = authenticateToken jwt_verify header)
  /\ authenticateToken jwt_verify None = Refused 401
  /\ gatewayAuthenticateToken jwt_verify None = Refused 401
  /\ (jwt_verify "" = None ->
      forall header user,
        gatewayAuthenticateToken jwt_verify header = Next user
        <-> authenticateToken jwt_verify header = Next user).
Proof.
  split; [|split; [reflexivity|split; [reflexivity|]]].
  - intros scheme token Hscheme Htoken Hne. cbv zeta.
    apply truthy_true in Hne.
    assert (Hheader : JS.truthy (String.append scheme (String " " token)) = true).
    { destruct scheme; reflexivity. }
    unfold authenticateToken, gatewayAuthenticateToken.
    rewrite Hheader. cbn [negb].
    rewrite (splitSpace_first _ _ Hscheme), (splitSpace_spaceless _ Htoken).
    cbn [nth_error]. rewrite Hne. cbn [negb]. split; reflexivity.
  - intros Hempty header user.
    unfold authenticateToken, gatewayAuthenticateToken.
    destruct header as [h|]; [|tauto].
    destruct (JS.truthy h) eqn:Hh; cbn [negb].
    + destruct (nth_error (splitSpace h) 1) as [token|]; [|tauto].
      destruct (JS.truthy token) eqn:Ht; cbn [negb]; [tauto|].
      assert (token = "") as ->.
      { unfold JS.truthy in Ht. apply negb_false_iff in Ht.
        now apply String.eqb_eq in Ht. }
      rewrite Hempty. split; intros H; discriminate H.
    + assert (h = "") as ->.
      { unfold JS.truthy in Hh. apply negb_false_iff in Hh.
        now apply String.eqb_eq in Hh. }
      rewrite Hempty. split; intros H; discriminate H.
Qed.

End MiddlewareFacts.

Section MiddlewareExamples.
Import Middleware CommunicationService.

(** Bob's token passes under the scheme Basic as well. *)
Lemma middleware_ignores_scheme_witness :
  authenticateToken verifyDemo (Some "Basic token-bob")
  = Next (mkAuthUser "bob" "teacher").
Proof.
  refine (proj1 (proj1 (middleware_ignores_scheme verifyDemo)
                   "Basic" "token-bob" eq_refl eq_refl _)).
  discriminate.
Defined.

End MiddlewareExamples.

(** ** Frontend: the auth slice *)

Section AuthSliceFacts.
Import Frontend.
Context {U : Type}.

Lemma authReducer_step (s : AuthState (U := U)) action :
  (as_token (authReducer s action) = as_token s
   \/ as_token (authReducer s action) = None)
  /\ (as_isAuthenticated s = true -> as_user s <> None ->
      as_isAuthenticated (authReducer s action) = true ->
      as_user (authReducer s action) <> None)
  /\ (as_isAuthenticated (authReducer s action) = true ->
      as_isAuthenticated s = false ->
      as_user (authReducer s action) <> None).
Proof.
  destruct action as [|t|t payload|user|user|user|user| |]; try destruct t;
    cbn [authReducer as_token as_isAuthenticated as_user];
    repeat split; auto; try discriminate; try congruence.
Qed.

(** X22.  The auth slice never stores a token and never reports a session
    without a user: after any sequence of actions, the [token] of the state
    is the one it started with (read from local storage when the page
    loaded) or null, a login or a registration does not set it, and whenever
    [isAuthenticated] is true the [user] is set. *)
Theorem auth_slice_never_sets_token (s : AuthState (U := U)) actions :
  (as_isAuthenticated s = true -> as_user s <> None) ->
  (as_token (authRun s actions) = as_token s \/ as_token (authRun s actions) = None)
  /\ (as_isAuthenticated (authRun s actions) = true ->
      as_user (authRun s actions) <> None).
Proof.
  unfold authRun. revert s.
  induction actions as [|action rest IH]; intros s Hs; cbn [fold_left].
  - split; [now left|exact Hs].
  - destruct (authReducer_step s action) as (Htoken & Hkeep & Hnew).
    destruct (IH (authReducer s action)) as [Htoken' Huser'].
    + intros Hauth. destruct (as_isAuthenticated s) eqn:E.
      * apply Hkeep; auto.
      * now apply Hnew.
    + split; [|exact Huser'].
      destruct Htoken' as [H|H]; [|now right].
      rewrite H. exact Htoken.
Qed.

End AuthSliceFacts.

Section AuthSliceExamples.
Import Frontend.

(** A page loaded without a token, then a successful login. *)
Lemma auth_slice_never_sets_token_witness :
  (as_token (authRun (authInitialState None)
               [AuthPending LoginThunk; LoginFulfilled "dave"]) = None
   \/ as_token (authRun (authInitialState None)
                  [AuthPending LoginThunk; LoginFulfilled "dave"]) = None)
  /\ (as_isAuthenticated (authRun (authInitialState None)
                            [AuthPending LoginThunk; LoginFulfilled "dave"]) = true ->
      as_user (authRun (authInitialState None)
                 [AuthPending LoginThunk; LoginFulfilled "dave"]) <> None).
Proof.
  refine (auth_slice_never_sets_token (U := string) (authInitialState None)
            [AuthPending LoginThunk; LoginFulfilled "dave"] _).
  discriminate.
Defined.

End AuthSliceExamples.

(** ** Communication service: deleting and owning *)

Section OwnershipFacts.
Import CommunicationService.

Lemma in_updateOne_other {A : Type} (idOf : A -> oid) (doc old x : A) (l : list A) :
  findById idOf (idOf doc) l = Some old -> In x l -> x <> old ->
  In x (updateOne idOf doc l).
Proof.
  unfold findById. induction l as [|y rest IH]; simpl; [tauto|].
  destruct (Nat.eqb (idOf y) (idOf doc)); simpl.
  - intros H. injection H as ->. intros [->|Hin] Hne; [contradiction|now right].
  - intros Hfind [->|Hin] Hne; [now left|right; now apply IH].
Qed.

Lemma in_deleteOne_other {A : Type} (idOf : A -> oid) (id : oid) (old x : A)
    (l : list A) :
  findById idOf id l = Some old -> In x l -> x <> old ->
  In x (deleteOne idOf id l).
Proof.
  unfold findById. induction l as [|y rest IH]; simpl; [tauto|].
  destruct (Nat.eqb (idOf y) id); simpl.
  - intros H. injection H as ->. intros [->|Hin] Hne; [contradiction|exact Hin].
  - intros Hfind [->|Hin] Hne; [now left|right; now apply IH].
Qed.

(** X23.  A user's notifications are out of reach of the others: whatever
    another caller sends to PUT /notifications/:id/read,
    PUT /notifications/read-all or DELETE /notifications/:id, every stored
    notification that belongs to somebody else is stored afterwards, exactly
    as it was. *)
Theorem notifications_owner_only user id now st n :
  In n (notifications st) ->
  n_userId n <> Some (u_id user) ->
  In n (notifications (snd (putNotificationRead user id now st)))
  /\ In n (notifications (snd (putNotificationsReadAll user now st)))
  /\ In n (notifications (snd (deleteNotification user id st))).
Proof.
  intros Hin Hother.
  assert (Hne : forall found, n_userId found = Some (u_id user) -> n <> found)
    by (intros found Hf ->; contradiction).
  split; [|split].
  - unfold putNotificationRead.
    destruct id as [|nid]; [exact Hin|].
    destruct (Notification_findById nid st) as [found|] eqn:Hfound; [|exact Hin].
    destruct (JS.strict_eq (n_userId found) (Some (u_id user))) eqn:Hown;
      cbn [negb]; [|exact Hin].
    destruct (Notification_valid _); [|exact Hin].
    cbn [snd setNotifications notifications].
    apply strict_eq_true in Hown. unfold Notification_findById in Hfound.
    destruct (findById_some _ _ _ _ Hfound) as [_ Hid].
    apply in_updateOne_other with (old := found); auto.
    cbn [Notification_markRead n_id]. now rewrite Hid.
  - unfold putNotificationsReadAll. cbn [snd setNotifications notifications].
    apply in_map_iff. exists n. split; [|exact Hin].
    destruct (JS.strict_eq (n_userId n) (Some (u_id user))) eqn:Hown; [|reflexivity].
    apply strict_eq_true in Hown. contradiction.
  - unfold deleteNotification.
    destruct id as [|nid]; [exact Hin|].
    destruct (Notification_findById nid st) as [found|] eqn:Hfound; [|exact Hin].
    destruct (JS.strict_eq (n_userId found) (Some (u_id user))) eqn:Hown;
      cbn [negb]; [|exact Hin].
    cbn [snd setNotifications notifications].
    apply strict_eq_true in Hown.
    apply in_deleteOne_other with (old := found); auto.
Qed.

(** Bob cannot touch the notification carol got for his message. *)
Lemma notifications_owner_only_witness :
  notifications (snd (deleteNotification bob (GoodId 1%nat) st3)) = notifications st3
  /\ forall n, In n (notifications st3) ->
       In n (notifications (snd (putNotificationRead bob (GoodId 1%nat) 200 st3))).
Proof.
  split; [reflexivity|].
  intros n Hin.
  refine (proj1 (notifications_owner_only bob (GoodId 1%nat) 200 st3 n Hin _)).
  destruct Hin as [<-|[]]. vm_compute. discriminate.
Defined.

Lemma in_deleteOne_iff {A : Type} (idOf : A -> oid) (id : oid) (x : A) (l : list A) :
  idOf x <> id -> In x (deleteOne idOf id l) <-> In x l.
Proof.
  intros Hne. induction l as [|y rest IH]; simpl; [tauto|].
  destruct (Nat.eqb (idOf y) id) eqn:E; simpl.
  - apply Nat.eqb_eq in E. split; [now right|].
    intros [->|Hin]; [contradiction|exact Hin].
  - rewrite IH. tauto.
Qed.

(** X24.  DELETE /messages/:id deletes for both sides: only the sender and
    the recipient of a message get 200, and once either of them has, the
    message is in nobody's inbox and in nobody's outbox, the other party's
    included, while every mailbox keeps its other messages (ids being
    unique in the collection). *)
Theorem deleteMessage_deletes_for_both user mid st :
  NoDup (map m_id (messages st)) ->
  rp_status (fst (deleteMessage user (GoodId mid) st)) = 200 ->
  let st' := snd (deleteMessage user (GoodId mid) st) in
  (exists m, Message_findById mid st = Some m
             /\ (m_senderId m = u_id user \/ m_recipientId m = Some (u_id user)))
  /\ (forall reader m,
        In m (getInbox reader st') \/ In m (getOutbox reader st') -> m_id m <> mid)
  /\ (forall reader m, m_id m <> mid ->
        (In m (getInbox reader st') <-> In m (getInbox reader st))
        /\ (In m (getOutbox reader st') <-> In m (getOutbox reader st))).
Proof.
  intros Hnd. unfold deleteMessage.
  destruct (Message_findById mid st) as [found|] eqn:Hfound;
    [|cbn; discriminate].
  destruct (String.eqb (m_senderId found) (u_id user)) eqn:Hsender;
    destruct (JS.strict_eq (m_recipientId found) (Some (u_id user))) eqn:Hrcpt;
    cbn [negb andb fst snd rp_status refuse]; try discriminate; intros _.
  all: split;
    [exists found; split; [reflexivity|];
     try (left; now apply String.eqb_eq);
     right; now apply strict_eq_true
    |split].
  all: try (intros reader m Hin Hid;
    assert (Hm : In m (deleteOne m_id mid (messages st)))
      by (destruct Hin as [Hin|Hin];
          [unfold getInbox in Hin|unfold getOutbox in Hin];
          apply in_sort_by in Hin; apply filter_In in Hin; exact (proj1 Hin));
    pose proof (findById_deleteOne m_id mid (messages st) Hnd) as Hnone;
    apply findById_none in Hnone; apply Hnone;
    rewrite <- Hid; apply in_map; rewrite Hid; exact Hm).
  all: intros reader m Hid; unfold getInbox, getOutbox;
    rewrite !in_sort_by, !filter_In; cbn [setMessages messages];
    rewrite (in_deleteOne_iff m_id mid m (messages st) Hid); tauto.
Qed.

(** Carol, the recipient, deletes bob's message; it leaves bob's outbox. *)
Lemma deleteMessage_deletes_for_both_witness :
  map m_id (getOutbox bob st3) = [0%nat]
  /\ forall m, In m (getOutbox bob (snd (deleteMessage carol (GoodId 0%nat) st3))) ->
       m_id m <> 0%nat.
Proof.
  split; [reflexivity|].
  intros m Hin.
  refine (proj1 (proj2 (deleteMessage_deletes_for_both carol 0%nat st3 _ _)) bob m
            (or_intror Hin)).
  - vm_compute. repeat constructor; simpl; intuition discriminate.
  - reflexivity.
Defined.

End OwnershipFacts.
